(** * Python bindings of the Non-Metric Space Library for vectors

    A shallow embedding of [python_vect_bindings/nmslib_vector.cc]: the
    [IndexWrapper] class template, the conversion helpers and the functions
    the extension module exports, followed by the properties of the
    index lifecycle, of single and batched k-NN queries and of the stored
    points.

    Conventions.
    - A C++ [int] or [int32_t] is a [Z]; no arithmetic is done on them here
      apart from comparisons.
    - A [float] (binary32) and a [double] (binary64) are [spec_float]
      values of the Standard Library; narrowing and widening are the
      IEEE-754 roundings of [SpecFloat].
    - A function of the module returns [py_result]: the returned object, the
      [ValueError] that the [raise] macro sets before returning [NULL], a
      C++ exception that leaves the function, or undefined behaviour.
    - The handle ([PyObject* ptr], a pointer stored in a Python long) is
      modelled by the [IndexWrapper] it points to; functions that change the
      wrapper return the new wrapper.  Arguments are the values
      [PyArg_ParseTuple] has extracted; one read with the format [i] is a
      C [int]. *)

From Stdlib Require Import ZArith Floats.SpecFloat Numbers.DecimalString.
From stdpp Require Import base option list sorting strings.

Set Warnings "-register-all".

Local Open Scope string_scope.
Local Open Scope list_scope.
Local Open Scope Z_scope.

(** ** Numbers *)

Abbreviation float32 := spec_float (only parsing).
Abbreviation double := spec_float (only parsing).

(** [static_cast<float>(d)]: round to nearest even in binary32. *)
Definition double_to_float (d : double) : float32 :=
  match d with
  | S754_finite s m e => binary_round 24 128 s m e
  | _ => d
  end.

(** Implicit widening of a [float] to a [double] (always exact). *)
Definition float_to_double (f : float32) : double :=
  match f with
  | S754_finite s m e => binary_round 53 1024 s m e
  | _ => f
  end.

Definition float32_of_Z (z : Z) : float32 := binary_normalize 24 128 z 0 false.
Definition double_of_Z (z : Z) : double := binary_normalize 53 1024 z 0 false.

(** The integers that round to a finite [double]: those of magnitude below
    [2^1024 - 2^970]. *)
Definition fits_double (z : Z) : bool :=
  match double_of_Z z with
  | S754_infinity _ => false
  | _ => true
  end.

(** [operator<<] of an integer on a [std::stringstream]. *)
Definition show_Z (z : Z) : string := NilZero.string_of_int (Z.to_int z).

Definition INT_MAX : Z := 2147483647.

(** Conversion of an [npy_intp] or [size_t] to [int] (two's complement). *)
Definition to_int (z : Z) : Z := (z + 2 ^ 31) mod 2 ^ 32 - 2 ^ 31.

(** ** Python objects and results *)

Inductive NPY_TYPES := NPY_INT32 | NPY_FLOAT32 | NPY_OTHER.

#[global] Instance NPY_TYPES_eq_dec : EqDecision NPY_TYPES.
Proof. solve_decision. Defined.

(** The buffer of an array, in elements of four bytes. *)
Inductive npy_buffer :=
| Int32Buf (cells : list Z)
| Float32Buf (cells : list float32)
| OtherBuf.

Record PyArrayObject := mkArray {
  flags_FORTRAN : bool;          (* flags & NPY_FORTRAN *)
  dimensions : list Z;           (* nd = length dimensions *)
  strides : list Z;              (* in bytes *)
  data : npy_buffer
}.

Definition type_num (a : PyArrayObject) : NPY_TYPES :=
  match data a with
  | Int32Buf _ => NPY_INT32
  | Float32Buf _ => NPY_FLOAT32
  | OtherBuf => NPY_OTHER
  end.

Definition nd (a : PyArrayObject) : Z := Z.of_nat (length (dimensions a)).

Definition PyArray_DIM (a : PyArrayObject) (i : nat) : Z := default 0 (dimensions a !! i).

Inductive PyObject :=
| Py_None
| PyInt (z : Z)
| PyFloat (d : double)
| PyString (s : string)
| PyList (items : list PyObject)
| PyArray (a : PyArrayObject).

Inductive py_result (A : Type) :=
| Return (a : A)
| PyErr (msg : string)       (* PyErr_SetString(PyExc_ValueError, msg); return NULL *)
| Thrown                     (* a C++ exception propagates to the caller *)
| Undefined.                 (* null or dangling pointer, read outside a buffer *)
Arguments Return {A} a.
Arguments PyErr {A} msg.
Arguments Thrown {A}.
Arguments Undefined {A}.

(** ** Objects of the library *)

(** [Object(id, label, datalength, data)] copies [datalength] bytes; the
    payload of a vector is kept as its [float] components, so
    [datalength() = 4 * length]. *)
Record Object := mkObject {
  id : Z;
  label : Z;
  components : list float32
}.

Definition datalength (o : Object) : Z := 4 * Z.of_nat (length (components o)).

Abbreviation ObjectVector := (list Object) (only parsing).
Abbreviation IntVector := (list Z) (only parsing).
Abbreviation FloatVector := (list float32) (only parsing).
Abbreviation StringVector := (list string) (only parsing).
Abbreviation AnyParams := (list string) (only parsing).

Definition kDataVector : Z := 1.
Definition kDataString : Z := 2.
Definition kDistFloat : Z := 4.
Definition kDistInt : Z := 5.

(** ** Readers and writers *)

(** [PyFloat_AsDouble]: [None] when the error indicator is set, by the
    TypeError of an object that is not a number or by the OverflowError of
    an integer that is too large for a [double].  (An array is taken as not
    a number; the statements about lists of items that depend on it leave
    arrays out.) *)
Definition PyFloat_AsDouble (o : PyObject) : option double :=
  match o with
  | PyFloat d => Some d
  | PyInt z => if fits_double z then Some (double_of_Z z) else None
  | _ => None
  end.

(** [PyString_AsString]: [None] when the error indicator is set. *)
Definition PyString_AsString (o : PyObject) : option string :=
  match o with
  | PyString s => Some s
  | _ => None
  end.

(** [readList(lst, z, f)]: [push_back] converts the value [f] returns to the
    element type of [z]; [conv] is that conversion. *)
Fixpoint readList {V A : Type} (lst : list PyObject) (z : list A)
    (f : PyObject -> option V) (conv : V -> A) : py_result (list A) :=
  match lst with
  | [] => Return z
  | item :: rest =>
      match f item with
      | None => PyErr "failed to read item from list"
      | Some value => readList rest (z ++ [conv value]) f conv
      end
  end.

(** The address [&arr[0]] of an empty [arr] is never read: the object copies
    [arr.size() * sizeof(float)] bytes. *)
Definition readVector (data : PyObject) (id0 : Z) (dist_type : Z) : py_result Object :=
  match data with
  | PyList l =>
      match readList l ([] : FloatVector) PyFloat_AsDouble double_to_float with
      | Return arr => Return (mkObject id0 (-1) arr)
      | PyErr msg => PyErr msg
      | Thrown => Thrown
      | Undefined => Undefined
      end
  | _ => PyErr "expected DataType.Vector"
  end.

(** The loop of [writeVector] over [i = 0 .. qty-1], storing into the list
    allocated by [PyList_New(qty)]. *)
Fixpoint writeVector_loop (arr : list float32) (i : nat) (n : nat) (z : list PyObject)
  : list PyObject :=
  match n with
  | O => z
  | S n' =>
      match arr !! i with
      | Some f => writeVector_loop arr (S i) n' (<[i := PyFloat (float_to_double f)]> z)
      | None => z
      end
  end.

Definition PyList_New (n : nat) : list PyObject := replicate n Py_None.

Definition writeVector (obj : Object) : py_result PyObject :=
  let arr := components obj in
  let qty := Z.to_nat (datalength obj / 4) in
  Return (PyList (writeVector_loop arr 0 qty (PyList_New qty))).

Definition NMSLIB_DATA_READERS (data_type : Z)
  : option (PyObject -> Z -> Z -> py_result Object) :=
  if decide (data_type = kDataVector) then Some readVector else None.

Definition NMSLIB_DATA_WRITERS (data_type : Z) : option (Object -> py_result PyObject) :=
  if decide (data_type = kDataVector) then Some writeVector else None.

(** ** The library behind the bindings *)

(** The headers the file includes ([space.h], [index.h], [methodfactory.h],
    [spacefactory.h]) are taken as parameters: the space and method
    factories and the virtual methods of [Index<dist_t>].  A factory
    returns [None] when it throws; a method that builds or loads returns the
    state its object is left in and whether it returned normally.  [Search]
    is a [const] method that reports to the query object only: it is given
    by the candidates, with their computed distances, that the method hands
    to the query in the order it discovers them. *)
Class Library (dist_t : Type) := {
  dist_lt : dist_t -> dist_t -> bool;          (* operator< *)
  Space : Type;
  Index : Type;
  CreateSpace : string -> AnyParams -> option Space;
  CreateMethod : bool -> string -> string -> Space -> ObjectVector -> option Index;
  Index_CreateIndex : Index -> AnyParams -> Index * bool;
  Index_LoadIndex : Index -> string -> Index * bool;
  Index_Search : Index -> Space -> Object -> nat -> list (dist_t * Object)
}.

Definition PRINT_PROGRESS : bool := true.

(** [typedef std::pair<dist_t, const Object*> QueueElement] *)
Abbreviation QueueElement dist_t := (dist_t * Object)%type (only parsing).

Section Bindings.
Context {dist_t : Type} `{L : Library dist_t}.

(** *** The result queue *)

(** Modelled from the spec: [KNNQueue] and [KNNQuery] ([knnqueue.h],
    [knnquery.h]) are not in the source file.  The result queue is "a
    bounded max-structure keyed by distance (conceptually a fixed-capacity
    priority queue retaining the k smallest-distance entries seen)"; its top
    is the entry of maximum distance, and among entries of equal distance
    the one discovered first leaves last.  The entries are kept with the
    largest distance first. *)
Record KNNQueue := mkQueue {
  K_ : nat;
  queue_ : list (QueueElement dist_t)
}.

(** Modelled from the spec: the operations of [KNNQueue] the bindings call;
    [TopObject] is the object of the entry of maximum distance and [Pop]
    removes that entry. *)
Definition Empty (q : KNNQueue) : bool := bool_decide (queue_ q = []).
Definition Size (q : KNNQueue) : nat := length (queue_ q).
Definition TopObject (q : KNNQueue) : option Object := snd <$> head (queue_ q).
Definition Pop (q : KNNQueue) : KNNQueue := mkQueue (K_ q) (tail (queue_ q)).
Definition Clone (q : KNNQueue) : KNNQueue := q.

(** Modelled from the spec: an entry enters behind the entries of larger
    distance. *)
Fixpoint queue_insert (x : QueueElement dist_t) (l : list (QueueElement dist_t))
  : list (QueueElement dist_t) :=
  match l with
  | [] => [x]
  | y :: l' => if dist_lt (fst x) (fst y) then y :: queue_insert x l' else x :: l
  end.

(** Modelled from the spec: [Push] on a queue that is not full adds the
    entry; on a full queue it replaces the top when the new distance is
    smaller, so that the [K_] smallest distances seen are retained. *)
Definition Push (distance : dist_t) (object : Object) (q : KNNQueue) : KNNQueue :=
  if decide (Size q < K_ q)%nat then mkQueue (K_ q) (queue_insert (distance, object) (queue_ q))
  else
    match queue_ q with
    | top :: rest =>
        if dist_lt distance (fst top)
        then mkQueue (K_ q) (queue_insert (distance, object) rest)
        else q
    | [] => q
    end.

(** Modelled from the spec: [KNNQuery<dist_t> knn(space, query, k);
    index->Search(&knn, -1); knn.Result()], where every candidate of the
    search is offered to the result queue of capacity [k]. *)
Definition KNNQuery_Result (candidates : list (QueueElement dist_t)) (k : nat) : KNNQueue :=
  foldl (fun q c => Push (fst c) (snd c) q) (mkQueue k []) candidates.

(** *** The wrapper *)

Inductive IndexPtr :=
| nullptr
| Points (i : Index)
| Dangling.                  (* the object it pointed to has been deleted *)

Record IndexWrapper := mkWrapper {
  dist_type_ : Z;
  data_type_ : Z;
  space_type_ : string;
  method_name_ : string;
  index_ : IndexPtr;
  space_ : Space;
  data_ : ObjectVector
}.

Definition set_index_ (p : IndexPtr) (w : IndexWrapper) : IndexWrapper :=
  mkWrapper (dist_type_ w) (data_type_ w) (space_type_ w) (method_name_ w)
            p (space_ w) (data_ w).

Definition set_data_ (d : ObjectVector) (w : IndexWrapper) : IndexWrapper :=
  mkWrapper (dist_type_ w) (data_type_ w) (space_type_ w) (method_name_ w)
            (index_ w) (space_ w) d.

(** The constructor; [None] when [CreateSpace] throws. *)
Definition IndexWrapper_new (dist_type data_type : Z) (space_type : string)
    (space_param : AnyParams) (method_name : string) : option IndexWrapper :=
  match CreateSpace space_type space_param with
  | Some sp => Some (mkWrapper dist_type data_type space_type method_name nullptr sp [])
  | None => None
  end.

Definition GetDistType (w : IndexWrapper) : Z := dist_type_ w.
Definition GetDataType (w : IndexWrapper) : Z := data_type_ w.
Definition GetDataPointQty (w : IndexWrapper) : Z := Z.of_nat (length (data_ w)).

Definition AddDataPoint (z : Object) (w : IndexWrapper) : IndexWrapper :=
  set_data_ (data_ w ++ [z]) w.

(** [data_.at(index)]: [None] is [std::out_of_range]. *)
Definition GetDataPoint (index : Z) (w : IndexWrapper) : option Object :=
  if decide (0 <= index) then data_ w !! Z.to_nat index else None.

(** [delete index_]: deleting a null pointer does nothing, deleting a
    dangling one is undefined. *)
Definition delete_index_ (w : IndexWrapper) : option IndexWrapper :=
  match index_ w with
  | nullptr => Some w
  | Points _ => Some (set_index_ Dangling w)
  | Dangling => None
  end.

(** The shared body of [CreateIndex] and [LoadIndex]: the old index is
    deleted, the pointer is assigned the object the factory returns, and
    only then is that object built or loaded by [run]. *)
Definition replace_index (run : Index -> Index * bool) (w : IndexWrapper)
  : IndexWrapper * py_result unit :=
  match delete_index_ w with
  | None => (w, Undefined)
  | Some w1 =>
      match CreateMethod PRINT_PROGRESS (method_name_ w) (space_type_ w)
                         (space_ w) (data_ w) with
      | None => (w1, Thrown)
      | Some fresh =>
          let '(built, ok) := run fresh in
          (set_index_ (Points built) w1, if ok then Return tt else Thrown)
      end
  end.

Definition CreateIndex (index_params : AnyParams) (w : IndexWrapper)
  : IndexWrapper * py_result unit :=
  replace_index (fun i => Index_CreateIndex i index_params) w.

Definition LoadIndex (fileName : string) (w : IndexWrapper)
  : IndexWrapper * py_result unit :=
  replace_index (fun i => Index_LoadIndex i fileName) w.

(** Conversion of [int k] to the [unsigned K] of [KNNQuery]. *)
Definition to_unsigned (k : Z) : nat := Z.to_nat (k mod 2 ^ 32).

(** [index_->Search(&knn, -1); res = knn.Result()->Clone()] *)
Definition Search_Clone (i : Index) (sp : Space) (query : Object) (k : Z) : KNNQueue :=
  Clone (KNNQuery_Result (Index_Search i sp query (to_unsigned k)) (to_unsigned k)).

(** One turn of [while (!res->Empty()) { ids.insert(ids.begin(),
    res->TopObject()->id()); res->Pop(); }]; [None] when the loop ends. *)
Definition drain_step (res : KNNQueue) (ids : IntVector) : option (KNNQueue * IntVector) :=
  if Empty res then None
  else match TopObject res with
       | Some o => Some (Pop res, id o :: ids)
       | None => None
       end.

(** The whole loop; the queue holds [Size res] entries. *)
Fixpoint drain_loop (n : nat) (res : KNNQueue) (ids : IntVector) : IntVector :=
  match n with
  | O => ids
  | S n' =>
      match drain_step res ids with
      | Some (res', ids') => drain_loop n' res' ids'
      | None => ids
      end
  end.

Definition drain (res : KNNQueue) (ids : IntVector) : IntVector :=
  drain_loop (Size res) res ids.

(** The loop of [KnnQuery] over [i = ids.size()-1 .. 0] storing
    [PyInt_FromLong(ids[i])] into the list [z]; [n] counts the turns left
    and the turn stores at [n-1]. *)
Fixpoint KnnQuery_fill (ids : IntVector) (n : nat) (z : list PyObject) : list PyObject :=
  match n with
  | O => z
  | S i =>
      match ids !! i with
      | Some v => KnnQuery_fill ids i (<[i := PyInt v]> z)
      | None => z
      end
  end.

Definition KnnQuery (k : Z) (query : Object) (w : IndexWrapper) : py_result PyObject :=
  match index_ w with
  | Points i =>
      let ids := drain (Search_Clone i (space_ w) query k) [] in
      Return (PyList (KnnQuery_fill ids (length ids) (PyList_New (length ids))))
  | nullptr | Dangling => Undefined
  end.

(** *** The batch scheduler *)

(** A worker thread of [KnnQueryBatch] is at the head of its loop, or holds
    the work item it popped under the lock, or is copying the result of its
    search into the slot [query_res[query.first]], or has left the loop.
    The threads of a batch interleave their atomic steps: the critical
    section on the queue, the search (which only reads the index), and each
    turn of the copying loop (which writes the slot of the thread only). *)
Inductive worker :=
| AtLoop
| Popped (slot : nat) (query : Object)
| Draining (slot : nat) (res : KNNQueue)
| Exited.

Record batch := mkBatch {
  q : list (nat * Object);
  query_res : list IntVector;
  threads : list worker
}.

Inductive config :=
| Running (b : batch)
| Crashed.

Definition set_thread (t : nat) (ws : worker) (b : batch) : batch :=
  mkBatch (q b) (query_res b) (<[t := ws]> (threads b)).

(** The next atomic step of thread [t]; [None] when there is no such thread
    or it has left its loop.  Taking the reference [query_res[query.first]]
    outside the vector and calling [Search] through an index pointer that
    does not point to an object are undefined. *)
Definition thread_step (k : Z) (w : IndexWrapper) (t : nat) (b : batch) : option config :=
  match threads b !! t with
  | None | Some Exited => None
  | Some AtLoop =>
      match q b with
      | [] => Some (Running (set_thread t Exited b))
      | (i, query) :: rest =>
          Some (Running (mkBatch rest (query_res b) (<[t := Popped i query]> (threads b))))
      end
  | Some (Popped i query) =>
      match query_res b !! i, index_ w with
      | Some _, Points idx =>
          Some (Running (set_thread t (Draining i (Search_Clone idx (space_ w) query k)) b))
      | _, _ => Some Crashed
      end
  | Some (Draining i res) =>
      match query_res b !! i with
      | Some ids =>
          match drain_step res ids with
          | Some (res', ids') =>
              Some (Running (mkBatch (q b) (<[i := ids']> (query_res b))
                                     (<[t := Draining i res']> (threads b))))
          | None => Some (Running (set_thread t AtLoop b))
          end
      | None => Some Crashed
      end
  end.

(** A schedule names the thread that moves at each instant; a thread that
    cannot move lets the instant pass.  A thread that the caller has not
    created yet is a thread that has not moved yet. *)
Definition schedule := list nat.

Definition sched_step (k : Z) (w : IndexWrapper) (c : config) (t : nat) : config :=
  match c with
  | Running b => default c (thread_step k w t b)
  | Crashed => Crashed
  end.

Definition run (k : Z) (w : IndexWrapper) (s : schedule) (c : config) : config :=
  foldl (sched_step k w) c s.

Definition is_Exited (ws : worker) : bool :=
  match ws with Exited => true | _ => false end.

(** [thread.join()] has returned for every thread. *)
Definition joined (b : batch) : bool := forallb is_Exited (threads b).

Definition KnnQueryBatch_start (num_threads : Z) (query_objects : ObjectVector) : batch :=
  mkBatch (imap (fun i o => (i, o)) query_objects)
          (replicate (length query_objects) [])
          (replicate (Z.to_nat num_threads) AtLoop).

(** [KnnQueryBatch] under a schedule: [None] when the schedule stops before
    every thread is joined (the call has not returned yet). *)
Definition KnnQueryBatch (s : schedule) (num_threads k : Z) (query_objects : ObjectVector)
    (w : IndexWrapper) : option (py_result (list IntVector)) :=
  match run k w s (Running (KnnQueryBatch_start num_threads query_objects)) with
  | Running b => if joined b then Some (Return (query_res b)) else None
  | Crashed => Some Undefined
  end.

(** *** Functions of the module *)

Definition generic_bindings : string :=
  "This version is optimized for vectors. Use generic bindings for dist type - int".

Definition IsDistFloat (w : IndexWrapper) : bool := bool_decide (dist_type_ w = kDistFloat).

Definition _init (dist_type data_type : Z) (space_type : string) (space_param : AnyParams)
    (method_name : string) : py_result IndexWrapper :=
  match IndexWrapper_new dist_type data_type space_type space_param method_name with
  | Some index => Return index
  | None => Thrown
  end.

Definition init (space_type : string) (space_param_list : list PyObject)
    (method_name : string) (data_type dist_type : Z) : py_result IndexWrapper :=
  match readList space_param_list ([] : StringVector) PyString_AsString (fun x => x) with
  | Return space_param =>
      if decide (dist_type = kDistFloat) then
        _init dist_type data_type space_type space_param method_name
      else if decide (dist_type = kDistInt) then
        PyErr ("This version is optimized for vectors. Use generic bindings for dist type - "
                 +:+ show_Z dist_type)
      else PyErr ("unknown dist type - " +:+ show_Z dist_type)
  | PyErr msg => PyErr msg
  | Thrown => Thrown
  | Undefined => Undefined
  end.

Definition _addDataPoint (id0 : Z) (data : PyObject) (index : IndexWrapper)
  : IndexWrapper * py_result PyObject :=
  match NMSLIB_DATA_READERS (GetDataType index) with
  | None => (index, PyErr ("unknown data type - " +:+ show_Z (GetDataType index)))
  | Some reader =>
      match reader data id0 (GetDistType index) with
      | Return z => (AddDataPoint z index, Return Py_None)
      | _ => (index, PyErr "Cannot create a data-point object!")
      end
  end.

Definition addDataPoint (id0 : Z) (data : PyObject) (index : IndexWrapper)
  : IndexWrapper * py_result PyObject :=
  if IsDistFloat index then _addDataPoint id0 data index
  else (index, PyErr generic_bindings).

(** [num] floats read at [base + offset] bytes of a buffer; [None] when the
    read leaves the buffer or is misaligned. *)
Definition read_floats (cells : list float32) (offset num : Z) : option (list float32) :=
  if decide (0 <= offset /\ offset mod 4 = 0 /\ 0 <= num
             /\ offset / 4 + num <= Z.of_nat (length cells))
  then Some (take (Z.to_nat num) (drop (Z.to_nat (offset / 4)) cells))
  else None.

Definition float_cells (a : PyArrayObject) : list float32 :=
  match data a with Float32Buf c => c | _ => [] end.

Definition int_cells (a : PyArrayObject) : list Z :=
  match data a with Int32Buf c => c | _ => [] end.

Definition stride0 (a : PyArrayObject) : Z := default 0 (strides a !! 0%nat).

(** The loop [for (int i = 0; i < num_vec; ++i)] of [_addDataPointBatch];
    [n] counts the turns left. *)
Fixpoint _addDataPointBatch_loop (ids data : PyArrayObject) (num_dim : Z) (i n : nat)
    (index : IndexWrapper) : IndexWrapper * py_result PyObject :=
  match n with
  | O => (index, Return Py_None)
  | S n' =>
      match int_cells ids !! i,
            read_floats (float_cells data) (Z.of_nat i * stride0 data) num_dim with
      | Some id_i, Some buf =>
          _addDataPointBatch_loop ids data num_dim (S i) n'
            (AddDataPoint (mkObject id_i (-1) buf) index)
      | _, _ => (index, Undefined)
      end
  end.

Definition _addDataPointBatch (ids data : PyArrayObject) (index : IndexWrapper)
  : IndexWrapper * py_result PyObject :=
  if flags_FORTRAN data then (index, PyErr "the order of data should be C not FORTRAN")
  else if negb (bool_decide (type_num ids = NPY_INT32 /\ nd ids = 1)) then
    (index, PyErr "ids should be 1 dimensional int32 vector")
  else if negb (bool_decide (type_num data = NPY_FLOAT32 /\ nd data = 2)) then
    (index, PyErr "data should be 2 dimensional float32 vector")
  else
    let num_vec := to_int (PyArray_DIM data 0) in
    let num_dim := to_int (PyArray_DIM data 1) in
    if decide (num_vec <> PyArray_DIM ids 0) then
      (index, PyErr ("ids contains " +:+ show_Z (PyArray_DIM ids 0) +:+ " elements "
                       +:+ "whereas data contains " +:+ show_Z num_vec +:+ " elements"))
    else _addDataPointBatch_loop ids data num_dim 0 (Z.to_nat num_vec) index.

Definition addDataPointBatch (ids data : PyArrayObject) (index : IndexWrapper)
  : IndexWrapper * py_result PyObject :=
  if IsDistFloat index then _addDataPointBatch ids data index
  else (index, PyErr generic_bindings).

Definition _createIndex (index_params : AnyParams) (index : IndexWrapper)
  : IndexWrapper * py_result unit :=
  CreateIndex index_params index.

Definition createIndex (param_list : list PyObject) (index : IndexWrapper)
  : IndexWrapper * py_result PyObject :=
  match readList param_list ([] : StringVector) PyString_AsString (fun x => x) with
  | Return index_params =>
      if IsDistFloat index then
        match _createIndex index_params index with
        | (index', Return _) => (index', Return Py_None)
        | (index', PyErr msg) => (index', PyErr msg)
        | (index', Thrown) => (index', Thrown)
        | (index', Undefined) => (index', Undefined)
        end
      else (index, PyErr generic_bindings)
  | _ => (index, PyErr "Cannot convert an argument to a list")
  end.

Definition _loadIndex (fileName : string) (index : IndexWrapper)
  : IndexWrapper * py_result unit :=
  LoadIndex fileName index.

Definition loadIndex (file_name : string) (index : IndexWrapper)
  : IndexWrapper * py_result PyObject :=
  if IsDistFloat index then
    match _loadIndex file_name index with
    | (index', Return _) => (index', Return Py_None)
    | (index', PyErr msg) => (index', PyErr msg)
    | (index', Thrown) => (index', Thrown)
    | (index', Undefined) => (index', Undefined)
    end
  else (index, PyErr generic_bindings).

Definition _knnQuery (k : Z) (data : PyObject) (index : IndexWrapper) : py_result PyObject :=
  match NMSLIB_DATA_READERS (GetDataType index) with
  | None => PyErr ("unknown data type - " +:+ show_Z (GetDataType index))
  | Some reader =>
      match reader data 0 (GetDistType index) with
      | Return query_obj => KnnQuery k query_obj index
      | PyErr msg => PyErr msg
      | Thrown => Thrown
      | Undefined => Undefined
      end
  end.

(** The functions that query return the wrapper as they leave it. *)
Definition knnQuery (k : Z) (data : PyObject) (index : IndexWrapper)
  : IndexWrapper * py_result PyObject :=
  if decide (k < 1) then (index, PyErr ("k (" +:+ show_Z k +:+ ") should be >=1"))
  else if IsDistFloat index then (index, _knnQuery k data index)
  else (index, PyErr generic_bindings).

(** The loop of [_knnQueryBatch] that builds [query_objects]; [None] when a
    row is read outside the buffer. *)
Fixpoint _knnQueryBatch_objects (data : PyArrayObject) (num_dim : Z) (i n : nat)
    (query_objects : ObjectVector) : option ObjectVector :=
  match n with
  | O => Some query_objects
  | S n' =>
      match read_floats (float_cells data) (Z.of_nat i * stride0 data) num_dim with
      | Some buf =>
          _knnQueryBatch_objects data num_dim (S i) n' (query_objects ++ [mkObject 0 (-1) buf])
      | None => None
      end
  end.

(** NumPy's [PyArray_FromDims(2, dims, PyArray_INT)]: a zero-filled array of
    [int] in C order, [None] (NULL) when a dimension is negative. *)
Definition PyArray_FromDims2 (dim0 dim1 : Z) : option PyArrayObject :=
  if decide (0 <= dim0 /\ 0 <= dim1) then
    Some (mkArray false [dim0; dim1] [4 * dim1; 4]
                  (Int32Buf (replicate (Z.to_nat (dim0 * dim1)) 0)))
  else None.

Definition stride1 (a : PyArrayObject) : Z := default 0 (strides a !! 1%nat).

(** [*reinterpret_cast<int*>(PyArray_GETPTR2(ret, i, j)) = v] *)
Definition PyArray_SETINT2 (ret : PyArrayObject) (i j : nat) (v : Z) : PyArrayObject :=
  let offset := Z.of_nat i * stride0 ret + Z.of_nat j * stride1 ret in
  mkArray (flags_FORTRAN ret) (dimensions ret) (strides ret)
          (Int32Buf (<[Z.to_nat (offset / 4) := v]> (int_cells ret))).

(** The inner loop [for (j = 0; j < query_res[i].size() && j < k; ++j)];
    [row] is what is left of [query_res[i]] from position [j] on. *)
Fixpoint _knnQueryBatch_row (ret : PyArrayObject) (i j : nat) (k : Z) (row : IntVector)
  : PyArrayObject :=
  match row with
  | [] => ret
  | v :: row' =>
      if decide (Z.of_nat j < k)
      then _knnQueryBatch_row (PyArray_SETINT2 ret i j v) i (S j) k row'
      else ret
  end.

(** The outer loop [for (i = 0; i < query_res.size(); ++i)]. *)
Fixpoint _knnQueryBatch_rows (ret : PyArrayObject) (i : nat) (k : Z)
    (query_res : list IntVector) : PyArrayObject :=
  match query_res with
  | [] => ret
  | row :: rest => _knnQueryBatch_rows (_knnQueryBatch_row ret i 0 k row) (S i) k rest
  end.

Definition _knnQueryBatch (s : schedule) (num_threads k : Z) (data : PyArrayObject)
    (index : IndexWrapper) : option (py_result PyObject) :=
  if flags_FORTRAN data then Some (PyErr "the order of query should be C not FORTRAN")
  else if negb (bool_decide (type_num data = NPY_FLOAT32 /\ nd data = 2)) then
    Some (PyErr "query should be 2 dimensional float32 vector")
  else
    let num_vec := to_int (PyArray_DIM data 0) in
    let num_dim := to_int (PyArray_DIM data 1) in
    match _knnQueryBatch_objects data num_dim 0 (Z.to_nat num_vec) [] with
    | None => Some Undefined
    | Some query_objects =>
        match KnnQueryBatch s num_threads k query_objects index with
        | None => None
        | Some (Return query_res) =>
            match PyArray_FromDims2 num_vec k with
            | None => Some (PyErr "failed to create numpy array")
            | Some ret => Some (Return (PyArray (_knnQueryBatch_rows ret 0 k query_res)))
            end
        | Some (PyErr msg) => Some (PyErr msg)
        | Some Thrown => Some Thrown
        | Some Undefined => Some Undefined
        end
    end.

Definition knnQueryBatch (s : schedule) (num_threads k : Z) (data : PyArrayObject)
    (index : IndexWrapper) : option (IndexWrapper * py_result PyObject) :=
  if decide (k < 1) then Some (index, PyErr ("k (" +:+ show_Z k +:+ ") should be >=1"))
  else if IsDistFloat index then
    match _knnQueryBatch s num_threads k data index with
    | Some r => Some (index, r)
    | None => None
    end
  else Some (index, PyErr generic_bindings).

Definition _getDataPoint (id0 : Z) (index : IndexWrapper) : py_result PyObject :=
  if decide (id0 < 0 \/ id0 >= GetDataPointQty index) then
    PyErr ("The data point index should be >= 0 & < " +:+ show_Z (GetDataPointQty index))
  else
    match NMSLIB_DATA_WRITERS (GetDataType index) with
    | None => PyErr ("unknown data type - " +:+ show_Z (GetDataType index))
    | Some writer =>
        match GetDataPoint id0 index with
        | Some obj => writer obj
        | None => Thrown
        end
    end.

Definition getDataPoint (index0 : Z) (index : IndexWrapper)
  : IndexWrapper * py_result PyObject :=
  if IsDistFloat index then (index, _getDataPoint index0 index)
  else (index, PyErr generic_bindings).

Definition _getDataPointQty (index : IndexWrapper) : py_result PyObject :=
  Return (PyInt (GetDataPointQty index)).

Definition getDataPointQty (index : IndexWrapper) : IndexWrapper * py_result PyObject :=
  if IsDistFloat index then (index, _getDataPointQty index)
  else (index, PyErr generic_bindings).

End Bindings.

(** ** Saving, query-time parameters and release *)

(** The two other virtual methods of [Index<dist_t>] that the wrapper calls
    ([index.h]), taken as parameters like those of [Library]: each returns
    the state its object is left in and whether it returned normally. *)
Class IndexMethods (dist_t : Type) {L : Library dist_t} := {
  Index_SaveIndex : Index -> string -> Index * bool;
  Index_SetQueryTimeParams : Index -> AnyParams -> Index * bool
}.

Section Maintenance.
Context {dist_t : Type} {L : Library dist_t} {M : IndexMethods dist_t}.

(** [index_->method(...)]: the call is undefined unless [index_] points to
    an object; nothing looks at the pointer before. *)
Definition through_index_ (method : Index -> Index * bool) (w : IndexWrapper)
  : IndexWrapper * py_result unit :=
  match index_ w with
  | Points i =>
      let '(i', ok) := method i in
      (set_index_ (Points i') w, if ok then Return tt else Thrown)
  | nullptr | Dangling => (w, Undefined)
  end.

Definition SaveIndex (fileName : string) (w : IndexWrapper)
  : IndexWrapper * py_result unit :=
  through_index_ (fun i => Index_SaveIndex i fileName) w.

Definition SetQueryTimeParams (p : AnyParams) (w : IndexWrapper)
  : IndexWrapper * py_result unit :=
  through_index_ (fun i => Index_SetQueryTimeParams i p) w.

(** [~IndexWrapper()]: [delete space_; delete index_;] and the stored
    objects.  Deleting the index a second time is undefined. *)
Definition IndexWrapper_delete (w : IndexWrapper) : py_result unit :=
  match delete_index_ w with
  | Some _ => Return tt
  | None => Undefined
  end.

Definition _saveIndex (fileName : string) (index : IndexWrapper)
  : IndexWrapper * py_result unit :=
  SaveIndex fileName index.

Definition saveIndex (file_name : string) (index : IndexWrapper)
  : IndexWrapper * py_result PyObject :=
  if IsDistFloat index then
    match _saveIndex file_name index with
    | (index', Return _) => (index', Return Py_None)
    | (index', PyErr msg) => (index', PyErr msg)
    | (index', Thrown) => (index', Thrown)
    | (index', Undefined) => (index', Undefined)
    end
  else (index, PyErr generic_bindings).

Definition _setQueryTimeParams (qp : AnyParams) (index : IndexWrapper)
  : IndexWrapper * py_result unit :=
  SetQueryTimeParams qp index.

Definition setQueryTimeParams (param_list : list PyObject) (index : IndexWrapper)
  : IndexWrapper * py_result PyObject :=
  match readList param_list ([] : StringVector) PyString_AsString (fun x => x) with
  | Return query_time_params =>
      if IsDistFloat index then
        match _setQueryTimeParams query_time_params index with
        | (index', Return _) => (index', Return Py_None)
        | (index', PyErr msg) => (index', PyErr msg)
        | (index', Thrown) => (index', Thrown)
        | (index', Undefined) => (index', Undefined)
        end
      else (index, PyErr generic_bindings)
  | _ => (index, PyErr "Cannot convert an argument to a list")
  end.

Definition _freeIndex (index : IndexWrapper) : py_result unit :=
  IndexWrapper_delete index.

(** The wrapper does not outlive a call that reaches [_freeIndex]; only the
    result is returned. *)
Definition freeIndex (index : IndexWrapper) : py_result PyObject :=
  if IsDistFloat index then
    match _freeIndex index with
    | Return _ => Return Py_None
    | PyErr msg => PyErr msg
    | Thrown => Thrown
    | Undefined => Undefined
    end
  else PyErr generic_bindings.

End Maintenance.

(** ** The method table *)

(** A call of one of the functions of [nmslibMethods] on the handle of a
    live wrapper, with the arguments the parser has read: every function of
    the table but [init], which makes the handle, and [freeIndex], which
    ends its life. *)
Inductive call :=
| Call_addDataPoint (id0 : Z) (data : PyObject)
| Call_addDataPointBatch (ids data : PyArrayObject)
| Call_createIndex (param_list : list PyObject)
| Call_saveIndex (file_name : string)
| Call_loadIndex (file_name : string)
| Call_setQueryTimeParams (param_list : list PyObject)
| Call_knnQuery (k : Z) (data : PyObject)
| Call_knnQueryBatch (s : schedule) (num_threads k : Z) (data : PyArrayObject)
| Call_getDataPoint (index0 : Z)
| Call_getDataPointQty.

Section Sessions.
Context {dist_t : Type} {L : Library dist_t} {M : IndexMethods dist_t}.

(** [None] when the call has not returned (a batch whose schedule stops
    before every thread is joined). *)
Definition nmslibMethods (c : call) (index : IndexWrapper)
  : option (IndexWrapper * py_result PyObject) :=
  match c with
  | Call_addDataPoint id0 data => Some (addDataPoint id0 data index)
  | Call_addDataPointBatch ids data => Some (addDataPointBatch ids data index)
  | Call_createIndex param_list => Some (createIndex param_list index)
  | Call_saveIndex file_name => Some (saveIndex file_name index)
  | Call_loadIndex file_name => Some (loadIndex file_name index)
  | Call_setQueryTimeParams param_list => Some (setQueryTimeParams param_list index)
  | Call_knnQuery k data => Some (knnQuery k data index)
  | Call_knnQueryBatch s num_threads k data => knnQueryBatch s num_threads k data index
  | Call_getDataPoint index0 => Some (getDataPoint index0 index)
  | Call_getDataPointQty => Some (getDataPointQty index)
  end.

(** The calls a program makes on one handle, one after the other, with the
    result of each.  The program goes on after a call that failed; the
    sessions of a program that stops there are among these. *)
Fixpoint session (calls : list call) (index : IndexWrapper)
  : option (IndexWrapper * list (py_result PyObject)) :=
  match calls with
  | [] => Some (index, [])
  | c :: rest =>
      match nmslibMethods c index with
      | Some (index', r) =>
          match session rest index' with
          | Some (index'', rs) => Some (index'', r :: rs)
          | None => None
          end
      | None => None
      end
  end.

(** The same calls made by the interpreter.  The file has no [try] block
    and the interpreter no handler for a C++ exception: a call that throws
    does not return to its caller and the program ends there; nor is
    anything known of a program after a call whose behaviour is undefined.
    The calls that follow such a call are not made. *)
Fixpoint script (calls : list call) (index : IndexWrapper)
  : option (IndexWrapper * list (py_result PyObject)) :=
  match calls with
  | [] => Some (index, [])
  | c :: rest =>
      match nmslibMethods c index with
      | Some (index', Thrown) => Some (index', [Thrown])
      | Some (index', Undefined) => Some (index', [Undefined])
      | Some (index', r) =>
          match script rest index' with
          | Some (index'', rs) => Some (index'', r :: rs)
          | None => None
          end
      | None => None
      end
  end.

End Sessions.

(** ** A concrete library: L1 distance, exhaustive search

    An instance of [Library] at [float] distances used to run the bindings
    on concrete inputs: the space "l1" and the method "seq_search", which
    offers every stored point to the query.  Building fails on any
    parameter, loading fails on the empty file name; both leave the object
    unbuilt. *)
Module Fixture.

Fixpoint l1 (a b : list float32) : float32 :=
  match a, b with
  | x :: a', y :: b' => SFadd 24 128 (SFabs (SFsub 24 128 x y)) (l1 a' b')
  | _, _ => S754_zero false
  end.

Record seq_index := mkSeq {
  built : bool;
  points : ObjectVector
}.

Definition seq_search : Library float32 := {|
  dist_lt := SFltb;
  Space := unit;
  Index := seq_index;
  CreateSpace name _ := if decide (name = "l1") then Some tt else None;
  CreateMethod _ name _ _ data :=
    if decide (name = "seq_search") then Some (mkSeq false data) else None;
  Index_CreateIndex i params :=
    match params with
    | [] => (mkSeq true (points i), true)
    | _ => (i, false)
    end;
  Index_LoadIndex i file :=
    if decide (file = "") then (i, false) else (mkSeq true (points i), true);
  Index_Search i _ query _ :=
    (fun o => (l1 (components o) (components query), o)) <$> points i
|}.

Definition f (z : Z) : float32 := float32_of_Z z.

Definition C_matrix (n d : Z) (cells : list Z) : PyArrayObject :=
  mkArray false [n; d] [4 * d; 4] (Float32Buf (f <$> cells)).

(** A contiguous vector of [int32]; NumPy flags a contiguous array of one
    dimension as both C and Fortran ordered. *)
Definition C_ids (cells : list Z) : PyArrayObject :=
  mkArray true [Z.of_nat (length cells)] [4] (Int32Buf cells).

Definition point (id0 : Z) (cs : list Z) : Object := mkObject id0 (-1) (f <$> cs).

(** A handle that holds [pts] and no index. *)
Definition stored (data_type : Z) (pts : list Object) : IndexWrapper (L := seq_search) :=
  mkWrapper (L := seq_search) kDistFloat data_type "l1" "seq_search" nullptr tt pts.

(** A handle whose index object was created over [pts]; [b] tells whether
    building it succeeded. *)
Definition indexed (b : bool) (pts : list Object) : IndexWrapper (L := seq_search) :=
  mkWrapper (L := seq_search) kDistFloat kDataVector "l1" "seq_search"
            (Points (L := seq_search) (mkSeq b pts)) tt pts.

End Fixture.

(** The three points of the scenario [[0,0] -> 10], [[1,0] -> 11],
    [[10,10] -> 12]. *)
Definition three_points : list Object :=
  [Fixture.point 10 [0; 0]; Fixture.point 11 [1; 0]; Fixture.point 12 [10; 10]].

(** Two points at the same L1 distance of the origin that share the
    identifier 7. *)
Definition twin_points : list Object :=
  [Fixture.point 7 [1; 0]; Fixture.point 7 [0; 1]].

Definition origin : Object := Fixture.point 0 [0; 0].

Definition ids_1_2 : PyArrayObject := Fixture.C_ids [1; 2].
Definition vectors_123_456 : PyArrayObject := Fixture.C_matrix 2 3 [1; 2; 3; 4; 5; 6].

(** Two queries, [[0,0]] and [[9,9]], against the three points. *)
Definition two_queries : list Object := [origin; Fixture.point 0 [9; 9]].
Definition two_query_rows : PyArrayObject := Fixture.C_matrix 2 2 [0; 0; 9; 9].

(** The other methods of the concrete index: saving fails on the empty file
    name, and the exhaustive search takes no query-time parameter. *)
Definition seq_search_methods : IndexMethods float32 (L := Fixture.seq_search) := {|
  Index_SaveIndex i file := (i, bool_decide (file <> ""));
  Index_SetQueryTimeParams i p := (i, bool_decide (p = []))
|}.

(** Three points at the distances 1, NaN and 0 of the origin. *)
Definition nan_points : list Object :=
  [Fixture.point 10 [1; 0]; mkObject 11 (-1) [S754_nan; Fixture.f 0]; Fixture.point 12 [0; 0]].


(** An integer beyond the doubles. *)
Definition too_large : PyObject := PyInt (10 ^ 400).

(** Every second cell of a buffer of four [int32]: the elements 1 and 2. *)
Definition stepped_ids : PyArrayObject := mkArray false [2] [8] (Int32Buf [1; 99; 2; 98]).

(** * Notions used in the statements *)

(** A Python float, or an integer within the range of the doubles. *)
Definition is_number (o : PyObject) : bool :=
  match o with
  | PyFloat _ => true
  | PyInt z => fits_double z
  | _ => false
  end.

(** A Python list of such numbers. *)
Definition well_formed_vector (data : PyObject) : bool :=
  match data with PyList l => forallb is_number l | _ => false end.

(** A C-ordered matrix of [float], not flagged as Fortran ordered, with at
    most [INT_MAX] rows and columns: the arrays the batch functions accept
    and read inside their buffer. *)
Definition is_C_float_matrix (a : PyArrayObject) : bool :=
  match flags_FORTRAN a, dimensions a, strides a, data a with
  | false, [n; d], [s0; s1], Float32Buf cells =>
      bool_decide (0 <= n <= INT_MAX /\ 0 <= d <= INT_MAX /\ s0 = 4 * d /\ s1 = 4
                   /\ Z.of_nat (length cells) = n * d)
  | _, _, _, _ => false
  end.

(** Row [i] of a matrix and the query objects made of its rows. *)
Definition matrix_row (a : PyArrayObject) (i : nat) : list float32 :=
  take (Z.to_nat (PyArray_DIM a 1))
       (drop (Z.to_nat (Z.of_nat i * PyArray_DIM a 1)) (float_cells a)).

Definition matrix_objects (a : PyArrayObject) : list Object :=
  (fun i => mkObject 0 (-1) (matrix_row a i)) <$> seq 0 (Z.to_nat (PyArray_DIM a 0)).

(** A result list cut or filled with zeros to the width [k]. *)
Definition padded (k : nat) (ids : list Z) : list Z :=
  take k ids ++ replicate (k - length ids) 0.

(** Row [i] of a matrix of [int] of width [k]. *)
Definition int_row (ret : PyArrayObject) (k i : nat) : list Z :=
  take k (drop (i * k) (int_cells ret)).

Section Notions.
Context {dist_t : Type} {L : Library dist_t}.

#[local] Abbreviation worker := (@worker dist_t).
#[local] Abbreviation batch := (@batch dist_t).

(** [x] does not come before [y] in distance. *)
Definition not_before (x y : QueueElement dist_t) : Prop :=
  dist_lt (fst x) (fst y) = false.

(** Largest distance first, as the queue keeps its entries. *)
Definition descending (l : list (QueueElement dist_t)) : Prop := Sorted not_before l.

(** No entry is followed by one of smaller distance. *)
Definition ascending (l : list (QueueElement dist_t)) : Prop :=
  Sorted (flip not_before) l.

(** Nearest first: no entry comes anywhere after one of larger distance. *)
Definition nearest_first (l : list (QueueElement dist_t)) : Prop :=
  forall (i j : nat) (x y : QueueElement dist_t),
    (i < j)%nat -> l !! i = Some x -> l !! j = Some y -> dist_lt (fst y) (fst x) = false.

(** The distances of [l] compare as those of a strict weak order: not
    coming before is transitive among its entries.  It is for [operator<] on
    floats none of which is a NaN, and fails for one between two others. *)
Definition comparable (l : list (QueueElement dist_t)) : Prop :=
  forall x y z : QueueElement dist_t,
    x ∈ l -> y ∈ l -> z ∈ l -> not_before x y -> not_before y z -> not_before x z.

(** The identifiers [KnnQuery] collects in [ids]. *)
Definition KnnQuery_ids (i : Index) (sp : Space) (k : Z) (query : Object) : list Z :=
  drain (Search_Clone i sp query k) [].

(** The handles [init] gives out belong to the [float] instantiation. *)
Definition is_handle (w : IndexWrapper) : Prop := dist_type_ w = kDistFloat.

(** What the slot of a query holds when a batch returns. *)
Definition slot_of (w : IndexWrapper) (i : Index) (k num_threads : Z) (query : Object)
  : list Z :=
  if decide (1 <= num_threads) then KnnQuery_ids i (space_ w) k query else [].

(** The slot a thread is working for. *)
Definition owns (ws : worker) (i : nat) : Prop :=
  match ws with
  | Popped j _ | Draining j _ => j = i
  | _ => False
  end.

#[global] Instance owns_dec (ws : worker) (i : nat) : Decision (owns ws i).
Proof. destruct ws; simpl; apply _. Defined.

(** The invariant of a batch that runs on an index object: a position is
    waiting in the queue with an empty slot, or owned by exactly one thread
    that will complete its slot, or its slot holds the answer. *)
Record slots_inv (k : Z) (w : IndexWrapper) (idx : Index) (qs : list Object) (b : batch)
  : Prop := mkInv {
  inv_len : length (query_res b) = length qs;
  inv_nodup : NoDup (q b).*1;
  inv_queue : forall i o, (i, o) ∈ q b -> qs !! i = Some o /\ query_res b !! i = Some [];
  inv_owner_queue : forall t ws i, threads b !! t = Some ws -> owns ws i -> i ∉ (q b).*1;
  inv_owner_unique : forall t t' ws ws' i,
    threads b !! t = Some ws -> threads b !! t' = Some ws' ->
    owns ws i -> owns ws' i -> t = t';
  inv_popped : forall t i o, threads b !! t = Some (Popped i o) ->
    qs !! i = Some o /\ query_res b !! i = Some [];
  inv_draining : forall t i res, threads b !! t = Some (Draining i res) ->
    exists ids o, query_res b !! i = Some ids /\ qs !! i = Some o
                  /\ drain res ids = KnnQuery_ids idx (space_ w) k o;
  inv_done : forall i o, qs !! i = Some o -> i ∉ (q b).*1 ->
    (forall t ws, threads b !! t = Some ws -> ~ owns ws i) ->
    query_res b !! i = Some (KnnQuery_ids idx (space_ w) k o);
  inv_exited : forall t, threads b !! t = Some Exited -> q b = []
}.

(** The steps a thread still has to take, [sz o] being the number of entries
    the search for [o] retains, and the steps a batch still has to take. *)
Definition thread_weight (sz : Object -> nat) (ws : worker) : nat :=
  match ws with
  | AtLoop => 1
  | Popped _ o => sz o + 3
  | Draining _ res => Size res + 2
  | Exited => 0
  end.

Definition batch_measure (sz : Object -> nat) (b : batch) : nat :=
  sum_list ((fun io => sz io.2 + 4)%nat <$> q b) + sum_list (thread_weight sz <$> threads b).

(** The state of a batch that runs without an index object: nothing was
    popped yet, or a thread holds a work item it cannot search. *)
Definition stuck (b : batch) : Prop :=
  (q b <> [] /\ forall t ws, threads b !! t = Some ws -> ws = AtLoop)
  \/ exists t i o, threads b !! t = Some (Popped i o).

End Notions.

Arguments inv_len {dist_t L k w idx qs} b _.
Arguments inv_nodup {dist_t L k w idx qs} b _.
Arguments inv_queue {dist_t L k w idx qs} b _.
Arguments inv_owner_queue {dist_t L k w idx qs} b _.
Arguments inv_owner_unique {dist_t L k w idx qs} b _.
Arguments inv_popped {dist_t L k w idx qs} b _.
Arguments inv_draining {dist_t L k w idx qs} b _.
Arguments inv_done {dist_t L k w idx qs} b _.
Arguments inv_exited {dist_t L k w idx qs} b _.

(** A contiguous vector of [int32]: element [i] is cell [i] of its buffer. *)
Definition is_int32_vector (ids : PyArrayObject) : bool :=
  match dimensions ids, strides ids, data ids with
  | [n], [s], Int32Buf cells => bool_decide (s = 4 /\ Z.of_nat (length cells) = n)
  | _, _, _ => false
  end.

(** Element [i] of an array of [int] of one dimension, as [PyArray_GETPTR1]
    addresses it: the cell at [i * strides[0]] bytes. *)
Definition PyArray_GETINT1 (a : PyArrayObject) (i : nat) : option Z :=
  int_cells a !! Z.to_nat (Z.of_nat i * stride0 a / 4).


(** The double a Python number converts to. *)
Definition as_double (o : PyObject) : double := default (S754_zero false) (PyFloat_AsDouble o).


(** The values of the type [float]: the binary32 numbers. *)
Definition is_float32 (x : float32) : bool := valid_binary 24 128 x.

(** The call of [addDataPoint] that adds row [i] of a matrix under identifier
    [i] of a vector, the row given as a list of Python floats. *)
Definition add_row (ids data : PyArrayObject) (i : nat) : call :=
  Call_addDataPoint (default 0 (int_cells ids !! i))
    (PyList ((fun x => PyFloat (float_to_double x)) <$> matrix_row data i)).

Section MoreNotions.
Context {dist_t : Type} {L : Library dist_t}.

(** The same wrapper under another data type. *)
Definition with_data_type (data_type : Z) (w : IndexWrapper) : IndexWrapper :=
  mkWrapper (dist_type_ w) data_type (space_type_ w) (method_name_ w)
            (index_ w) (space_ w) (data_ w).

(** The fields of a wrapper that no function of the module writes. *)
Definition same_frame (w w' : IndexWrapper) : Prop :=
  dist_type_ w' = dist_type_ w /\ data_type_ w' = data_type_ w
  /\ space_type_ w' = space_type_ w /\ method_name_ w' = method_name_ w
  /\ space_ w' = space_ w.

(** The index reference points to an index object. *)
Definition has_index (w : IndexWrapper) : Prop := exists i, index_ w = Points i.

End MoreNotions.

Section SchedulerNotions.
Context {dist_t : Type} {L : Library dist_t}.

(** The instants of a schedule at which the thread named does take a step. *)
Fixpoint moves (k : Z) (w : IndexWrapper) (s : schedule) (c : config (dist_t := dist_t))
  : nat :=
  match s, c with
  | t :: s', Running b =>
      match thread_step k w t b with
      | Some c' => S (moves k w s' c')
      | None => moves k w s' c
      end
  | _, _ => 0%nat
  end.

(** The steps a batch has left: three for each work item in the queue (it
    is popped, searched, and its copying loop ends) and one for each entry
    the search retains, and the steps its threads have left. *)
Definition batch_work (sz : Object -> nat) (b : batch (dist_t := dist_t)) : nat :=
  sum_list ((fun io => sz io.2 + 3)%nat <$> q b) + sum_list (thread_weight sz <$> threads b).

End SchedulerNotions.

(** * Properties *)

(** ** Conversions *)

Lemma writeVector_loop_spec (arr : list float32) (n i : nat) (z : list PyObject) :
  (i + n)%nat = length arr -> length z = length arr ->
  writeVector_loop arr i n z
  = take i z ++ ((fun x => PyFloat (float_to_double x)) <$> drop i arr).
Proof.
  revert i z. induction n as [|n IH]; intros i z Hn Hz; simpl.
  - rewrite drop_ge by lia. rewrite take_ge by lia. simpl. by rewrite app_nil_r.
  - destruct (arr !! i) as [x|] eqn:Hx.
    2:{ apply lookup_ge_None in Hx. lia. }
    rewrite IH by (rewrite ?length_insert; lia).
    rewrite (drop_S arr x i Hx). simpl.
    rewrite take_S_r with (x := PyFloat (float_to_double x)).
    2:{ apply list_lookup_insert_eq. lia. }
    rewrite take_insert_ge by lia. by rewrite <- app_assoc.
Qed.

Lemma writeVector_spec (obj : Object) :
  writeVector obj
  = Return (PyList ((fun x => PyFloat (float_to_double x)) <$> components obj)).
Proof.
  unfold writeVector, datalength.
  replace (Z.to_nat (4 * Z.of_nat (length (components obj)) / 4))
    with (length (components obj)).
  2:{ rewrite Z.mul_comm, Z.div_mul by lia. lia. }
  rewrite writeVector_loop_spec; [done | lia | apply length_replicate].
Qed.

Lemma readList_app {V A : Type} (f : PyObject -> option V) (conv : V -> A)
    (lst : list PyObject) (z : list A) (vs : list V) :
  mapM f lst = Some vs -> readList lst z f conv = Return (z ++ (conv <$> vs)).
Proof.
  revert z vs. induction lst as [|item rest IH]; intros z vs H; simpl in *.
  - injection H as <-. simpl. by rewrite app_nil_r.
  - destruct (f item) as [v|]; simplify_option_eq.
    erewrite IH by done. by rewrite <- app_assoc.
Qed.

(** [operator<] of [float] never holds in both directions. *)
Lemma SFltb_asym (a b : float32) : SFltb a b = true -> SFltb b a = false.
Proof.
  unfold SFltb, SFcompare.
  destruct a as [[]|[]| |[] m1 e1], b as [[]|[]| |[] m2 e2]; try done.
  all: rewrite (Z.compare_antisym e1 e2).
  all: replace (Pos.compare_cont Eq m2 m1) with (CompOpp (Pos.compare_cont Eq m1 m2))
         by apply (Pos.compare_cont_antisym m1 m2 Eq).
  all: by destruct (e1 ?= e2), (Pos.compare_cont Eq m1 m2).
Qed.

(** [operator<] on finite floats of the same sign compares the exponents,
    then the mantissas. *)
Lemma SFltb_finite_pos (m1 m2 : positive) (e1 e2 : Z) :
  SFltb (S754_finite false m1 e1) (S754_finite false m2 e2) = true
  <-> e1 < e2 \/ (e1 = e2 /\ (m1 < m2)%positive).
Proof.
  unfold SFltb, SFcompare.
  change (Pos.compare_cont Eq m1 m2) with (m1 ?= m2)%positive.
  destruct (Z.compare_spec e1 e2), (Pos.compare_spec m1 m2); split; try done; lia.
Qed.

Lemma SFltb_finite_neg (m1 m2 : positive) (e1 e2 : Z) :
  SFltb (S754_finite true m1 e1) (S754_finite true m2 e2) = true
  <-> e2 < e1 \/ (e1 = e2 /\ (m2 < m1)%positive).
Proof.
  unfold SFltb, SFcompare.
  change (Pos.compare_cont Eq m1 m2) with (m1 ?= m2)%positive.
  destruct (Z.compare_spec e1 e2), (Pos.compare_spec m1 m2); split; simpl; try done; lia.
Qed.

(** Among floats that are not NaN, not being smaller is transitive. *)
Lemma SFltb_not_lt_trans (a b c : float32) :
  a <> S754_nan -> b <> S754_nan -> c <> S754_nan ->
  SFltb a b = false -> SFltb b c = false -> SFltb a c = false.
Proof.
  intros Ha Hb Hc.
  destruct a as [[]|[]| |[] m1 e1], b as [[]|[]| |[] m2 e2], c as [[]|[]| |[] m3 e3];
    try done.
  all: rewrite <- !not_true_iff_false, ?SFltb_finite_pos, ?SFltb_finite_neg; lia.
Qed.

Lemma to_int_small (z : Z) : 0 <= z <= INT_MAX -> to_int z = z.
Proof.
  unfold to_int, INT_MAX. intros H.
  change (2 ^ 31) with 2147483648. change (2 ^ 32) with 4294967296.
  rewrite Z.mod_small; lia.
Qed.

Section Properties.
Context {dist_t : Type} {L : Library dist_t}.

#[local] Abbreviation entry := (QueueElement dist_t).
#[local] Abbreviation KNNQueue := (@KNNQueue dist_t).

Lemma KnnQuery_fill_spec (ids : IntVector) (n : nat) (z : list PyObject) :
  (n <= length ids)%nat -> length z = length ids ->
  KnnQuery_fill ids n z = take n (PyInt <$> ids) ++ drop n z.
Proof.
  revert z. induction n as [|n IH]; intros z Hn Hz; simpl.
  - by rewrite drop_0.
  - destruct (ids !! n) as [v|] eqn:Hv.
    2:{ apply lookup_ge_None in Hv. lia. }
    rewrite IH by (rewrite ?length_insert; lia).
    rewrite (take_S_r _ n (PyInt v)) by (by rewrite list_lookup_fmap, Hv).
    rewrite <- app_assoc. f_equal. simpl.
    rewrite (drop_S (<[n:=PyInt v]> z) (PyInt v) n) by (apply list_lookup_insert_eq; lia).
    by rewrite drop_insert_lt by lia.
Qed.

(** ** The result queue *)

Lemma queue_insert_perm (x : entry) (l : list entry) :
  queue_insert x l ≡ₚ x :: l.
Proof.
  induction l as [|y l IH]; simpl; [done|].
  destruct (dist_lt x.1 y.1); [|done].
  rewrite IH. apply Permutation_swap.
Qed.

Lemma drain_step_nil (k : nat) (ids : list Z) :
  drain_step (mkQueue (dist_t := dist_t) k []) ids = None.
Proof. done. Qed.

Lemma drain_step_cons (k : nat) (e : entry) (rest : list entry) (ids : list Z) :
  drain_step (mkQueue k (e :: rest)) ids = Some (mkQueue k rest, id e.2 :: ids).
Proof. done. Qed.

Lemma drain_loop_spec (k : nat) (l : list entry) (ids : list Z) :
  drain_loop (length l) (mkQueue k l) ids = ((fun e => id e.2) <$> reverse l) ++ ids.
Proof.
  revert ids. induction l as [|e l IH]; intros ids; [done|].
  simpl length. cbn [drain_loop]. rewrite drain_step_cons, IH.
  rewrite reverse_cons, fmap_app, <- app_assoc. done.
Qed.

Lemma drain_spec (res : KNNQueue) (ids : list Z) :
  drain res ids = ((fun e => id e.2) <$> reverse (queue_ res)) ++ ids.
Proof. destruct res as [k l]. apply drain_loop_spec. Qed.

Lemma Sorted_snoc {A : Type} (R : A -> A -> Prop) (l : list A) (x : A) :
  Sorted R l -> (forall y, last l = Some y -> R y x) -> Sorted R (l ++ [x]).
Proof.
  induction 1 as [|y l Hs IH Hhd]; intros Hlast; simpl.
  - repeat constructor.
  - constructor.
    + apply IH. intros z Hz. apply Hlast. destruct l; [done|]. done.
    + destruct Hhd as [|z l' Hyz]; simpl; constructor; [|done].
      apply Hlast. done.
Qed.

Lemma Sorted_reverse {A : Type} (R : A -> A -> Prop) (l : list A) :
  Sorted R l -> Sorted (flip R) (reverse l).
Proof.
  induction 1 as [|y l Hs IH Hhd]; [constructor|].
  rewrite reverse_cons. apply Sorted_snoc; [done|].
  intros z Hz. rewrite last_reverse in Hz.
  destruct Hhd; simplify_eq/=. done.
Qed.

Lemma elem_of_cons_skip {A : Type} (x a b : A) (l : list A) :
  x ∈ a :: l -> x ∈ a :: b :: l.
Proof. rewrite !elem_of_cons. tauto. Qed.

(** In a list sorted by a relation that is transitive among its entries,
    every entry is related to all that follow it. *)
Lemma Sorted_head_all {A : Type} (R : A -> A -> Prop) (a : A) (l : list A) :
  (forall x y z, x ∈ a :: l -> y ∈ a :: l -> z ∈ a :: l -> R x y -> R y z -> R x z) ->
  Sorted R (a :: l) -> Forall (R a) l.
Proof.
  induction l as [|b l IH]; intros Htr Hs; [constructor|].
  apply Sorted_inv in Hs as [Hs Hhd]. apply HdRel_inv in Hhd.
  apply Sorted_inv in Hs as [Hs' Hhd'].
  constructor; [done|]. apply IH.
  - intros x y z Hx Hy Hz. apply Htr; by apply elem_of_cons_skip.
  - constructor; [done|].
    destruct Hhd' as [|c l' Hbc]; constructor.
    apply (Htr a b c); [| | |done|done]; rewrite !elem_of_cons; tauto.
Qed.

Lemma Sorted_lookup_lt {A : Type} (R : A -> A -> Prop) (l : list A) :
  (forall x y z, x ∈ l -> y ∈ l -> z ∈ l -> R x y -> R y z -> R x z) ->
  Sorted R l ->
  forall (i j : nat) (x y : A),
    (i < j)%nat -> l !! i = Some x -> l !! j = Some y -> R x y.
Proof.
  induction l as [|a l IH]; intros Htr Hs i j x y Hij Hi Hj; [done|].
  pose proof (Sorted_head_all R a l Htr Hs) as Hall.
  destruct j as [|j]; [lia|]. simpl in Hj.
  destruct i as [|i]; simpl in Hi.
  - simplify_eq. by eapply Forall_lookup_1 in Hall.
  - apply Sorted_inv in Hs as [Hs _].
    apply (IH (fun x y z Hx Hy Hz =>
                 Htr x y z (list_elem_of_further _ _ _ Hx) (list_elem_of_further _ _ _ Hy)
                     (list_elem_of_further _ _ _ Hz)) Hs i j); [lia|done|done].
Qed.

Section Ordering.
Hypothesis dist_lt_asym : forall a b : dist_t, dist_lt a b = true -> dist_lt b a = false.

Lemma queue_insert_descending (x : entry) (l : list entry) :
  descending l -> descending (queue_insert x l).
Proof.
  unfold descending. induction 1 as [|y l Hs IH Hhd]; simpl.
  - repeat constructor.
  - destruct (dist_lt x.1 y.1) eqn:Hxy.
    + constructor; [done|].
      destruct Hhd as [|z l' Hyz]; simpl.
      * constructor. by apply dist_lt_asym.
      * destruct (dist_lt x.1 z.1); constructor; [done|]. by apply dist_lt_asym.
    + constructor; [by constructor|]. by constructor.
Qed.

Lemma Push_descending (d : dist_t) (o : Object) (q0 : KNNQueue) :
  descending (queue_ q0) -> descending (queue_ (Push d o q0)).
Proof.
  intros Hs. unfold Push. case_decide; simpl.
  - by apply queue_insert_descending.
  - destruct (queue_ q0) as [|top rest] eqn:Hq; [by rewrite Hq|].
    destruct (dist_lt d top.1); simpl; [|by rewrite Hq].
    apply queue_insert_descending. by inversion Hs.
Qed.

End Ordering.

Lemma Push_K (d : dist_t) (o : Object) (q0 : KNNQueue) : K_ (Push d o q0) = K_ q0.
Proof.
  unfold Push. case_decide; [done|].
  destruct (queue_ q0); [done|]. by destruct (dist_lt _ _).
Qed.

Lemma Push_Size (d : dist_t) (o : Object) (q0 : KNNQueue) :
  (Size q0 <= K_ q0)%nat -> Size (Push d o q0) = (K_ q0 `min` S (Size q0))%nat.
Proof.
  unfold Push, Size. intros Hle. case_decide as Hlt; simpl.
  - rewrite queue_insert_perm. simpl. lia.
  - destruct (queue_ q0) as [|top rest] eqn:Hq; [rewrite Hq; simpl in *; lia|].
    destruct (dist_lt d top.1); simpl.
    + rewrite queue_insert_perm. simpl in *. lia.
    + rewrite Hq. simpl in *. lia.
Qed.

Lemma Push_submseteq (d : dist_t) (o : Object) (q0 : KNNQueue) :
  queue_ (Push d o q0) ⊆+ (d, o) :: queue_ q0.
Proof.
  unfold Push. case_decide; simpl.
  - by rewrite queue_insert_perm.
  - destruct (queue_ q0) as [|top rest] eqn:Hq; [rewrite Hq; by apply submseteq_cons|].
    destruct (dist_lt d top.1); simpl.
    + rewrite queue_insert_perm. apply submseteq_skip. by apply submseteq_cons.
    + rewrite Hq. by apply submseteq_cons.
Qed.

(** What a queue of capacity [K_ q0] holds after it was offered [cands]. *)
Lemma offered_Size (cands : list entry) (q0 : KNNQueue) :
  (Size q0 <= K_ q0)%nat ->
  let q1 := foldl (fun q c => Push c.1 c.2 q) q0 cands in
  K_ q1 = K_ q0 /\ Size q1 = (K_ q0 `min` (Size q0 + length cands))%nat.
Proof.
  revert q0. induction cands as [|c cands IH]; intros q0 Hle; simpl.
  - split; [done|lia].
  - destruct (IH (Push c.1 c.2 q0)) as [HK HS].
    + rewrite Push_K, Push_Size by done. lia.
    + rewrite HK, HS, Push_K, Push_Size by done. split; [done|lia].
Qed.

Lemma offered_submseteq (cands : list entry) (q0 : KNNQueue) :
  queue_ (foldl (fun q c => Push c.1 c.2 q) q0 cands) ⊆+ cands ++ queue_ q0.
Proof.
  revert q0. induction cands as [|c cands IH]; intros q0; simpl; [done|].
  etrans; [apply IH|].
  rewrite (Permutation_middle cands (queue_ q0) c).
  apply submseteq_app; [done|]. destruct c. apply Push_submseteq.
Qed.

Lemma offered_descending (cands : list entry) (q0 : KNNQueue) :
  (forall a b : dist_t, dist_lt a b = true -> dist_lt b a = false) ->
  descending (queue_ q0) ->
  descending (queue_ (foldl (fun q c => Push c.1 c.2 q) q0 cands)).
Proof.
  intros Hasym. revert q0. induction cands as [|c cands IH]; intros q0 Hs; simpl; [done|].
  apply IH. by apply Push_descending.
Qed.

(** ** Single queries *)

Lemma KnnQuery_Points (w : IndexWrapper) (i : Index) (k : Z) (query : Object) :
  index_ w = Points i ->
  KnnQuery k query w = Return (PyList (PyInt <$> KnnQuery_ids i (space_ w) k query)).
Proof.
  intros Hi. unfold KnnQuery. rewrite Hi. fold (KnnQuery_ids i (space_ w) k query).
  rewrite KnnQuery_fill_spec by (unfold PyList_New; rewrite ?length_replicate; lia).
  rewrite take_ge by (rewrite length_fmap; lia).
  rewrite drop_ge by (unfold PyList_New; rewrite length_replicate; lia).
  by rewrite app_nil_r.
Qed.

Lemma to_unsigned_int (k : Z) : 0 <= k <= INT_MAX -> to_unsigned k = Z.to_nat k.
Proof. unfold to_unsigned, INT_MAX. intros. by rewrite Z.mod_small by lia. Qed.

Lemma KnnQuery_ids_length (i : Index) (sp : Space) (k : Z) (query : Object) :
  length (KnnQuery_ids i sp k query)
  = (to_unsigned k `min` length (Index_Search i sp query (to_unsigned k)))%nat.
Proof.
  unfold KnnQuery_ids. rewrite drain_spec, app_nil_r, length_fmap, length_reverse.
  unfold Search_Clone, Clone, KNNQuery_Result.
  pose proof (offered_Size (Index_Search i sp query (to_unsigned k))
                (mkQueue (to_unsigned k) [])) as H.
  simpl in H. destruct H as [_ H]; [unfold Size; simpl; lia|]. exact H.
Qed.

(** The entries a search retains are candidates of the search, and no
    entry of the answer is followed by one of smaller distance. *)
Lemma Search_Clone_retains (i : Index) (sp : Space) (k : Z) (query : Object) :
  (forall a b : dist_t, dist_lt a b = true -> dist_lt b a = false) ->
  let entries := reverse (queue_ (Search_Clone i sp query k)) in
  ascending entries /\ entries ⊆+ Index_Search i sp query (to_unsigned k).
Proof.
  intros Hasym entries. split.
  - apply Sorted_reverse. unfold Search_Clone, Clone, KNNQuery_Result.
    apply offered_descending; [done|]. constructor.
  - unfold entries. rewrite reverse_Permutation.
    unfold Search_Clone, Clone, KNNQuery_Result.
    etrans; [apply offered_submseteq|]. simpl. by rewrite app_nil_r.
Qed.

(** C2 (as amended).  With a comparison of distances that never holds in
    both directions (as [operator<] on [float]): on a handle whose index
    reference points to an index object, for every [k >= 1], when the
    distances of the candidates the search offers are comparable (on floats:
    none is a NaN), [KnnQuery] returns the identifiers of the entries its
    result queue retained, one identifier per entry: at most [k] of them,
    exactly [min k c] when the search offered [c] candidates (so fewer than
    [k] when there are fewer candidates, without padding), each entry being
    one of the candidates.  The list is the queue read backwards, every
    removed top being prepended, and it is ordered nearest first: the
    distance of an entry is never smaller than that of an entry anywhere
    before it.  Entries of equal distance, and entries sharing an
    identifier, may both occur. *)
Theorem knn_query_nearest_first (w : IndexWrapper) (i : Index) (k : Z) (query : Object) :
  (forall a b : dist_t, dist_lt a b = true -> dist_lt b a = false) ->
  index_ w = Points i ->
  1 <= k <= INT_MAX ->
  let cands := Index_Search i (space_ w) query (Z.to_nat k) in
  comparable cands ->
  exists entries : list entry,
    KnnQuery k query w = Return (PyList ((fun e => PyInt (id e.2)) <$> entries))
    /\ entries = reverse (queue_ (Search_Clone i (space_ w) query k))
    /\ nearest_first entries
    /\ entries ⊆+ cands
    /\ (length entries <= Z.to_nat k)%nat
    /\ length entries = (Z.to_nat k `min` length cands)%nat.
Proof.
  intros Hasym Hi Hk cands Hcmp.
  exists (reverse (queue_ (Search_Clone i (space_ w) query k))).
  pose proof (KnnQuery_ids_length i (space_ w) k query) as Hlen.
  unfold KnnQuery_ids in Hlen.
  rewrite drain_spec, app_nil_r, length_fmap in Hlen.
  rewrite to_unsigned_int in Hlen by lia. fold cands in Hlen.
  destruct (Search_Clone_retains i (space_ w) k query Hasym) as [Hasc Hsub].
  rewrite to_unsigned_int in Hsub by lia. fold cands in Hsub.
  split_and!.
  - rewrite (KnnQuery_Points w i) by done. unfold KnnQuery_ids.
    rewrite drain_spec, app_nil_r, <- list_fmap_compose. done.
  - done.
  - intros a b x y Hab Hx Hy.
    change (flip not_before x y).
    eapply Sorted_lookup_lt; [|exact Hasc|exact Hab|exact Hx|exact Hy].
    intros e1 e2 e3 H1 H2 H3 H12 H23. unfold flip in *.
    apply (Hcmp e3 e2 e1); [| | |done|done].
    all: eapply elem_of_submseteq; done.
  - done.
  - lia.
  - done.
Qed.

(** ** Lifecycle *)

Lemma is_handle_IsDistFloat (w : IndexWrapper) : is_handle w -> IsDistFloat w = true.
Proof. intros H. unfold IsDistFloat. by apply bool_decide_eq_true. Qed.

Lemma init_Return (space_type : string) (space_param_list : list PyObject)
    (method_name : string) (data_type dist_type : Z) (w : IndexWrapper) :
  init space_type space_param_list method_name data_type dist_type = Return w ->
  exists sp, w = mkWrapper kDistFloat data_type space_type method_name nullptr sp [].
Proof.
  unfold init, _init, IndexWrapper_new. intros H.
  destruct (readList _ _ _ _); try done.
  case_decide as Hd; [|by repeat case_decide]. subst dist_type.
  destruct (CreateSpace _ _) as [sp|]; [|done]. exists sp. by simplify_eq.
Qed.

Lemma init_is_handle (space_type : string) (space_param_list : list PyObject)
    (method_name : string) (data_type dist_type : Z) (w : IndexWrapper) :
  init space_type space_param_list method_name data_type dist_type = Return w ->
  is_handle w /\ data_type_ w = data_type /\ index_ w = nullptr /\ data_ w = [].
Proof. intros H. by apply init_Return in H as [sp ->]. Qed.

(** No function of the module changes the type tags of a handle. *)
Lemma _addDataPointBatch_loop_tags (ids data : PyArrayObject) (num_dim : Z) (n i : nat)
    (w : IndexWrapper) :
  let w' := (_addDataPointBatch_loop ids data num_dim i n w).1 in
  dist_type_ w' = dist_type_ w /\ data_type_ w' = data_type_ w.
Proof.
  revert i w. induction n as [|n IH]; intros i w; simpl; [done|].
  repeat case_match; try done.
  match goal with
  | |- context [_addDataPointBatch_loop _ _ _ _ _ ?w1] =>
      destruct (IH (S i) w1) as [-> ->]
  end.
  done.
Qed.

Lemma handle_preserved (w : IndexWrapper) (id0 : Z) (data : PyObject)
    (ids points : PyArrayObject) (params : list PyObject) (file_name : string) :
  is_handle w ->
  is_handle (addDataPoint id0 data w).1
  /\ is_handle (addDataPointBatch ids points w).1
  /\ is_handle (createIndex params w).1
  /\ is_handle (loadIndex file_name w).1.
Proof.
  unfold is_handle. intros Hh. split_and!.
  - unfold addDataPoint, _addDataPoint. repeat case_match; done.
  - unfold addDataPointBatch, _addDataPointBatch. repeat case_match; try done.
    by rewrite (proj1 (_addDataPointBatch_loop_tags _ _ _ _ _ _)).
  - unfold createIndex, _createIndex, CreateIndex, replace_index, delete_index_.
    repeat case_match; simplify_eq; done.
  - unfold loadIndex, _loadIndex, LoadIndex, replace_index, delete_index_.
    repeat case_match; simplify_eq; done.
Qed.

(** ** Validation of [k] *)

(** C6.  For every [k < 1] that the argument parser has read, [knnQuery] and
    [knnQueryBatch] return the error "k (k) should be >=1" whatever the
    handle, its index reference, the query, the number of threads and the
    schedule are, and they leave the wrapper as it was. *)
Theorem knn_query_rejects_small_k (w : IndexWrapper) (k : Z) (data : PyObject)
    (s : schedule) (num_threads : Z) (queries : PyArrayObject) :
  k < 1 ->
  knnQuery k data w = (w, PyErr ("k (" +:+ show_Z k +:+ ") should be >=1"))
  /\ knnQueryBatch s num_threads k queries w
     = Some (w, PyErr ("k (" +:+ show_Z k +:+ ") should be >=1")).
Proof. intros Hk. unfold knnQuery, knnQueryBatch. by rewrite !decide_True by done. Qed.

(** ** Stored points *)

Lemma GetDataPoint_lookup (w : IndexWrapper) (p : Z) :
  0 <= p -> GetDataPoint p w = data_ w !! Z.to_nat p.
Proof. intros. unfold GetDataPoint. by rewrite decide_True. Qed.

Lemma getDataPoint_in_range (w : IndexWrapper) (p : Z) (obj : Object) :
  is_handle w -> data_type_ w = kDataVector ->
  0 <= p -> data_ w !! Z.to_nat p = Some obj ->
  getDataPoint p w
  = (w, Return (PyList ((fun x => PyFloat (float_to_double x)) <$> components obj))).
Proof.
  intros Hh Ht Hp Hobj. unfold getDataPoint, _getDataPoint.
  rewrite is_handle_IsDistFloat by done.
  apply lookup_lt_Some in Hobj as Hlt.
  rewrite decide_False by (unfold GetDataPointQty; lia).
  unfold NMSLIB_DATA_WRITERS, GetDataType. rewrite decide_True by done.
  rewrite GetDataPoint_lookup, Hobj by done. by rewrite writeVector_spec.
Qed.

(** C7 (as amended).  On a handle whose data type is VECTOR, holding
    [count] points, [getDataPoint] with position [p] fails with "The data
    point index should be >= 0 & < count" when [p < 0] or [p >= count], and
    for every [p] in [[0, count)] it returns the components of the point
    stored at [p], as a list of Python floats; so it fails exactly when [p]
    is out of range. *)
Theorem get_point_vector_handle (w : IndexWrapper) (p : Z) :
  is_handle w ->
  data_type_ w = kDataVector ->
  (p < 0 \/ p >= GetDataPointQty w ->
   getDataPoint p w
   = (w, PyErr ("The data point index should be >= 0 & < " +:+ show_Z (GetDataPointQty w))))
  /\
  (0 <= p < GetDataPointQty w ->
   exists obj, data_ w !! Z.to_nat p = Some obj
     /\ getDataPoint p w
        = (w, Return (PyList ((fun x => PyFloat (float_to_double x)) <$> components obj)))).
Proof.
  intros Hh Ht. split.
  - intros Hp. unfold getDataPoint, _getDataPoint.
    rewrite is_handle_IsDistFloat by done. by rewrite decide_True.
  - intros Hp. unfold GetDataPointQty in Hp.
    destruct (data_ w !! Z.to_nat p) as [obj|] eqn:Hobj.
    2:{ apply lookup_ge_None in Hobj. lia. }
    exists obj. split; [done|]. apply getDataPoint_in_range; [done..|lia|done].
Qed.

Lemma well_formed_readVector (data : PyObject) (id0 dist_type : Z) :
  well_formed_vector data = true ->
  exists arr, readVector data id0 dist_type = Return (mkObject id0 (-1) arr).
Proof.
  destruct data as [| | | |l|]; try done. simpl. intros Hl.
  assert (exists vs, mapM PyFloat_AsDouble l = Some vs) as [vs Hvs].
  { induction l as [|o l IH]; [by eexists|]. simpl in Hl.
    apply andb_prop in Hl as [Ho Hl]. destruct (IH Hl) as [vs Hvs].
    destruct o; try done; simpl in *; rewrite ?Ho; simpl; rewrite Hvs; by eexists. }
  rewrite (readList_app _ _ _ _ vs) by done. by eexists.
Qed.


(** C8.  On every fresh handle that [init] returns for the data type VECTOR
    (whatever the space and the method), [addDataPointBatch] with the
    identifiers [[1, 2]] and the matrix [[[1, 2, 3], [4, 5, 6]]] succeeds;
    afterwards [getDataPointQty] returns 2, [getDataPoint 0] returns
    [[1., 2., 3.]] and [getDataPoint 1] returns [[4., 5., 6.]]: each row is
    stored at its position and read back with its exact components. *)
Theorem add_points_batch_round_trip (space_type : string) (space_param_list : list PyObject)
    (method_name : string) (w0 : IndexWrapper) :
  init space_type space_param_list method_name kDataVector kDistFloat = Return w0 ->
  exists w1,
    addDataPointBatch ids_1_2 vectors_123_456 w0 = (w1, Return Py_None)
    /\ getDataPointQty w1 = (w1, Return (PyInt 2))
    /\ getDataPoint 0 w1
       = (w1, Return (PyList [PyFloat (double_of_Z 1); PyFloat (double_of_Z 2);
                              PyFloat (double_of_Z 3)]))
    /\ getDataPoint 1 w1
       = (w1, Return (PyList [PyFloat (double_of_Z 4); PyFloat (double_of_Z 5);
                              PyFloat (double_of_Z 6)])).
Proof.
  intros Hinit. apply init_Return in Hinit as [sp ->].
  eexists. split; [reflexivity|]. split; [reflexivity|]. split; reflexivity.
Qed.

End Properties.

(** ** The batch scheduler *)

(** *** Steps and schedules *)

Section Threads.
Context {dist_t : Type} {L : Library dist_t}.
Variable k : Z.
Variable w : IndexWrapper.

#[local] Abbreviation KNNQueue := (@KNNQueue dist_t).
#[local] Abbreviation worker := (@worker dist_t).
#[local] Abbreviation batch := (@batch dist_t).

Lemma drain_step_Some (res res' : KNNQueue) (ids ids' : list Z) :
  drain_step res ids = Some (res', ids') ->
  drain res ids = drain res' ids' /\ Size res = S (Size res').
Proof.
  destruct res as [K [|e rest]]; [done|].
  rewrite drain_step_cons. intros [= <- <-]. done.
Qed.

Lemma drain_step_None (res : KNNQueue) (ids : list Z) :
  drain_step res ids = None -> drain res ids = ids.
Proof. destruct res as [K [|e rest]]; [done|]. by rewrite drain_step_cons. Qed.

Lemma step_threads (t : nat) (b b' : batch) :
  thread_step k w t b = Some (Running b') -> length (threads b') = length (threads b).
Proof.
  unfold thread_step. intros H.
  repeat (case_match; simplify_eq); simpl; by rewrite ?length_insert.
Qed.

Lemma run_cons (t : nat) (s : schedule) (c : config) :
  run k w (t :: s) c = run k w s (sched_step k w c t).
Proof. done. Qed.

Lemma run_Crashed (s : schedule) : run k w s Crashed = Crashed.
Proof. induction s; [done|]. by rewrite run_cons. Qed.

Lemma joined_lookup (b : batch) (t : nat) (ws : worker) :
  joined b = true -> threads b !! t = Some ws -> ws = Exited.
Proof.
  unfold joined. intros Hall Ht.
  apply list_elem_of_lookup_2, list_elem_of_In in Ht.
  pose proof (proj1 (forallb_forall _ _) Hall _ Ht) as Hws. by destruct ws.
Qed.

Lemma not_joined (b : batch) :
  joined b = false -> exists t ws, threads b !! t = Some ws /\ ws <> Exited.
Proof.
  unfold joined. induction (threads b) as [|ws l IH]; [done|]. simpl.
  destruct ws; simpl; try (intros _; by eexists 0%nat, _).
  intros H. destruct (IH H) as (t & ws & Ht & Hws). by exists (S t), ws.
Qed.

Lemma can_step (t : nat) (ws : worker) (b : batch) :
  threads b !! t = Some ws -> ws <> Exited -> is_Some (thread_step k w t b).
Proof.
  intros Ht Hws. unfold thread_step. rewrite Ht.
  destruct ws; [| | |done]; repeat case_match; done.
Qed.

Lemma step_slots (t : nat) (b b' : batch) :
  thread_step k w t b = Some (Running b') ->
  length (query_res b') = length (query_res b).
Proof.
  unfold thread_step. intros H.
  repeat (case_match; simplify_eq); simpl; by rewrite ?length_insert.
Qed.

Lemma run_slots (s : schedule) (b b' : batch) :
  run k w s (Running b) = Running b' -> length (query_res b') = length (query_res b).
Proof.
  revert b. induction s as [|t s IH]; intros b; [by intros [= ->]|].
  rewrite run_cons. simpl.
  destruct (thread_step k w t b) as [[b1|]|] eqn:Hstep; simpl.
  - intros H. rewrite (IH _ H). by eapply step_slots.
  - by rewrite run_Crashed.
  - apply IH.
Qed.

(** Whatever the schedule, the sequence returned has one entry per query. *)
Lemma KnnQueryBatch_length (s : schedule) (num_threads : Z) (qs : list Object)
    (res : list (list Z)) :
  KnnQueryBatch s num_threads k qs w = Some (Return res) -> length res = length qs.
Proof.
  unfold KnnQueryBatch.
  destruct (run k w s _) as [b|] eqn:Hrun; [|done].
  destruct (joined b); [|done]. intros [= <-].
  rewrite (run_slots _ _ _ Hrun). apply length_replicate.
Qed.

End Threads.

(** *** A batch on an index object *)

Section Answers.
Context {dist_t : Type} {L : Library dist_t}.
Variable k : Z.
Variable w : IndexWrapper.
Variable idx : Index.
Hypothesis Hidx : index_ w = Points idx.
Variable qs : list Object.

#[local] Abbreviation KNNQueue := (@KNNQueue dist_t).
#[local] Abbreviation worker := (@worker dist_t).
#[local] Abbreviation batch := (@batch dist_t).
#[local] Abbreviation answer := (KnnQuery_ids idx (space_ w) k).
#[local] Abbreviation inv := (slots_inv k w idx qs).
#[local] Abbreviation sz := (fun o : Object => Size (Search_Clone idx (space_ w) o k)).
#[local] Abbreviation weight := (thread_weight sz).
#[local] Abbreviation measure := (batch_measure sz).

Lemma start_queue_slots : (imap (fun i (o : Object) => (i, o)) qs).*1 = seq 0 (length qs).
Proof.
  apply list_eq. intros i. rewrite list_lookup_fmap, list_lookup_imap.
  destruct (qs !! i) as [o|] eqn:Ho; simpl.
  - symmetry. apply lookup_seq. split; [done|]. by apply lookup_lt_Some in Ho.
  - symmetry. apply lookup_seq_ge. by apply lookup_ge_None in Ho.
Qed.

Lemma inv_start (num_threads : Z) : inv (KnnQueryBatch_start num_threads qs).
Proof.
  unfold KnnQueryBatch_start. split; simpl.
  - apply length_replicate.
  - rewrite start_queue_slots. apply NoDup_seq.
  - intros i o Hin. apply elem_of_lookup_imap in Hin as (j & o' & Heq & Ho).
    simplify_eq. split; [done|]. apply lookup_replicate. split; [done|].
    by apply lookup_lt_Some in Ho.
  - intros t ws i Ht Ho. apply lookup_replicate in Ht as [-> _]. done.
  - intros t t' ws ws' i Ht _ Ho. apply lookup_replicate in Ht as [-> _]. done.
  - intros t i o Ht. apply lookup_replicate in Ht as [? _]. done.
  - intros t i res Ht. apply lookup_replicate in Ht as [? _]. done.
  - intros i o Ho Hni. exfalso. apply Hni. rewrite start_queue_slots.
    apply elem_of_seq. apply lookup_lt_Some in Ho. lia.
  - intros t Ht. apply lookup_replicate in Ht as [? _]. done.
Qed.

(** A thread changes state without touching the queue or the slots. *)
Lemma inv_set_thread (t : nat) (ws ws' : worker) (b : batch) :
  inv b -> threads b !! t = Some ws ->
  (forall i, owns ws' i -> owns ws i) ->
  (forall i o, ws' <> Popped i o) ->
  (forall i res, ws' = Draining i res ->
     exists ids o, query_res b !! i = Some ids /\ qs !! i = Some o
                   /\ drain res ids = answer o) ->
  (forall i o, owns ws i -> ~ owns ws' i -> qs !! i = Some o ->
     query_res b !! i = Some (answer o)) ->
  (ws' = Exited -> q b = []) ->
  inv (set_thread t ws' b).
Proof.
  intros [] Ht Hown Hpop Hdrain Hrel Hexit.
  assert (forall t' x i, <[t:=ws']> (threads b) !! t' = Some x -> owns x i ->
            exists y, threads b !! t' = Some y /\ owns y i) as Hback.
  { intros t' x i Hx Ho. apply list_lookup_insert_Some in Hx as [(<- & <- & _)|[_ Hx]].
    - exists ws. auto.
    - exists x. auto. }
  split; simpl; try done.
  - intros t' x i Hx Ho. destruct (Hback _ _ _ Hx Ho) as (y & Hy & Hoy). eauto.
  - intros t1 t2 x1 x2 i H1 H2 Ho1 Ho2.
    destruct (Hback _ _ _ H1 Ho1) as (y1 & Hy1 & Hoy1).
    destruct (Hback _ _ _ H2 Ho2) as (y2 & Hy2 & Hoy2). eauto.
  - intros t' i o Hx. apply list_lookup_insert_Some in Hx as [(_ & Heq & _)|[_ Hx]].
    + by destruct (Hpop i o).
    + eauto.
  - intros t' i res Hx. apply list_lookup_insert_Some in Hx as [(_ & Heq & _)|[_ Hx]].
    + eauto.
    + eauto.
  - intros i o Ho Hni Hfree.
    assert (~ owns ws' i) as Hnew.
    { apply (Hfree t). apply list_lookup_insert_eq. by apply lookup_lt_Some in Ht. }
    destruct (decide (owns ws i)) as [Hold|Hold]; [by eapply Hrel|].
    apply inv_done0; [done..|]. intros t' x Hx.
    destruct (decide (t' = t)) as [->|Hne]; [simplify_eq; simpl; tauto|].
    apply (Hfree t'). by rewrite list_lookup_insert_ne.
  - intros t' Hx. apply list_lookup_insert_Some in Hx as [(_ & Heq & _)|[_ Hx]]; eauto.
Qed.

(** A thread at the head of its loop takes the first work item. *)
Lemma inv_pop (t i : nat) (o : Object) (rest : list (nat * Object)) (b : batch) :
  inv b -> threads b !! t = Some AtLoop -> q b = (i, o) :: rest ->
  inv (mkBatch rest (query_res b) (<[t := Popped i o]> (threads b))).
Proof.
  intros [] Ht Hq. rewrite Hq in *. simpl in *.
  apply NoDup_cons in inv_nodup0 as [Hi Hnd].
  split; simpl; try done.
  - intros j o' Hin. apply inv_queue0. by right.
  - intros t' x j Hx Ho. apply list_lookup_insert_Some in Hx as [(<- & <- & _)|[_ Hx]].
    + simpl in Ho. by subst.
    + intros Hj. apply (inv_owner_queue0 _ _ _ Hx Ho). by right.
  - assert (forall t' x, threads b !! t' = Some x -> ~ owns x i) as Hfresh.
    { intros t' x Hx Ho. apply (inv_owner_queue0 _ _ _ Hx Ho). by left. }
    intros t1 t2 x1 x2 j H1 H2 Ho1 Ho2.
    apply list_lookup_insert_Some in H1 as [(<- & <- & _)|[Hne1 H1]];
      apply list_lookup_insert_Some in H2 as [(Heq & <- & _)|[Hne2 H2]]; simpl in *.
    + done.
    + subst j. by destruct (Hfresh _ _ H2).
    + subst j. by destruct (Hfresh _ _ H1).
    + eauto.
  - intros t' j o' Hx. apply list_lookup_insert_Some in Hx as [(_ & Heq & _)|[_ Hx]].
    + simplify_eq. apply inv_queue0. by left.
    + eauto.
  - intros t' j res Hx. apply list_lookup_insert_Some in Hx as [(_ & Heq & _)|[_ Hx]]; [done|].
    eauto.
  - intros j o' Ho Hni Hfree.
    assert (j <> i) as Hji.
    { intros ->. apply (Hfree t (Popped i o)); [|done].
      apply list_lookup_insert_eq. by apply lookup_lt_Some in Ht. }
    apply inv_done0; [done| |].
    + intros Hj. apply elem_of_cons in Hj as [?|?]; done.
    + intros t' x Hx. destruct (decide (t' = t)) as [->|Hne]; [simplify_eq; simpl; tauto|].
      apply (Hfree t'). by rewrite list_lookup_insert_ne.
  - intros t' Hx. apply list_lookup_insert_Some in Hx as [(_ & Heq & _)|[_ Hx]]; [done|].
    by specialize (inv_exited0 _ Hx).
Qed.

(** A thread moves one identifier from its queue to its slot. *)
Lemma inv_drain_one (t i : nat) (res res' : KNNQueue) (ids ids' : list Z) (b : batch) :
  inv b -> threads b !! t = Some (Draining i res) ->
  query_res b !! i = Some ids -> drain_step res ids = Some (res', ids') ->
  inv (mkBatch (q b) (<[i := ids']> (query_res b)) (<[t := Draining i res']> (threads b))).
Proof.
  intros Hinv Ht Hids Hstep. pose proof Hinv as [].
  assert (forall t' x j, <[t:=Draining i res']> (threads b) !! t' = Some x -> owns x j ->
            exists y, threads b !! t' = Some y /\ owns y j) as Hback.
  { intros t' x j Hx Ho. apply list_lookup_insert_Some in Hx as [(<- & <- & _)|[_ Hx]].
    - exists (Draining i res). auto.
    - exists x. auto. }
  assert (forall t' x, t' <> t -> threads b !! t' = Some x -> ~ owns x i) as Hother.
  { intros t' x Hne Hx Ho. apply Hne. by eapply (inv_owner_unique0 t' t). }
  split; simpl; try done.
  - by rewrite length_insert.
  - intros j o Hin. destruct (inv_queue0 _ _ Hin) as [Hq Hr]. split; [done|].
    rewrite list_lookup_insert_ne; [done|]. intros <-.
    apply (inv_owner_queue0 _ _ i Ht); [done|].
    apply list_elem_of_fmap. by exists (i, o).
  - intros t' x j Hx Ho. destruct (Hback _ _ _ Hx Ho) as (y & Hy & Hoy). eauto.
  - intros t1 t2 x1 x2 j H1 H2 Ho1 Ho2.
    destruct (Hback _ _ _ H1 Ho1) as (y1 & Hy1 & Hoy1).
    destruct (Hback _ _ _ H2 Ho2) as (y2 & Hy2 & Hoy2). eauto.
  - intros t' j o Hx. apply list_lookup_insert_Some in Hx as [(_ & Heq & _)|[Hne Hx]]; [done|].
    destruct (inv_popped0 _ _ _ Hx) as [Hq Hr]. split; [done|].
    rewrite list_lookup_insert_ne; [done|]. intros <-.
    by apply (Hother t' (Popped i o)).
  - intros t' j res0 Hx.
    apply list_lookup_insert_Some in Hx as [(_ & Heq & _)|[Hne Hx]].
    + simplify_eq. destruct (inv_draining0 _ _ _ Ht) as (ids0 & o & Hr & Hq & Hd).
      exists ids', o. split; [|split; [done|]].
      * apply list_lookup_insert_eq. by apply lookup_lt_Some in Hids.
      * simplify_eq. by destruct (drain_step_Some _ _ _ _ Hstep) as [<- _].
    + destruct (inv_draining0 _ _ _ Hx) as (ids0 & o & Hr & Hq & Hd).
      exists ids0, o. split; [|done].
      rewrite list_lookup_insert_ne; [done|]. intros <-.
      by apply (Hother t' (Draining i res0)).
  - intros j o Ho Hni Hfree.
    assert (j <> i) as Hji.
    { intros ->. apply (Hfree t (Draining i res')); [|done].
      apply list_lookup_insert_eq. by apply lookup_lt_Some in Ht. }
    rewrite list_lookup_insert_ne by done.
    apply inv_done0; [done..|]. intros t' x Hx.
    destruct (decide (t' = t)) as [->|Hne]; [simplify_eq; simpl; congruence|].
    apply (Hfree t'). by rewrite list_lookup_insert_ne.
  - intros t' Hx. apply list_lookup_insert_Some in Hx as [(_ & Heq & _)|[_ Hx]]; [done|].
    eauto.
Qed.

(** Every step of a thread keeps the invariant, and none crashes. *)
Lemma inv_step (t : nat) (b : batch) (c : config) :
  inv b -> thread_step k w t b = Some c -> exists b', c = Running b' /\ inv b'.
Proof.
  intros Hinv. unfold thread_step.
  destruct (threads b !! t) as [[|i o|i res|]|] eqn:Ht; [| | |done|done].
  - destruct (q b) as [|[i o] rest] eqn:Hq; intros [= <-]; eexists; (split; [done|]).
    + eapply inv_set_thread; eauto; done.
    + by apply inv_pop.
  - destruct (inv_popped _ Hinv _ _ _ Ht) as [Hqs Hres]. rewrite Hres, Hidx.
    intros [= <-]. eexists. split; [done|].
    eapply inv_set_thread; eauto; try done.
    intros i' res' [= <- <-]. exists [], o. done.
  - destruct (inv_draining _ Hinv _ _ _ Ht) as (ids & o & Hres & Hqs & Hd).
    rewrite Hres. destruct (drain_step res ids) as [[res' ids']|] eqn:Hstep.
    + intros [= <-]. eexists. split; [done|]. by eapply inv_drain_one.
    + intros [= <-]. eexists. split; [done|].
      eapply inv_set_thread; eauto; try done.
      intros i' o' Ho _ Hq'. simpl in Ho. subst i'. simplify_eq.
      by rewrite <- Hd, drain_step_None.
Qed.

(** No schedule makes a batch started on an index object crash. *)
Lemma run_inv (s : schedule) (b : batch) :
  inv b ->
  exists b', run k w s (Running b) = Running b' /\ inv b'
             /\ length (threads b') = length (threads b).
Proof.
  revert b. induction s as [|t s IH]; intros b Hinv; [by exists b|].
  rewrite run_cons. simpl.
  destruct (thread_step k w t b) as [c|] eqn:Hstep; simpl; [|by apply IH].
  destruct (inv_step _ _ _ Hinv Hstep) as (b1 & -> & Hinv1).
  destruct (IH _ Hinv1) as (b' & Hrun & Hinv' & Hlen).
  exists b'. split; [done|]. split; [done|].
  rewrite Hlen. by eapply step_threads.
Qed.

(** Once every thread has left its loop, every slot holds its answer. *)
Lemma inv_joined (b : batch) :
  inv b -> joined b = true -> threads b <> [] -> query_res b = answer <$> qs.
Proof.
  intros Hinv Hj Hne.
  assert (q b = []) as Hq.
  { destruct (threads b) as [|ws l] eqn:Hl; [done|].
    apply (inv_exited _ Hinv 0%nat). rewrite Hl. simpl. f_equal.
    apply (joined_lookup b 0%nat); [done|]. by rewrite Hl. }
  apply list_eq. intros i. rewrite list_lookup_fmap.
  destruct (qs !! i) as [o|] eqn:Ho; simpl.
  - apply (inv_done _ Hinv); [done|rewrite Hq; simpl; apply not_elem_of_nil|].
    intros t ws Ht. rewrite (joined_lookup b t ws Hj Ht). simpl. tauto.
  - apply lookup_ge_None. rewrite (inv_len _ Hinv). by apply lookup_ge_None.
Qed.

(** *** Termination *)

Lemma sum_list_insert (l : list worker) (t : nat) (x y : worker) :
  l !! t = Some x ->
  (sum_list (weight <$> <[t:=y]> l) + weight x = sum_list (weight <$> l) + weight y)%nat.
Proof.
  revert t. induction l as [|z l IH]; intros [|t] H; simplify_eq/=; [lia|].
  specialize (IH _ H). lia.
Qed.

Lemma step_measure (t : nat) (b b' : batch) :
  thread_step k w t b = Some (Running b') -> (measure b' < measure b)%nat.
Proof.
  unfold thread_step, batch_measure.
  destruct (threads b !! t) as [[|i o|i res|]|] eqn:Ht; [| | |done|done].
  - destruct (q b) as [|[i o] rest] eqn:Hq; intros [= <-]; simpl; rewrite ?Hq; simpl.
    + pose proof (sum_list_insert _ _ _ Exited Ht). simpl in *. unfold fmap in *. lia.
    + pose proof (sum_list_insert _ _ _ (Popped i o) Ht). simpl in *. unfold fmap in *. lia.
  - destruct (query_res b !! i); [|done]. rewrite Hidx. intros [= <-]. simpl.
    pose proof (sum_list_insert _ _ _
                  (Draining i (Search_Clone idx (space_ w) o k)) Ht) as H.
    simpl in *. unfold fmap in *. lia.
  - destruct (query_res b !! i) as [ids|]; [|done].
    destruct (drain_step res ids) as [[res' ids']|] eqn:Hstep; intros [= <-]; simpl.
    + pose proof (sum_list_insert _ _ _ (Draining i res') Ht) as H.
      apply drain_step_Some in Hstep as [_ Hsz]. simpl in *. unfold fmap in *. lia.
    + pose proof (sum_list_insert _ _ _ AtLoop Ht) as H. simpl in *. unfold fmap in *. lia.
Qed.

Lemma run_to_join (b : batch) :
  inv b -> exists s b', run k w s (Running b) = Running b' /\ joined b' = true.
Proof.
  remember (measure b) as n eqn:Hn. revert b Hn.
  induction (lt_wf n) as [n _ IH]. intros b -> Hinv.
  destruct (joined b) eqn:Hj; [by exists [], b|].
  destruct (not_joined _ Hj) as (t & ws & Ht & Hws).
  destruct (can_step k w _ _ _ Ht Hws) as [c Hstep].
  destruct (inv_step _ _ _ Hinv Hstep) as (b1 & -> & Hinv1).
  destruct (IH _ (step_measure _ _ _ Hstep) b1 eq_refl Hinv1) as (s & b' & Hrun & Hj').
  exists (t :: s), b'. split; [|done]. rewrite run_cons. simpl. by rewrite Hstep.
Qed.

End Answers.

(** *** What a batch returns *)

Section Batches.
Context {dist_t : Type} {L : Library dist_t}.

#[local] Abbreviation worker := (@worker dist_t).
#[local] Abbreviation batch := (@batch dist_t).

(** With at least one thread and an index object, every schedule that joins
    returns the answers of the single queries, and every schedule can be
    continued into one that joins. *)
Lemma KnnQueryBatch_Points (w : IndexWrapper) (idx : Index) (k num_threads : Z)
    (qs : list Object) :
  index_ w = Points idx -> 1 <= num_threads ->
  (forall s r, KnnQueryBatch s num_threads k qs w = Some r ->
     r = Return (KnnQuery_ids idx (space_ w) k <$> qs))
  /\ forall s, exists s', KnnQueryBatch (s ++ s') num_threads k qs w
                         = Some (Return (KnnQuery_ids idx (space_ w) k <$> qs)).
Proof.
  intros Hidx Hn.
  pose proof (inv_start k w idx qs num_threads) as Hstart.
  assert (forall s b, run k w s (Running (KnnQueryBatch_start num_threads qs)) = Running b ->
            joined b = true -> query_res b = KnnQuery_ids idx (space_ w) k <$> qs) as Hres.
  { intros s b Hrun Hj.
    destruct (run_inv k w idx Hidx qs s _ Hstart) as (b' & Hrun' & Hinv & Hlen).
    rewrite Hrun in Hrun'. simplify_eq.
    apply (inv_joined k w idx qs); [done..|].
    intros Hnil. rewrite Hnil in Hlen. simpl in Hlen.
    rewrite length_replicate in Hlen. lia. }
  split.
  - intros s r. unfold KnnQueryBatch.
    destruct (run k w s _) as [b|] eqn:Hrun.
    + destruct (joined b) eqn:Hj; [|done]. intros [= <-]. f_equal. by eapply Hres.
    + destruct (run_inv k w idx Hidx qs s _ Hstart) as (b' & Hrun' & _). congruence.
  - intros s.
    destruct (run_inv k w idx Hidx qs s _ Hstart) as (b1 & Hrun1 & Hinv1 & _).
    destruct (run_to_join k w idx Hidx qs _ Hinv1) as (s' & b & Hrun & Hj).
    assert (run k w (s ++ s') (Running (KnnQueryBatch_start num_threads qs)) = Running b)
      as Hboth by (unfold run in *; by rewrite foldl_app, Hrun1).
    exists s'. unfold KnnQueryBatch. rewrite Hboth, Hj. do 2 f_equal. by eapply Hres.
Qed.

Lemma thread_step_no_thread (w : IndexWrapper) (k : Z) (t : nat) (b : batch) :
  threads b = [] -> thread_step k w t b = None.
Proof. intros H. unfold thread_step. by rewrite H. Qed.

(** Without threads nothing moves: the slots are returned as allocated. *)
Lemma KnnQueryBatch_no_threads (w : IndexWrapper) (k num_threads : Z) (qs : list Object)
    (s : schedule) :
  num_threads <= 0 ->
  KnnQueryBatch s num_threads k qs w = Some (Return (replicate (length qs) [])).
Proof.
  intros Hn. unfold KnnQueryBatch.
  assert (forall b : batch, threads b = [] -> run k w s (Running b) = Running b) as Hrun.
  { intros b Hb. induction s as [|t s IH]; [done|].
    rewrite run_cons. simpl. by rewrite thread_step_no_thread. }
  rewrite Hrun.
  - unfold joined, KnnQueryBatch_start. simpl. by rewrite Z2Nat.nonpos by done.
  - unfold KnnQueryBatch_start. simpl. by rewrite Z2Nat.nonpos by done.
Qed.

Lemma stuck_step (w : IndexWrapper) (k : Z) (t : nat) (b : batch)
    (c : config) :
  (forall idx, index_ w <> Points idx) ->
  stuck b -> thread_step k w t b = Some c ->
  c = Crashed \/ exists b', c = Running b' /\ stuck b'.
Proof.
  intros Hnull Hst. unfold thread_step.
  destruct (threads b !! t) as [[|i o|i res|]|] eqn:Ht; [| | |done|done].
  - destruct (q b) as [|[i o] rest] eqn:Hq; intros [= <-]; right; eexists; (split; [done|]).
    + destruct Hst as [[Hne _]|(t0 & i & o & Ht0)]; [done|].
      right. exists t0, i, o. simpl. rewrite list_lookup_insert_ne; [done|]. congruence.
    + right. exists t, i, o. simpl. apply list_lookup_insert_eq. by apply lookup_lt_Some in Ht.
  - intros H. left. destruct (query_res b !! i); [|by simplify_eq].
    destruct (index_ w) eqn:Hi; simplify_eq; try done. by destruct (Hnull i0).
  - destruct Hst as [[_ Hall]|(t0 & i0 & o0 & Ht0)]; [by specialize (Hall _ _ Ht)|].
    assert (t0 <> t) as Hne by congruence.
    intros Hc. repeat case_match; simplify_eq; [right..|by left]; eexists; (split; [done|]);
      right; exists t0, i0, o0; simpl; by rewrite list_lookup_insert_ne.
Qed.

Lemma stuck_run (w : IndexWrapper) (k : Z) (s : schedule) (b : batch) :
  (forall idx, index_ w <> Points idx) ->
  stuck b ->
  run k w s (Running b) = Crashed
  \/ exists b', run k w s (Running b) = Running b' /\ stuck b'
                /\ length (threads b') = length (threads b).
Proof.
  intros Hnull. revert b. induction s as [|t s IH]; intros b Hst; [right; by exists b|].
  rewrite run_cons. simpl.
  destruct (thread_step k w t b) as [c|] eqn:Hstep; simpl; [|by apply IH].
  destruct (stuck_step _ _ _ _ _ Hnull Hst Hstep) as [->|(b1 & -> & Hst1)].
  - left. apply run_Crashed.
  - destruct (IH _ Hst1) as [?|(b' & Hrun & Hst' & Hlen)]; [by left|].
    right. exists b'. split; [done|]. split; [done|].
    rewrite Hlen. by apply (step_threads k w t).
Qed.

(** With at least one thread and one query but no index object, every
    schedule that ends has dereferenced the invalid index pointer. *)
Lemma KnnQueryBatch_no_index (w : IndexWrapper) (k num_threads : Z) (qs : list Object) :
  (forall idx, index_ w <> Points idx) -> 1 <= num_threads -> qs <> [] ->
  (forall s r, KnnQueryBatch s num_threads k qs w = Some r -> r = Undefined)
  /\ KnnQueryBatch [0; 0]%nat num_threads k qs w = Some Undefined.
Proof.
  intros Hnull Hn Hqs.
  assert (stuck (dist_t := dist_t) (KnnQueryBatch_start num_threads qs)) as Hstart.
  { left. unfold KnnQueryBatch_start. simpl. split.
    - destruct qs; done.
    - intros t ws Ht. by apply lookup_replicate in Ht as [-> _]. }
  split.
  - intros s r. unfold KnnQueryBatch.
    destruct (stuck_run w k s _ Hnull Hstart) as [->|(b & -> & Hst & Hlen)]; [congruence|].
    destruct (joined b) eqn:Hj; [|done]. exfalso.
    destruct Hst as [[_ Hall]|(t & i & o & Ht)].
    + destruct (threads b) as [|ws l] eqn:Hl.
      * simpl in Hlen. rewrite length_replicate in Hlen. lia.
      * assert (ws = AtLoop) as -> by (by apply (Hall 0%nat)).
        assert (AtLoop = Exited :> worker); [|done].
        apply (joined_lookup b 0%nat); [done|]. by rewrite Hl.
    + by pose proof (joined_lookup b t _ Hj Ht).
  - destruct qs as [|o qs']; [done|].
    destruct (Z.to_nat num_threads) as [|n] eqn:Hnt; [lia|].
    unfold KnnQueryBatch, KnnQueryBatch_start. rewrite Hnt.
    simpl. unfold thread_step. simpl.
    destruct (index_ w) eqn:Hi; try done. by destruct (Hnull i).
Qed.

End Batches.

(** ** Arrays *)

Lemma is_C_float_matrix_inv (a : PyArrayObject) :
  is_C_float_matrix a = true ->
  exists n d cells,
    a = mkArray false [n; d] [4 * d; 4] (Float32Buf cells)
    /\ 0 <= n <= INT_MAX /\ 0 <= d <= INT_MAX /\ Z.of_nat (length cells) = n * d.
Proof.
  unfold is_C_float_matrix. destruct a as [[] dims strs buf]; simpl; [done|].
  destruct dims as [|n [|d [|]]]; try done.
  destruct strs as [|s0 [|s1 [|]]]; try done.
  destruct buf as [|cells|]; try done.
  intros H. apply bool_decide_eq_true in H as (? & ? & -> & -> & ?).
  by exists n, d, cells.
Qed.

Lemma read_row (cells : list float32) (n d : Z) (i : nat) :
  0 <= d -> Z.of_nat (length cells) = n * d -> Z.of_nat i < n ->
  read_floats cells (Z.of_nat i * (4 * d)) d
  = Some (take (Z.to_nat d) (drop (Z.to_nat (Z.of_nat i * d)) cells)).
Proof.
  intros Hd Hlen Hi. unfold read_floats.
  replace (Z.of_nat i * (4 * d)) with (Z.of_nat i * d * 4) by lia.
  rewrite Z.div_mul, Z.mod_mul by lia.
  rewrite decide_True; [done|]. split_and!; try lia. nia.
Qed.

Lemma objects_loop (a : PyArrayObject) (m i : nat) (acc : list Object) :
  is_C_float_matrix a = true ->
  (i + m)%nat = Z.to_nat (PyArray_DIM a 0) ->
  _knnQueryBatch_objects a (PyArray_DIM a 1) i m acc
  = Some (acc ++ ((fun j => mkObject 0 (-1) (matrix_row a j)) <$> seq i m)).
Proof.
  intros Ha. destruct (is_C_float_matrix_inv a Ha) as (n & d & cells & -> & Hn & Hd & Hlen).
  unfold PyArray_DIM. simpl. revert i acc.
  induction m as [|m IH]; intros i acc Him; simpl.
  - by rewrite app_nil_r.
  - unfold stride0, float_cells. simpl.
    rewrite (read_row cells n d i) by lia.
    rewrite IH by lia. by rewrite <- app_assoc.
Qed.

Lemma objects_of_matrix (a : PyArrayObject) :
  is_C_float_matrix a = true ->
  _knnQueryBatch_objects a (to_int (PyArray_DIM a 1)) 0
                         (Z.to_nat (to_int (PyArray_DIM a 0))) []
  = Some (matrix_objects a).
Proof.
  intros Ha. destruct (is_C_float_matrix_inv a Ha) as (n & d & cells & Heq & Hn & Hd & Hlen).
  assert (PyArray_DIM a 0 = n /\ PyArray_DIM a 1 = d) as [Hn' Hd'] by (by subst a).
  rewrite Hn', Hd', !to_int_small, <- Hn', <- Hd' by done.
  by rewrite objects_loop.
Qed.

Lemma padded_length (k : nat) (ids : list Z) : length (padded k ids) = k.
Proof. unfold padded. rewrite length_app, length_take, length_replicate. lia. Qed.

Lemma padded_short (k : nat) (ids : list Z) :
  (length ids <= k)%nat -> padded k ids = ids ++ replicate (k - length ids) 0.
Proof. intros H. unfold padded. by rewrite take_ge. Qed.

Lemma row_spec (K : nat) (k : Z) (i : nat) (row : list Z) (pre post : list Z) :
  k = Z.of_nat K -> length pre = (i * K)%nat ->
  forall (ret : PyArrayObject) (written : list Z),
  strides ret = [4 * k; 4] ->
  data ret = Int32Buf (pre ++ written ++ replicate (K - length written) 0 ++ post) ->
  (length written <= K)%nat ->
  _knnQueryBatch_row ret i (length written) k row
  = mkArray (flags_FORTRAN ret) (dimensions ret) (strides ret)
            (Int32Buf (pre ++ padded K (written ++ row) ++ post)).
Proof.
  intros -> Hpre. induction row as [|v row IH]; intros ret written Hstr Hdata Hw; simpl.
  - rewrite app_nil_r, padded_short by done. rewrite <- app_assoc.
    destruct ret; simpl in *. by subst.
  - case_decide as Hlt.
    + replace (S (length written)) with (length (written ++ [v]))
        by (rewrite length_app; simpl; lia).
      rewrite IH.
      * simpl. by rewrite <- (app_assoc written [v] row).
      * done.
      * unfold PyArray_SETINT2, stride0, stride1, int_cells. simpl.
        rewrite Hstr, Hdata. simpl. f_equal.
        replace (Z.to_nat ((Z.of_nat i * (4 * Z.of_nat K) + Z.of_nat (length written) * 4) / 4))
          with (length pre + (length written + 0))%nat.
        2:{ replace (Z.of_nat i * (4 * Z.of_nat K) + Z.of_nat (length written) * 4)
              with ((Z.of_nat i * Z.of_nat K + Z.of_nat (length written)) * 4) by lia.
            rewrite Z.div_mul by lia. lia. }
        rewrite insert_app_r, insert_app_r.
        destruct (K - length written)%nat as [|r] eqn:Hr; [lia|]. simpl.
        replace (K - length (written ++ [v]))%nat with r
          by (rewrite length_app; simpl; lia).
        by rewrite <- app_assoc.
      * rewrite length_app. simpl. lia.
    + assert (length written = K) as HK by lia.
      unfold padded. rewrite take_app_length' by done.
      rewrite length_app. simpl.
      replace (K - (length written + S (length row)))%nat with 0%nat by lia.
      replace (K - length written)%nat with 0%nat in Hdata by lia.
      simpl in *. rewrite app_nil_r. destruct ret; simpl in *. by subst.
Qed.

Lemma rows_spec (K : nat) (k : Z) (query_res : list (list Z)) :
  k = Z.of_nat K ->
  forall (ret : PyArrayObject) (i : nat) (filled : list Z),
  strides ret = [4 * k; 4] ->
  data ret = Int32Buf (filled ++ replicate (length query_res * K) 0) ->
  length filled = (i * K)%nat ->
  _knnQueryBatch_rows ret i k query_res
  = mkArray (flags_FORTRAN ret) (dimensions ret) (strides ret)
            (Int32Buf (filled ++ concat (padded K <$> query_res))).
Proof.
  intros Hk. induction query_res as [|row rest IH]; intros ret i filled Hstr Hdata Hlen; simpl.
  - simpl in Hdata. destruct ret; simpl in *. by subst.
  - pose proof (row_spec K k i row filled (replicate (length rest * K) 0) Hk Hlen ret [])
      as Hrow.
    simpl in Hrow. rewrite Hrow; [|done| |lia].
    2:{ rewrite Hdata. simpl. by rewrite Nat.sub_0_r, replicate_add. }
    rewrite (IH _ (S i) (filled ++ padded K row)); simpl.
    + by rewrite <- app_assoc.
    + done.
    + by rewrite <- app_assoc.
    + rewrite length_app, padded_length. lia.
Qed.

Lemma fill_spec (n k : Z) (ret : PyArrayObject) (query_res : list (list Z)) :
  PyArray_FromDims2 n k = Some ret -> length query_res = Z.to_nat n ->
  _knnQueryBatch_rows ret 0 k query_res
  = mkArray false [n; k] [4 * k; 4] (Int32Buf (concat (padded (Z.to_nat k) <$> query_res))).
Proof.
  unfold PyArray_FromDims2. case_decide as Hnk; [|done]. intros [= <-] Hlen.
  rewrite (rows_spec (Z.to_nat k) k query_res ltac:(lia) _ 0%nat []); simpl; try done.
  do 2 f_equal. rewrite Hlen. lia.
Qed.

Lemma concat_block {A : Type} (K : nat) (l : list (list A)) (p : nat) (x : list A) :
  Forall (fun y => length y = K) l -> l !! p = Some x ->
  take K (drop (p * K) (concat l)) = x.
Proof.
  intros Hall. revert p. induction Hall as [|y l Hy Hall IH]; intros p Hp; [done|].
  rewrite concat_cons. destruct p as [|p]; simpl in Hp.
  - simplify_eq. rewrite Nat.mul_0_l, drop_0. by rewrite take_app_length'.
  - replace (S p * K)%nat with (K + p * K)%nat by lia.
    rewrite drop_app_add' by done. by apply IH.
Qed.

Lemma int_row_fill (n k : Z) (query_res : list (list Z)) (p : nat) (ids : list Z) :
  query_res !! p = Some ids ->
  int_row (mkArray false [n; k] [4 * k; 4]
             (Int32Buf (concat (padded (Z.to_nat k) <$> query_res)))) (Z.to_nat k) p
  = padded (Z.to_nat k) ids.
Proof.
  intros Hp. unfold int_row, int_cells. simpl.
  apply concat_block.
  - apply Forall_fmap, Forall_true. intros ids'. apply padded_length.
  - by rewrite list_lookup_fmap, Hp.
Qed.

(** ** Batched queries *)

Section BatchedQueries.
Context {dist_t : Type} {L : Library dist_t}.

(** C1.  On a handle whose index reference points to an index object, for
    every [k], every list of queries and every number [W >= 1] of worker
    threads (in particular every [W] in [[1, Q]]): whatever the order in
    which the scheduler lets the threads take their steps, a call of
    [KnnQueryBatch] that returns gives a sequence with one entry per query
    whose entry at position [p] is the list of identifiers that [KnnQuery]
    returns for the query at [p]; no schedule crashes the call, and every
    schedule can be continued into one under which the call returns. *)
Theorem knn_query_batch_matches_single (w : IndexWrapper) (i : Index) (k W : Z)
    (queries : list Object) :
  index_ w = Points i ->
  1 <= W ->
  (forall s, exists s' res, KnnQueryBatch (s ++ s') W k queries w = Some (Return res))
  /\ forall s r, KnnQueryBatch s W k queries w = Some r ->
       exists res, r = Return res
         /\ length res = length queries
         /\ forall p query, queries !! p = Some query ->
              exists ids, res !! p = Some ids
                /\ KnnQuery k query w = Return (PyList (PyInt <$> ids)).
Proof.
  intros Hi HW.
  destruct (KnnQueryBatch_Points w i k W queries Hi HW) as [Hall Hsome].
  split; [intros s; destruct (Hsome s) as [s' Hs']; by eauto|].
  intros s' r Hr. rewrite (Hall _ _ Hr). eexists. split; [done|].
  split; [by rewrite length_fmap|].
  intros p query Hp. exists (KnnQuery_ids i (space_ w) k query). split.
  - by rewrite list_lookup_fmap, Hp.
  - by apply KnnQuery_Points.
Qed.

Lemma _knnQueryBatch_matrix (w : IndexWrapper) (k num_threads : Z) (data : PyArrayObject)
    (s : schedule) (r : py_result (list (list Z))) :
  1 <= k <= INT_MAX -> is_C_float_matrix data = true ->
  KnnQueryBatch s num_threads k (matrix_objects data) w = Some r ->
  _knnQueryBatch s num_threads k data w
  = Some match r with
         | Return query_res =>
             Return (PyArray (mkArray false [PyArray_DIM data 0; k] [4 * k; 4]
                      (Int32Buf (concat (padded (Z.to_nat k) <$> query_res)))))
         | PyErr msg => PyErr msg
         | Thrown => Thrown
         | Undefined => Undefined
         end.
Proof.
  intros Hk Ha Hr. unfold _knnQueryBatch.
  destruct (is_C_float_matrix_inv data Ha) as (n & d & cells & Heq & Hn & Hd & Hlen).
  assert (flags_FORTRAN data = false /\ type_num data = NPY_FLOAT32 /\ nd data = 2
          /\ PyArray_DIM data 0 = n) as (-> & Hty & Hnd & Hn') by (by subst data).
  rewrite bool_decide_eq_true_2 by done. simpl.
  rewrite objects_of_matrix, Hr by done.
  destruct r as [query_res| | |]; try done.
  rewrite Hn', to_int_small by done.
  assert (length query_res = Z.to_nat n) as Hres.
  { rewrite (KnnQueryBatch_length _ _ _ _ _ _ Hr). unfold matrix_objects.
    by rewrite length_fmap, length_seq, Hn'. }
  unfold PyArray_FromDims2 at 1. rewrite decide_True by lia.
  erewrite fill_spec; [done| |done].
  unfold PyArray_FromDims2. by rewrite decide_True by lia.
Qed.

Lemma knnQueryBatch_handle (w : IndexWrapper) (k num_threads : Z) (data : PyArrayObject)
    (s : schedule) :
  is_handle w -> 1 <= k ->
  knnQueryBatch s num_threads k data w
  = (fun r => (w, r)) <$> _knnQueryBatch s num_threads k data w.
Proof.
  intros Hh Hk. unfold knnQueryBatch.
  rewrite decide_False by lia. rewrite is_handle_IsDistFloat by done.
  by destruct (_knnQueryBatch _ _ _ _ _).
Qed.

Lemma KnnQueryBatch_slots (w : IndexWrapper) (i : Index) (k num_threads : Z)
    (qs : list Object) :
  index_ w = Points i ->
  (forall s r, KnnQueryBatch s num_threads k qs w = Some r ->
     r = Return (slot_of w i k num_threads <$> qs))
  /\ exists s, KnnQueryBatch s num_threads k qs w
               = Some (Return (slot_of w i k num_threads <$> qs)).
Proof.
  intros Hi. unfold slot_of. case_decide as Hn.
  - destruct (KnnQueryBatch_Points w i k num_threads qs Hi Hn) as [Hall Hsome].
    split; [done|]. destruct (Hsome []) as [s Hs]. by exists s.
  - assert (replicate (length qs) [] = (fun _ : Object => @nil Z) <$> qs) as <-.
    { induction qs; simpl; by f_equal. }
    split; [|exists []]; intros; rewrite KnnQueryBatch_no_threads in * by lia; by simplify_eq.
Qed.

(** C5.  On a handle with an index object, for every [k >= 1] and every
    C-ordered [float] matrix of [num_vec] rows, whatever the number of
    threads and the schedule, [knnQueryBatch] returns (it reports no error)
    a matrix of [int] of dimensions [num_vec] by [k]; row [p] holds the
    first [k] identifiers of the result list of query [p] followed by zeros
    up to the width [k], so a result list of at most [k] identifiers is
    there in full and in order, followed by zeros. *)
Theorem knn_query_batch_matrix (w : IndexWrapper) (i : Index) (k num_threads : Z)
    (data : PyArrayObject) :
  is_handle w ->
  index_ w = Points i ->
  1 <= k <= INT_MAX ->
  is_C_float_matrix data = true ->
  (exists s r, knnQueryBatch s num_threads k data w = Some r)
  /\ forall s r, knnQueryBatch s num_threads k data w = Some r ->
       exists ret, r = (w, Return (PyArray ret))
         /\ dimensions ret = [PyArray_DIM data 0; k]
         /\ forall p query, matrix_objects data !! p = Some query ->
              let ids := slot_of w i k num_threads query in
              int_row ret (Z.to_nat k) p
              = take (Z.to_nat k) ids ++ replicate (Z.to_nat k - length ids) 0
              /\ ((length ids <= Z.to_nat k)%nat ->
                  int_row ret (Z.to_nat k) p
                  = ids ++ replicate (Z.to_nat k - length ids) 0).
Proof.
  intros Hh Hi Hk Ha.
  destruct (KnnQueryBatch_slots w i k num_threads (matrix_objects data) Hi) as [Hall [s Hs]].
  split.
  - exists s. rewrite knnQueryBatch_handle by (done || lia).
    erewrite _knnQueryBatch_matrix by done. by eexists.
  - intros s' r. rewrite knnQueryBatch_handle by (done || lia).
    destruct (KnnQueryBatch s' num_threads k (matrix_objects data) w) as [r'|] eqn:Hr'.
    2:{ unfold _knnQueryBatch.
        destruct (is_C_float_matrix_inv data Ha) as (n & d & cells & Heq & Hn & Hd & Hlen).
        assert (flags_FORTRAN data = false /\ type_num data = NPY_FLOAT32 /\ nd data = 2)
          as (-> & Hty & Hnd) by (by subst data).
        rewrite bool_decide_eq_true_2 by done. simpl.
        by rewrite objects_of_matrix, Hr' by done. }
    erewrite _knnQueryBatch_matrix by done. rewrite (Hall _ _ Hr'). simpl.
    intros [= <-]. eexists. split; [done|]. split; [done|].
    intros p query Hp. cbv zeta. set (ids := slot_of w i k num_threads query).
    rewrite (int_row_fill _ _ _ p ids) by (by rewrite list_lookup_fmap, Hp).
    split; [done|]. apply padded_short.
Qed.

Lemma padded_empty_rows (K m : nat) :
  concat (padded K <$> replicate m []) = replicate (m * K) 0.
Proof.
  induction m as [|m IH]; [done|].
  rewrite replicate_S, fmap_cons, concat_cons, IH.
  change (S m * K)%nat with (K + m * K)%nat. rewrite replicate_add. f_equal.
  unfold padded. simpl. by rewrite take_nil, Nat.sub_0_r.
Qed.

(** C9.  For every [k >= 1] and every C-ordered [float] matrix of [num_vec]
    rows, with [num_threads <= 0] the batch has no thread, and under every
    schedule [knnQueryBatch] returns, without error and whatever the index
    reference of the handle is, the matrix of [num_vec] by [k] whose every
    entry is zero. *)
Theorem knn_query_batch_without_threads (w : IndexWrapper) (k num_threads : Z)
    (data : PyArrayObject) (s : schedule) :
  is_handle w ->
  1 <= k <= INT_MAX ->
  is_C_float_matrix data = true ->
  num_threads <= 0 ->
  threads (KnnQueryBatch_start (dist_t := dist_t) num_threads (matrix_objects data)) = []
  /\ knnQueryBatch s num_threads k data w
     = Some (w, Return (PyArray (mkArray false [PyArray_DIM data 0; k] [4 * k; 4]
                 (Int32Buf (replicate (Z.to_nat (PyArray_DIM data 0 * k)) 0))))).
Proof.
  intros Hh Hk Ha Hn. split.
  - unfold KnnQueryBatch_start. simpl. by rewrite Z2Nat.nonpos.
  - rewrite knnQueryBatch_handle by (done || lia).
    erewrite _knnQueryBatch_matrix; [|done|done|by apply KnnQueryBatch_no_threads].
    simpl. do 6 f_equal. unfold matrix_objects. rewrite length_fmap, length_seq.
    destruct (is_C_float_matrix_inv data Ha) as (n & d & cells & -> & Hn' & _).
    unfold PyArray_DIM. simpl.
    replace (Z.to_nat (n * k)) with (Z.to_nat n * Z.to_nat k)%nat by lia.
    apply padded_empty_rows.
Qed.

(** C3 (as amended).  On a handle whose index reference is null (no build
    or load was attempted), nothing checks that an index exists: [knnQuery]
    with [k >= 1] and a list of numbers (floats, and integers that fit a
    [double]) on a VECTOR handle, and
    [knnQueryBatch] with [k >= 1], at least one thread and at least one
    query row, call [Search] through the null pointer.  No error is
    reported; the behaviour is undefined, under every schedule. *)
Theorem query_without_index (w : IndexWrapper) (k num_threads : Z) (data : PyObject)
    (queries : PyArrayObject) :
  is_handle w ->
  data_type_ w = kDataVector ->
  index_ w = nullptr ->
  1 <= k <= INT_MAX ->
  well_formed_vector data = true ->
  is_C_float_matrix queries = true ->
  1 <= PyArray_DIM queries 0 ->
  1 <= num_threads ->
  knnQuery k data w = (w, Undefined)
  /\ knnQueryBatch [0; 0]%nat num_threads k queries w = Some (w, Undefined)
  /\ forall s r, knnQueryBatch s num_threads k queries w = Some r -> r = (w, Undefined).
Proof.
  intros Hh Ht Hi Hk Hwf Ha Hn Hnt.
  assert (forall idx, index_ w <> Points idx) as Hnull by (intros idx; by rewrite Hi).
  assert (matrix_objects queries <> []) as Hqs.
  { unfold matrix_objects. destruct (Z.to_nat (PyArray_DIM queries 0)) eqn:Hz; [lia|done]. }
  destruct (KnnQueryBatch_no_index w k num_threads _ Hnull Hnt Hqs) as [Hall Hrun].
  split_and!.
  - unfold knnQuery. rewrite decide_False by lia. rewrite is_handle_IsDistFloat by done.
    unfold _knnQuery, NMSLIB_DATA_READERS, GetDataType. rewrite decide_True by done.
    destruct (well_formed_readVector data 0 (GetDistType w) Hwf) as [arr ->].
    unfold KnnQuery. by rewrite Hi.
  - rewrite knnQueryBatch_handle by (done || lia).
    by erewrite _knnQueryBatch_matrix by done.
  - intros s r. rewrite knnQueryBatch_handle by (done || lia).
    destruct (KnnQueryBatch s num_threads k (matrix_objects queries) w) as [r'|] eqn:Hr'.
    2:{ unfold _knnQueryBatch.
        destruct (is_C_float_matrix_inv queries Ha) as (n & d & cells & Heq & _).
        assert (flags_FORTRAN queries = false /\ type_num queries = NPY_FLOAT32
                /\ nd queries = 2) as (-> & Hty & Hnd) by (by subst queries).
        rewrite bool_decide_eq_true_2 by done. simpl.
        by rewrite objects_of_matrix, Hr' by done. }
    erewrite _knnQueryBatch_matrix by done. rewrite (Hall _ _ Hr'). by intros [= <-].
Qed.

End BatchedQueries.

(** * Further properties *)

(** ** Reading a list *)

Lemma readList_mapM {V A : Type} (f : PyObject -> option V) (conv : V -> A)
    (lst : list PyObject) (z : list A) :
  readList lst z f conv
  = match mapM f lst with
    | Some vs => Return (z ++ (conv <$> vs))
    | None => PyErr "failed to read item from list"
    end.
Proof.
  revert z. induction lst as [|item rest IH]; intros z; simpl.
  - by rewrite app_nil_r.
  - destruct (f item) as [v|]; simpl; [|done].
    rewrite IH. destruct (mapM f rest) as [vs|]; simpl; [|done].
    by rewrite <- app_assoc.
Qed.

Lemma mapM_Forall2 {V : Type} (f : PyObject -> option V) (lst : list PyObject) (vs : list V) :
  mapM f lst = Some vs <-> Forall2 (fun item v => f item = Some v) lst vs.
Proof. apply mapM_Some. Qed.

Lemma mapM_Exists {V : Type} (f : PyObject -> option V) (lst : list PyObject) :
  mapM f lst = None <-> Exists (fun item => f item = None) lst.
Proof.
  rewrite mapM_None. rewrite Exists_exists. split.
  - intros (x & Hx & Hf). exists x. split; [done|done].
  - intros (x & Hx & Hf). exists x. split; done.
Qed.

(** X1.  [readList] converts every item or nothing: it returns the
    accumulator followed by the converted items, in the order of the list
    and one per item, when the reader accepts every item, and the error
    "failed to read item from list" when the reader refuses an item; it
    does nothing else. *)
Theorem readList_reads_all_or_fails {V A : Type} (f : PyObject -> option V) (conv : V -> A)
    (lst : list PyObject) (z : list A) :
  match readList lst z f conv with
  | Return r =>
      exists vs, Forall2 (fun item v => f item = Some v) lst vs
                 /\ r = z ++ (conv <$> vs) /\ length r = (length z + length lst)%nat
  | PyErr msg =>
      msg = "failed to read item from list" /\ Exists (fun item => f item = None) lst
  | Thrown | Undefined => False
  end.
Proof.
  rewrite readList_mapM. destruct (mapM f lst) as [vs|] eqn:H.
  - apply mapM_Forall2 in H as H2. exists vs. split; [done|]. split; [done|].
    rewrite length_app, length_fmap. by rewrite (Forall2_length _ _ _ H2).
  - split; [done|]. by apply mapM_Exists.
Qed.

(** ** Widening and narrowing *)

Lemma iter_pos_nat {A : Type} (f : A -> A) (p : positive) (x : A) :
  SpecFloat.iter_pos f p x = Nat.iter (Pos.to_nat p) f x.
Proof.
  revert x. induction p as [p IH|p IH|]; intros x; cbn [SpecFloat.iter_pos].
  - rewrite !IH, Pos2Nat.inj_xI.
    rewrite <- Nat.iter_succ_r, <- Nat.iter_add. f_equal. lia.
  - rewrite !IH, Pos2Nat.inj_xO, <- Nat.iter_add. f_equal. lia.
  - done.
Qed.

Lemma digits2_pos_shift (n : nat) (m : positive) :
  Zpos (digits2_pos (Nat.iter n xO m)) = Zpos (digits2_pos m) + Z.of_nat n.
Proof.
  induction n as [|n IH]; [simpl; lia|].
  rewrite Nat.iter_succ. cbn [digits2_pos]. rewrite Pos2Z.inj_succ, IH. lia.
Qed.

Lemma shr_1_shift (n : nat) (m : positive) :
  Nat.iter n shr_1 (Build_shr_record (Zpos (Nat.iter n xO m)) false false)
  = Build_shr_record (Zpos m) false false.
Proof.
  induction n as [|n IH]; [done|].
  rewrite Nat.iter_succ_r, Nat.iter_succ. simpl. apply IH.
Qed.

(** The [double] a [float] widens to: the mantissa shifted to 53 digits. *)
Lemma float_to_double_finite (s : bool) (m : positive) (e : Z) :
  bounded 24 128 m e = true ->
  float_to_double (S754_finite s m e)
  = S754_finite s (Nat.iter (Z.to_nat (53 - Zpos (digits2_pos m))) xO m)
                  (Zpos (digits2_pos m) + e - 53)
  /\ 1 <= Zpos (digits2_pos m) <= 24 /\ -149 <= e <= 104.
Proof.
  unfold bounded, canonical_mantissa, fexp, emin. intros H.
  apply andb_prop in H as [Hc He]. apply Z.eqb_eq in Hc. apply Z.leb_le in He.
  set (D := Zpos (digits2_pos m)) in *.
  assert (1 <= D) as HD1 by (unfold D; lia).
  assert (D <= 24 /\ -149 <= e) as [HD He'] by lia.
  split; [|lia].
  unfold float_to_double, binary_round, fexp, emin. fold D.
  replace (Z.max (D + e - 53) (3 - 1024 - 53)) with (D + e - 53) by lia.
  unfold shl_align.
  destruct (D + e - 53 - e) as [|d|d] eqn:Hd; try lia.
  assert (Pos.to_nat d = Z.to_nat (53 - D)) as Hdn by lia.
  rewrite Pos2Nat.inj_iter. change (nat_rect _ ?x (fun _ => ?f) ?n) with (Nat.iter n f x).
  rewrite Hdn.
  set (n := Z.to_nat (53 - D)).
  set (mz := Nat.iter n xO m).
  assert (Zpos (digits2_pos mz) = 53) as Hmz.
  { unfold mz. rewrite digits2_pos_shift. fold D. lia. }
  unfold binary_round_aux, shr_fexp, fexp, emin. cbn [Zdigits2 shr_record_of_loc].
  rewrite Hmz.
  replace (Z.max (53 + (D + e - 53) - 53) (3 - 1024 - 53) - (D + e - 53)) with 0 by lia.
  cbn [shr shr_m loc_of_shr_record round_nearest_even Zdigits2 shr_record_of_loc].
  rewrite Hmz.
  replace (Z.max (53 + (D + e - 53) - 53) (3 - 1024 - 53) - (D + e - 53)) with 0 by lia.
  cbn [shr shr_m].
  destruct (Z.leb_spec (D + e - 53) (1024 - 53)); [done|lia].
Qed.

(** Widening a [float] loses nothing: narrowing gives the [float] back. *)
Lemma double_to_float_to_double (f : float32) :
  is_float32 f = true -> double_to_float (float_to_double f) = f.
Proof.
  destruct f as [| | |s m e]; try done. unfold is_float32, valid_binary. intros H.
  destruct (float_to_double_finite s m e H) as (-> & HD & He).
  unfold bounded, canonical_mantissa, fexp, emin in H.
  apply andb_prop in H as [Hc _]. apply Z.eqb_eq in Hc.
  set (D := Zpos (digits2_pos m)) in *.
  set (n := Z.to_nat (53 - D)).
  set (mz := Nat.iter n xO m).
  assert (Zpos (digits2_pos mz) = 53) as Hmz.
  { unfold mz. rewrite digits2_pos_shift. fold D. lia. }
  unfold double_to_float, binary_round, fexp, emin. rewrite Hmz.
  replace (53 + (D + e - 53)) with (D + e) by lia.
  rewrite Hc. unfold shl_align.
  destruct (e - (D + e - 53)) as [|d|d] eqn:Hd; try lia.
  unfold binary_round_aux, shr_fexp, fexp, emin. cbn [Zdigits2 shr_record_of_loc].
  rewrite Hmz. replace (53 + (D + e - 53)) with (D + e) by lia.
  rewrite Hc, Hd. cbn [shr].
  rewrite iter_pos_nat.
  assert (Pos.to_nat d = n) as -> by (unfold n; lia).
  unfold mz. rewrite shr_1_shift.
  cbn [shr_m loc_of_shr_record round_nearest_even Zdigits2 shr_record_of_loc].
  fold D. replace (D + (D + e - 53 + Z.pos d)) with (D + e) by lia.
  rewrite Hc. replace (e - (D + e - 53 + Z.pos d)) with 0 by lia.
  cbn [shr shr_m].
  destruct (Z.leb_spec (D + e - 53 + Z.pos d) (128 - 24)); [|lia].
  f_equal. lia.
Qed.

(** ** Reading and writing a vector *)

Lemma number_AsDouble (o : PyObject) :
  is_number o = true -> PyFloat_AsDouble o = Some (as_double o).
Proof. unfold as_double. destruct o; try done. simpl. by intros ->. Qed.

Lemma not_number_AsDouble (o : PyObject) :
  is_number o = false -> PyFloat_AsDouble o = None.
Proof. destruct o; try done. simpl. by intros ->. Qed.

Lemma numbers_mapM (l : list PyObject) :
  forallb is_number l = true -> mapM PyFloat_AsDouble l = Some (as_double <$> l).
Proof.
  induction l as [|o l IH]; [done|]. simpl. intros H.
  apply andb_prop in H as [Ho Hl]. by rewrite (IH Hl), (number_AsDouble o Ho).
Qed.

Lemma not_numbers_mapM (l : list PyObject) :
  forallb is_number l = false -> mapM PyFloat_AsDouble l = None.
Proof.
  induction l as [|o l IH]; [done|]. simpl. intros H.
  apply andb_false_iff in H as [Ho|Hl].
  - by rewrite (not_number_AsDouble o Ho).
  - rewrite (IH Hl). by destruct (PyFloat_AsDouble o).
Qed.

Lemma readVector_numbers (l : list PyObject) (id0 dist_type : Z) :
  forallb is_number l = true ->
  readVector (PyList l) id0 dist_type
  = Return (mkObject id0 (-1) ((fun o => double_to_float (as_double o)) <$> l)).
Proof.
  intros H. unfold readVector. rewrite readList_mapM, (numbers_mapM l H). simpl.
  by rewrite <- list_fmap_compose.
Qed.

Lemma readVector_malformed (data : PyObject) (id0 dist_type : Z) :
  well_formed_vector data = false ->
  readVector data id0 dist_type
  = PyErr (match data with
           | PyList _ => "failed to read item from list"
           | _ => "expected DataType.Vector"
           end).
Proof.
  destruct data as [| | | |l|]; try done. simpl. intros H.
  by rewrite readList_mapM, (not_numbers_mapM l H).
Qed.

(** ** Points added and read back *)

Section StoredPoints.
Context {dist_t : Type} {L : Library dist_t}.

Lemma set_data_same (w : IndexWrapper) : set_data_ (data_ w) w = w.
Proof. by destruct w. Qed.

Lemma set_data_twice (d d' : list Object) (w : IndexWrapper) :
  set_data_ d' (set_data_ d w) = set_data_ d' w.
Proof. done. Qed.


(** What the loop of [_addDataPointBatch] leaves, however far it gets: the
    wrapper with some points appended. *)
Lemma _addDataPointBatch_loop_appends (ids data : PyArrayObject) (num_dim : Z) (n i : nat)
    (w : IndexWrapper) :
  exists objs,
    (_addDataPointBatch_loop ids data num_dim i n w).1 = set_data_ (data_ w ++ objs) w.
Proof.
  revert i w. induction n as [|n IH]; intros i w; simpl.
  - exists []. by rewrite app_nil_r, set_data_same.
  - destruct (int_cells ids !! i) as [id_i|];
      [destruct (read_floats _ _ _) as [buf|]|]; simpl.
    + destruct (IH (S i) (AddDataPoint (mkObject id_i (-1) buf) w)) as [objs ->].
      exists (mkObject id_i (-1) buf :: objs). unfold AddDataPoint. simpl.
      by rewrite <- app_assoc.
    + exists []. by rewrite app_nil_r, set_data_same.
    + exists []. by rewrite app_nil_r, set_data_same.
Qed.

(** The loop on a C-ordered matrix and identifiers enough for its rows. *)
Lemma _addDataPointBatch_loop_rows (ids data : PyArrayObject) (m i : nat) (w : IndexWrapper) :
  is_C_float_matrix data = true ->
  (i + m)%nat = Z.to_nat (PyArray_DIM data 0) ->
  (i + m <= length (int_cells ids))%nat ->
  _addDataPointBatch_loop ids data (PyArray_DIM data 1) i m w
  = (set_data_ (data_ w ++ ((fun j => mkObject (default 0 (int_cells ids !! j)) (-1)
                                               (matrix_row data j)) <$> seq i m)) w,
     Return Py_None).
Proof.
  intros Ha. destruct (is_C_float_matrix_inv data Ha) as (n & d & cells & -> & Hn & Hd & Hlen).
  unfold PyArray_DIM. simpl. revert i w.
  induction m as [|m IH]; intros i w Him Hids; simpl.
  - by rewrite app_nil_r, set_data_same.
  - destruct (int_cells ids !! i) as [id_i|] eqn:Hid.
    2:{ apply lookup_ge_None in Hid. lia. }
    unfold stride0, float_cells. simpl.
    rewrite (read_row cells n d i) by lia.
    rewrite IH by lia. unfold AddDataPoint. simpl.
    by rewrite set_data_twice, <- app_assoc.
Qed.

(** The rows [addDataPointBatch] stores. *)
Lemma addDataPointBatch_rows (w : IndexWrapper) (ids data : PyArrayObject) :
  is_handle w ->
  is_C_float_matrix data = true ->
  type_num ids = NPY_INT32 -> nd ids = 1 ->
  PyArray_DIM ids 0 = PyArray_DIM data 0 ->
  (Z.to_nat (PyArray_DIM data 0) <= length (int_cells ids))%nat ->
  let rows := (fun j => mkObject (default 0 (int_cells ids !! j)) (-1) (matrix_row data j))
                <$> seq 0 (Z.to_nat (PyArray_DIM data 0)) in
  addDataPointBatch ids data w = (set_data_ (data_ w ++ rows) w, Return Py_None)
  /\ length rows = Z.to_nat (PyArray_DIM data 0)
  /\ forall (i : nat) (id_i : Z),
       Z.of_nat i < PyArray_DIM data 0 -> int_cells ids !! i = Some id_i ->
       (data_ w ++ rows) !! (length (data_ w) + i)%nat
       = Some (mkObject id_i (-1) (matrix_row data i)).
Proof.
  intros Hh Ha Hty Hnd Hdim Hlen rows.
  destruct (is_C_float_matrix_inv data Ha) as (n & d & cells & Heq & Hn & Hd & Hcells).
  assert (flags_FORTRAN data = false /\ type_num data = NPY_FLOAT32 /\ nd data = 2
          /\ PyArray_DIM data 0 = n /\ PyArray_DIM data 1 = d)
    as (Hfl & Hty' & Hnd' & Hn' & Hd') by (by subst data).
  split_and!.
  - unfold addDataPointBatch, _addDataPointBatch.
    rewrite is_handle_IsDistFloat, Hfl by done.
    rewrite !bool_decide_eq_true_2 by done. simpl.
    rewrite Hn', Hd', !to_int_small by done.
    rewrite decide_False by lia.
    rewrite <- Hd'. rewrite _addDataPointBatch_loop_rows; [|done|simpl; lia|simpl; lia].
    unfold rows. by rewrite Hn'.
  - unfold rows. by rewrite length_fmap, length_seq.
  - intros i id_i Hi Hid. rewrite lookup_app_r by lia.
    replace (length (data_ w) + i - length (data_ w))%nat with i by lia.
    unfold rows. rewrite list_lookup_fmap, lookup_seq_lt by lia. simpl. by rewrite Hid.
Qed.

Lemma is_int32_vector_inv (ids : PyArrayObject) :
  is_int32_vector ids = true ->
  type_num ids = NPY_INT32 /\ nd ids = 1 /\ stride0 ids = 4
  /\ PyArray_DIM ids 0 = Z.of_nat (length (int_cells ids)).
Proof.
  unfold is_int32_vector, type_num, nd, PyArray_DIM, int_cells, stride0.
  destruct ids as [fl dims strs buf]; simpl.
  destruct dims as [|n [|]]; try done.
  destruct strs as [|s [|]]; try done.
  destruct buf as [cells| |]; try done.
  intros H. apply bool_decide_eq_true in H as [-> H]. done.
Qed.

(** X3.  On a handle, whatever its data type and its index reference,
    [addDataPointBatch] with a C-ordered [float] matrix and a contiguous
    [int32] vector of as many identifiers as the matrix has rows succeeds:
    the index reference is untouched, the count grows by the number of rows,
    the points stored before stay where they were, and row [i] is stored
    with identifier [i] of the vector at the position count + [i].  On a
    handle whose data type is VECTOR, [getDataPoint] at that position
    returns the components of the row, widened. *)
Theorem add_batch_reads_back (w : IndexWrapper) (ids data : PyArrayObject) :
  is_handle w ->
  is_C_float_matrix data = true ->
  is_int32_vector ids = true ->
  PyArray_DIM ids 0 = PyArray_DIM data 0 ->
  exists w',
    addDataPointBatch ids data w = (w', Return Py_None)
    /\ index_ w' = index_ w
    /\ GetDataPointQty w' = GetDataPointQty w + PyArray_DIM data 0
    /\ (forall p, 0 <= p < GetDataPointQty w -> GetDataPoint p w' = GetDataPoint p w)
    /\ forall (i : nat) (id_i : Z), int_cells ids !! i = Some id_i ->
         GetDataPoint (GetDataPointQty w + Z.of_nat i) w'
         = Some (mkObject id_i (-1) (matrix_row data i))
         /\ (data_type_ w = kDataVector ->
             getDataPoint (GetDataPointQty w + Z.of_nat i) w'
             = (w', Return (PyList ((fun x => PyFloat (float_to_double x))
                                      <$> matrix_row data i)))).
Proof.
  intros Hh Ha Hv Hdim.
  destruct (is_int32_vector_inv ids Hv) as (Hty & Hnd & _ & Hlen).
  destruct (is_C_float_matrix_inv data Ha) as (n & d & cells & Heq & Hn & _).
  assert (PyArray_DIM data 0 = n) as Hn' by (by subst data).
  destruct (addDataPointBatch_rows w ids data Hh Ha Hty Hnd Hdim ltac:(lia))
    as (Hadd & Hrows & Hrow).
  eexists. split_and!.
  - exact Hadd.
  - done.
  - unfold GetDataPointQty. simpl. rewrite length_app, Hrows. lia.
  - intros p Hp. unfold GetDataPointQty in Hp. rewrite !GetDataPoint_lookup by lia.
    simpl. apply lookup_app_l. lia.
  - intros i id_i Hi. apply lookup_lt_Some in Hi as Hlt.
    specialize (Hrow i id_i ltac:(lia) Hi).
    assert (Z.to_nat (GetDataPointQty w + Z.of_nat i) = (length (data_ w) + i)%nat) as Hpos
      by (unfold GetDataPointQty; lia).
    split.
    + rewrite GetDataPoint_lookup by (unfold GetDataPointQty; lia). simpl. by rewrite Hpos.
    + intros Ht.
      apply (getDataPoint_in_range _ _ (mkObject id_i (-1) (matrix_row data i)));
        [done|done|unfold GetDataPointQty; lia|].
      simpl. by rewrite Hpos.
Qed.

(** X4.  [_addDataPointBatch] reads the identifiers as consecutive [int]
    from the start of the buffer of [ids] and looks neither at the strides
    of [ids] nor at its ordering flag.  For every one-dimensional [int32]
    array of as many elements as the matrix has rows, the call succeeds and
    the identifier stored with row [i] is cell [i] of the buffer.  That is
    element [i] of the array when its stride is 4; in an array of stride
    [4 * step], element [i] is cell [i * step], so for another step than 1
    the identifier stored is not the element. *)
Theorem add_batch_reads_ids_by_cell (w : IndexWrapper) (ids data : PyArrayObject) :
  is_handle w ->
  is_C_float_matrix data = true ->
  type_num ids = NPY_INT32 -> nd ids = 1 ->
  PyArray_DIM ids 0 = PyArray_DIM data 0 ->
  (Z.to_nat (PyArray_DIM data 0) <= length (int_cells ids))%nat ->
  exists w',
    addDataPointBatch ids data w = (w', Return Py_None)
    /\ forall (i : nat) (id_i : Z),
         Z.of_nat i < PyArray_DIM data 0 -> int_cells ids !! i = Some id_i ->
         GetDataPoint (GetDataPointQty w + Z.of_nat i) w'
         = Some (mkObject id_i (-1) (matrix_row data i))
         /\ (stride0 ids = 4 -> PyArray_GETINT1 ids i = Some id_i)
         /\ (forall step, 0 <= step -> stride0 ids = 4 * step ->
             PyArray_GETINT1 ids i = int_cells ids !! (i * Z.to_nat step)%nat).
Proof.
  intros Hh Ha Hty Hnd Hdim Hlen.
  destruct (addDataPointBatch_rows w ids data Hh Ha Hty Hnd Hdim Hlen)
    as (Hadd & Hrows & Hrow).
  eexists. split; [exact Hadd|]. intros i id_i Hi Hid.
  assert (forall step, 0 <= step -> stride0 ids = 4 * step ->
            PyArray_GETINT1 ids i = int_cells ids !! (i * Z.to_nat step)%nat) as Hstep.
  { intros step Hs Hstr. unfold PyArray_GETINT1. rewrite Hstr.
    replace (Z.of_nat i * (4 * step)) with (Z.of_nat i * step * 4) by lia.
    rewrite Z.div_mul by lia. f_equal. lia. }
  split_and!.
  - rewrite GetDataPoint_lookup by (unfold GetDataPointQty; lia). simpl.
    replace (Z.to_nat (GetDataPointQty w + Z.of_nat i)) with (length (data_ w) + i)%nat
      by (unfold GetDataPointQty; lia).
    by apply Hrow.
  - intros Hstr. rewrite (Hstep 1) by (done || lia). by rewrite Nat.mul_1_r.
  - exact Hstep.
Qed.

Lemma widened_numbers (xs : list float32) :
  forallb is_number ((fun x => PyFloat (float_to_double x)) <$> xs) = true.
Proof. induction xs as [|x xs IH]; [done|]. simpl. apply IH. Qed.

Lemma narrowed_widened (xs : list float32) :
  Forall (fun x => is_float32 x = true) xs ->
  (fun o => double_to_float (as_double o)) <$> ((fun x => PyFloat (float_to_double x)) <$> xs)
  = xs.
Proof.
  induction 1 as [|x xs Hx _ IH]; [done|]. rewrite !fmap_cons, IH. f_equal.
  unfold as_double. simpl. by apply double_to_float_to_double.
Qed.

(** X5.  Copying a point loses nothing.  On a handle whose data type is
    VECTOR, for a stored point whose components are values of the type
    [float]: the list [getDataPoint] returns, given to [addDataPoint],
    stores a point with exactly the components of the original, and
    [getDataPoint] returns the same list for the copy. *)
Theorem copied_point_is_exact (w : IndexWrapper) (p id0 : Z) (obj : Object) :
  is_handle w ->
  data_type_ w = kDataVector ->
  0 <= p ->
  data_ w !! Z.to_nat p = Some obj ->
  Forall (fun x => is_float32 x = true) (components obj) ->
  exists l w',
    getDataPoint p w = (w, Return (PyList l))
    /\ addDataPoint id0 (PyList l) w = (w', Return Py_None)
    /\ data_ w' = data_ w ++ [mkObject id0 (-1) (components obj)]
    /\ getDataPoint (GetDataPointQty w) w' = (w', Return (PyList l)).
Proof.
  intros Hh Ht Hp Hobj Hval.
  set (l := (fun x => PyFloat (float_to_double x)) <$> components obj).
  assert (forallb is_number l = true) as Hl by apply widened_numbers.
  assert ((fun o => double_to_float (as_double o)) <$> l = components obj) as Hback
    by (by apply narrowed_widened).
  set (z := mkObject id0 (-1) (components obj)).
  exists l, (AddDataPoint z w). split_and!.
  - by apply getDataPoint_in_range.
  - unfold addDataPoint, _addDataPoint. rewrite is_handle_IsDistFloat by done.
    unfold NMSLIB_DATA_READERS, GetDataType. rewrite decide_True by done.
    by rewrite readVector_numbers, Hback.
  - done.
  - apply (getDataPoint_in_range _ _ z); [done|done|unfold GetDataPointQty; lia|].
    unfold GetDataPointQty, AddDataPoint. simpl. rewrite Nat2Z.id.
    by rewrite lookup_app_r, Nat.sub_diag.
Qed.

End StoredPoints.

(** ** One by one, or in a batch *)

Section OneByOne.
Context {dist_t : Type} {L : Library dist_t} {M : IndexMethods dist_t}.

Lemma matrix_row_float32 (data : PyArrayObject) (i : nat) :
  Forall (fun x => is_float32 x = true) (float_cells data) ->
  Forall (fun x => is_float32 x = true) (matrix_row data i).
Proof. intros H. unfold matrix_row. by apply Forall_take, Forall_drop. Qed.

Lemma add_rows_one_by_one (ids data : PyArrayObject) (m i : nat) (w : IndexWrapper) :
  is_handle w -> data_type_ w = kDataVector ->
  Forall (fun x => is_float32 x = true) (float_cells data) ->
  session (add_row ids data <$> seq i m) w
  = Some (set_data_ (data_ w ++ ((fun j => mkObject (default 0 (int_cells ids !! j)) (-1)
                                                     (matrix_row data j)) <$> seq i m)) w,
          replicate m (Return Py_None)).
Proof.
  intros Hh Ht Hval. revert i w Hh Ht.
  induction m as [|m IH]; intros i w Hh Ht; simpl.
  - by rewrite app_nil_r, set_data_same.
  - unfold addDataPoint, _addDataPoint. rewrite is_handle_IsDistFloat by done.
    unfold NMSLIB_DATA_READERS, GetDataType. rewrite decide_True by done.
    rewrite readVector_numbers by apply widened_numbers.
    rewrite narrowed_widened by (by apply matrix_row_float32).
    rewrite IH by done. unfold AddDataPoint. simpl.
    by rewrite set_data_twice, <- app_assoc.
Qed.

(** X6.  One by one, or in a batch: the same points.  On a handle whose
    data type is VECTOR, for a C-ordered matrix of values of the type
    [float] and a contiguous [int32] vector of as many identifiers as the
    matrix has rows, [addDataPointBatch] leaves the wrapper that the calls
    of [addDataPoint] leave, made row after row with identifier [i] and the
    components of row [i] as a list of Python floats; the batch returns
    [None] and so does each of the calls. *)
Theorem batch_adds_what_single_adds (w : IndexWrapper) (ids data : PyArrayObject) :
  is_handle w ->
  data_type_ w = kDataVector ->
  is_C_float_matrix data = true ->
  Forall (fun x => is_float32 x = true) (float_cells data) ->
  is_int32_vector ids = true ->
  PyArray_DIM ids 0 = PyArray_DIM data 0 ->
  let n := Z.to_nat (PyArray_DIM data 0) in
  exists w',
    addDataPointBatch ids data w = (w', Return Py_None)
    /\ session (add_row ids data <$> seq 0 n) w = Some (w', replicate n (Return Py_None)).
Proof.
  intros Hh Ht Ha Hval Hv Hdim n.
  destruct (is_int32_vector_inv ids Hv) as (Hty & Hnd & _ & Hlen).
  destruct (is_C_float_matrix_inv data Ha) as (n' & d & cells & Heq & Hn & _).
  assert (PyArray_DIM data 0 = n') as Hn' by (by subst data).
  destruct (addDataPointBatch_rows w ids data Hh Ha Hty Hnd Hdim ltac:(lia))
    as (Hadd & _ & _).
  eexists. split; [exact Hadd|]. by apply add_rows_one_by_one.
Qed.

End OneByOne.

(** ** What the single-point functions answer *)

Section Outcomes.
Context {dist_t : Type} {L : Library dist_t}.

Lemma IsDistFloat_true (w : IndexWrapper) : IsDistFloat w = true <-> is_handle w.
Proof. unfold IsDistFloat, is_handle. apply bool_decide_eq_true. Qed.

Lemma IsDistFloat_false (w : IndexWrapper) : IsDistFloat w = false <-> ~ is_handle w.
Proof. unfold IsDistFloat, is_handle. apply bool_decide_eq_false. Qed.


(** X7.  [getDataPoint] on every wrapper and every position: it never
    changes the wrapper, never throws and is never undefined (the checked
    access [data_.at] is always in range), and it checks in this order: the
    distance type of the handle, the range of the position, the data type.
    It returns the components of the point stored at the position exactly
    when all three checks pass. *)
Theorem get_point_outcomes (w : IndexWrapper) (p : Z) :
  (getDataPoint p w).1 = w
  /\ match (getDataPoint p w).2 with
     | Return r =>
         is_handle w /\ 0 <= p < GetDataPointQty w /\ data_type_ w = kDataVector
         /\ exists obj, data_ w !! Z.to_nat p = Some obj
              /\ r = PyList ((fun x => PyFloat (float_to_double x)) <$> components obj)
     | PyErr msg =>
         (~ is_handle w /\ msg = generic_bindings)
         \/ (is_handle w /\ (p < 0 \/ p >= GetDataPointQty w)
             /\ msg = "The data point index should be >= 0 & < "
                        +:+ show_Z (GetDataPointQty w))
         \/ (is_handle w /\ 0 <= p < GetDataPointQty w /\ data_type_ w <> kDataVector
             /\ msg = "unknown data type - " +:+ show_Z (data_type_ w))
     | Thrown | Undefined => False
     end.
Proof.
  unfold getDataPoint. destruct (IsDistFloat w) eqn:Hf; simpl.
  2:{ split; [done|]. left. by apply IsDistFloat_false in Hf. }
  apply IsDistFloat_true in Hf. split; [done|].
  unfold _getDataPoint. case_decide as Hp.
  { right. left. done. }
  unfold NMSLIB_DATA_WRITERS, GetDataType. case_decide as Ht.
  2:{ right. right. split_and!; try done; lia. }
  assert (0 <= p < GetDataPointQty w) as Hr by lia.
  rewrite GetDataPoint_lookup by lia.
  destruct (data_ w !! Z.to_nat p) as [obj|] eqn:Hobj.
  2:{ apply lookup_ge_None in Hobj. unfold GetDataPointQty in Hr. lia. }
  rewrite writeVector_spec. split_and!; try done; try lia. by exists obj.
Qed.



End Outcomes.

(** ** What a call leaves of the wrapper *)

Section Frame.
Context {dist_t : Type} {L : Library dist_t} {M : IndexMethods dist_t}.

(** The wrapper [w] with another index reference and more points. *)
#[local] Abbreviation grown w p objs :=
  (mkWrapper (dist_type_ w) (data_type_ w) (space_type_ w) (method_name_ w)
             p (space_ w) (data_ w ++ objs)).

Lemma grown_same (w : IndexWrapper) : w = grown w (index_ w) [].
Proof. destruct w. simpl. by rewrite app_nil_r. Qed.

Lemma grown_index (w : IndexWrapper) (p : IndexPtr) : set_index_ p w = grown w p [].
Proof. unfold set_index_. by rewrite app_nil_r. Qed.

Lemma replace_index_grown (run : Index -> Index * bool) (w : IndexWrapper) :
  exists p, (replace_index run w).1 = grown w p [].
Proof.
  unfold replace_index, delete_index_.
  destruct (index_ w) eqn:Hi; simpl.
  - destruct (CreateMethod _ _ _ _ _) as [fresh|]; [destruct (run fresh)|]; simpl.
    + eexists. apply grown_index.
    + eexists. apply grown_same.
  - destruct (CreateMethod _ _ _ _ _) as [fresh|]; [destruct (run fresh)|]; simpl.
    + eexists. rewrite app_nil_r. done.
    + eexists. rewrite app_nil_r. done.
  - eexists. apply grown_same.
Qed.

Lemma through_index_grown (method : Index -> Index * bool) (w : IndexWrapper) :
  exists p, (through_index_ method w).1 = grown w p [].
Proof.
  unfold through_index_. destruct (index_ w) eqn:Hi; simpl.
  - eexists. apply grown_same.
  - destruct (method i). simpl. eexists. apply grown_index.
  - eexists. apply grown_same.
Qed.

(** Every call leaves the wrapper it was given, but for the index reference
    and for points appended. *)
Lemma call_grown (c : call) (w w' : IndexWrapper) (r : py_result PyObject) :
  nmslibMethods c w = Some (w', r) -> exists p objs, w' = grown w p objs.
Proof.
  assert (exists p objs, w = grown w p objs) as Hsame
    by (exists (index_ w), []; apply grown_same).
  destruct c; simpl.
  - intros [= H]. unfold addDataPoint, _addDataPoint in H.
    repeat case_match; simplify_eq; try done.
    eexists (index_ w), [_]. done.
  - intros [= H]. unfold addDataPointBatch, _addDataPointBatch in H.
    repeat case_match; simplify_eq; try done.
    match goal with
    | H : _addDataPointBatch_loop ?a ?b ?c ?d ?e ?f = _ |- _ =>
        destruct (_addDataPointBatch_loop_appends a b c e d f) as [objs Ho];
        rewrite H in Ho
    end.
    simpl in Ho. subst. by exists (index_ w), objs.
  - intros [= H]. unfold createIndex, _createIndex, CreateIndex in H.
    repeat case_match; simplify_eq; try done.
    all: match goal with
         | H : replace_index ?run ?w = _ |- _ =>
             destruct (replace_index_grown run w) as [p Hp]; rewrite H in Hp
         end.
    all: simpl in Hp; subst; by exists p, [].
  - intros [= H]. unfold saveIndex, _saveIndex, SaveIndex in H.
    repeat case_match; simplify_eq; try done.
    all: match goal with
         | H : through_index_ ?run ?w = _ |- _ =>
             destruct (through_index_grown run w) as [p Hp]; rewrite H in Hp
         end.
    all: simpl in Hp; subst; by exists p, [].
  - intros [= H]. unfold loadIndex, _loadIndex, LoadIndex in H.
    repeat case_match; simplify_eq; try done.
    all: match goal with
         | H : replace_index ?run ?w = _ |- _ =>
             destruct (replace_index_grown run w) as [p Hp]; rewrite H in Hp
         end.
    all: simpl in Hp; subst; by exists p, [].
  - intros [= H]. unfold setQueryTimeParams, _setQueryTimeParams, SetQueryTimeParams in H.
    repeat case_match; simplify_eq; try done.
    all: match goal with
         | H : through_index_ ?run ?w = _ |- _ =>
             destruct (through_index_grown run w) as [p Hp]; rewrite H in Hp
         end.
    all: simpl in Hp; subst; by exists p, [].
  - intros [= H]. unfold knnQuery in H. repeat case_match; simplify_eq; done.
  - intros H. unfold knnQueryBatch in H. repeat case_match; simplify_eq; done.
  - intros [= H]. unfold getDataPoint in H. repeat case_match; simplify_eq; done.
  - intros [= H]. unfold getDataPointQty in H. repeat case_match; simplify_eq; done.
Qed.

Lemma session_grown (calls : list call) (w w' : IndexWrapper) (rs : list (py_result PyObject)) :
  session calls w = Some (w', rs) ->
  length rs = length calls /\ exists p objs, w' = grown w p objs.
Proof.
  revert w rs. induction calls as [|c calls IH]; intros w rs; simpl.
  - intros [= <- <-]. split; [done|]. exists (index_ w), []. apply grown_same.
  - destruct (nmslibMethods c w) as [[w1 r]|] eqn:Hc; [|done].
    destruct (session calls w1) as [[w2 rs']|] eqn:Hs; [|done].
    intros [= <- <-]. destruct (IH _ _ Hs) as (Hlen & p & objs & ->).
    destruct (call_grown _ _ _ _ Hc) as (p1 & objs1 & ->). simpl.
    split; [by rewrite Hlen|]. exists p, (objs1 ++ objs). by rewrite <- app_assoc.
Qed.

(** X10.  Whatever calls a program makes on a handle, and however they end,
    the distance type, the data type, the space and the names of the space
    and of the method stay as they were; the points are only appended to:
    every position valid at some time holds the same point ever after, and
    [getDataPoint] answers the same there. *)
Theorem session_keeps_points (calls : list call) (w0 w : IndexWrapper)
    (rs : list (py_result PyObject)) :
  session calls w0 = Some (w, rs) ->
  same_frame w0 w
  /\ data_ w0 `prefix_of` data_ w
  /\ GetDataPointQty w0 <= GetDataPointQty w
  /\ forall p, 0 <= p < GetDataPointQty w0 ->
       GetDataPoint p w = GetDataPoint p w0
       /\ (getDataPoint p w).2 = (getDataPoint p w0).2.
Proof.
  intros Hs. destruct (session_grown _ _ _ _ Hs) as (_ & ptr & objs & ->).
  split_and!.
  - done.
  - by exists objs.
  - unfold GetDataPointQty. simpl. rewrite length_app. lia.
  - intros p Hp. unfold GetDataPointQty in Hp.
    assert (GetDataPoint p (grown w0 ptr objs) = GetDataPoint p w0) as Hget.
    { rewrite !GetDataPoint_lookup by lia. simpl. apply lookup_app_l. lia. }
    split; [done|].
    unfold getDataPoint, _getDataPoint, IsDistFloat, GetDataType. simpl.
    case_bool_decide; [|done]. simpl.
    rewrite Hget.
    rewrite !decide_False; [done| |]; unfold GetDataPointQty; simpl;
      rewrite ?length_app; lia.
Qed.

End Frame.

(** ** The handles of [init] *)

Section Handles.
Context {dist_t : Type} {L : Library dist_t} {M : IndexMethods dist_t}.

Lemma _addDataPointBatch_loop_result (ids data : PyArrayObject) (num_dim : Z) (n i : nat)
    (w : IndexWrapper) :
  (_addDataPointBatch_loop ids data num_dim i n w).2 = Return Py_None
  \/ (_addDataPointBatch_loop ids data num_dim i n w).2 = Undefined.
Proof.
  revert i w. induction n as [|n IH]; intros i w; simpl; [by left|].
  repeat case_match; try (by right). apply IH.
Qed.

Lemma replace_index_result (run : Index -> Index * bool) (w : IndexWrapper) (msg : string) :
  (replace_index run w).2 <> PyErr msg.
Proof. unfold replace_index. repeat case_match; simplify_eq; done. Qed.

Lemma through_index_result (method : Index -> Index * bool) (w : IndexWrapper) (msg : string) :
  (through_index_ method w).2 <> PyErr msg.
Proof. unfold through_index_. repeat case_match; simplify_eq; done. Qed.

Lemma KnnQueryBatch_result (s : schedule) (num_threads k : Z) (qs : list Object)
    (w : IndexWrapper) (msg : string) :
  KnnQueryBatch s num_threads k qs w <> Some (PyErr msg).
Proof. unfold KnnQueryBatch. repeat case_match; done. Qed.

(** On a handle of the [float] instantiation no call answers that the
    generic bindings should be used. *)
Lemma call_not_generic (c : call) (w w' : IndexWrapper) (r : py_result PyObject) :
  is_handle w -> nmslibMethods c w = Some (w', r) -> r <> PyErr generic_bindings.
Proof.
  intros Hh. apply is_handle_IsDistFloat in Hh as Hf. unfold generic_bindings.
  destruct c; simpl.
  - unfold addDataPoint, _addDataPoint. rewrite Hf.
    intros [= H]. repeat case_match; simplify_eq; done.
  - unfold addDataPointBatch, _addDataPointBatch. rewrite Hf.
    intros [= H]. repeat case_match; simplify_eq; try done.
    match goal with
    | H : _addDataPointBatch_loop ?a ?b ?c ?d ?e ?f = _ |- _ =>
        destruct (_addDataPointBatch_loop_result a b c e d f) as [Hr|Hr];
        rewrite H in Hr; simpl in Hr; by subst
    end.
  - unfold createIndex, _createIndex, CreateIndex. rewrite Hf.
    intros [= H]. repeat case_match; simplify_eq; try done.
    match goal with
    | H : replace_index ?run ?w = (_, PyErr ?msg) |- _ =>
        pose proof (replace_index_result run w msg) as Hr; rewrite H in Hr; by destruct Hr
    end.
  - unfold saveIndex, _saveIndex, SaveIndex. rewrite Hf.
    intros [= H]. repeat case_match; simplify_eq; try done.
    match goal with
    | H : through_index_ ?run ?w = (_, PyErr ?msg) |- _ =>
        pose proof (through_index_result run w msg) as Hr; rewrite H in Hr; by destruct Hr
    end.
  - unfold loadIndex, _loadIndex, LoadIndex. rewrite Hf.
    intros [= H]. repeat case_match; simplify_eq; try done.
    match goal with
    | H : replace_index ?run ?w = (_, PyErr ?msg) |- _ =>
        pose proof (replace_index_result run w msg) as Hr; rewrite H in Hr; by destruct Hr
    end.
  - unfold setQueryTimeParams, _setQueryTimeParams, SetQueryTimeParams. rewrite Hf.
    intros [= H]. repeat case_match; simplify_eq; try done.
    match goal with
    | H : through_index_ ?run ?w = (_, PyErr ?msg) |- _ =>
        pose proof (through_index_result run w msg) as Hr; rewrite H in Hr; by destruct Hr
    end.
  - unfold knnQuery, _knnQuery. rewrite Hf.
    intros [= H]. repeat case_match; simplify_eq; try done.
    all: unfold NMSLIB_DATA_READERS in *; case_decide; simplify_eq.
    + unfold KnnQuery. repeat case_match; done.
    + match goal with H : readVector ?d _ _ = PyErr _ |- _ =>
        destruct (well_formed_vector d) eqn:Hwf;
        [destruct (well_formed_readVector d 0 (GetDistType w') Hwf) as [arr Harr]; congruence
        |rewrite readVector_malformed in H by done; destruct d; by simplify_eq]
      end.
  - unfold knnQueryBatch, _knnQueryBatch. rewrite Hf.
    intros H. repeat case_match; simplify_eq; try done.
    match goal with
    | H : KnnQueryBatch ?s ?n ?k ?l ?w = Some (PyErr ?msg) |- _ =>
        by destruct (KnnQueryBatch_result s n k l w msg)
    end.
  - unfold getDataPoint, _getDataPoint. rewrite Hf.
    intros [= H]. repeat case_match; simplify_eq; try done.
    unfold NMSLIB_DATA_WRITERS in *. case_decide; simplify_eq.
    by rewrite writeVector_spec.
  - unfold getDataPointQty, _getDataPointQty. rewrite Hf. by intros [= <- <-].
Qed.

Lemma session_not_generic (calls : list call) (w0 w : IndexWrapper)
    (rs : list (py_result PyObject)) :
  is_handle w0 -> session calls w0 = Some (w, rs) ->
  Forall (fun r => r <> PyErr generic_bindings) rs.
Proof.
  revert w0 rs. induction calls as [|c calls IH]; intros w0 rs Hh; simpl.
  - intros [= <- <-]. constructor.
  - destruct (nmslibMethods c w0) as [[w1 r]|] eqn:Hc; [|done].
    destruct (session calls w1) as [[w2 rs']|] eqn:Hs; [|done].
    intros [= <- <-]. constructor.
    + by eapply call_not_generic.
    + apply (IH w1); [|done].
      destruct (call_grown _ _ _ _ Hc) as (p & objs & ->). done.
Qed.

(** X11.  On a handle that [init] returned, whatever calls a program makes
    and however they end: the handle stays one of the [float]
    instantiation, with the data type, the space name and the method name
    given to [init], and no call answers "This version is optimized for
    vectors. Use generic bindings for dist type - int".  That answer of the
    ten functions is for handles [init] does not give out. *)
Theorem init_handle_never_generic (space_type : string) (space_param_list : list PyObject)
    (method_name : string) (data_type dist_type : Z) (calls : list call)
    (w0 w : IndexWrapper) (rs : list (py_result PyObject)) :
  init space_type space_param_list method_name data_type dist_type = Return w0 ->
  session calls w0 = Some (w, rs) ->
  is_handle w
  /\ data_type_ w = data_type /\ space_type_ w = space_type /\ method_name_ w = method_name
  /\ length rs = length calls
  /\ Forall (fun r => r <> PyErr generic_bindings) rs.
Proof.
  intros Hinit Hs. apply init_Return in Hinit as [sp ->].
  destruct (session_grown _ _ _ _ Hs) as (Hlen & p & objs & ->).
  split_and!; try done.
  eapply session_not_generic; [|exact Hs]. done.
Qed.

End Handles.

(** ** Errors and failures *)

Section Failures.
Context {dist_t : Type} {L : Library dist_t} {M : IndexMethods dist_t}.

(** X12.  A call that reports a [ValueError] has changed nothing: whatever
    the function and its arguments, when the answer is an error message the
    wrapper is the one the call was given.  (A wrapper is changed only by a
    call that returns an object, throws or is undefined.) *)
Theorem value_error_changes_nothing (c : call) (w w' : IndexWrapper) (msg : string) :
  nmslibMethods c w = Some (w', PyErr msg) -> w' = w.
Proof.
  destruct c; simpl.
  - unfold addDataPoint, _addDataPoint.
    intros [= H]. repeat case_match; simplify_eq; done.
  - unfold addDataPointBatch, _addDataPointBatch.
    intros [= H]. repeat case_match; simplify_eq; try done.
    match goal with
    | H : _addDataPointBatch_loop ?a ?b ?c ?d ?e ?f = _ |- _ =>
        destruct (_addDataPointBatch_loop_result a b c e d f) as [Hr|Hr];
        rewrite H in Hr; simpl in Hr; by subst
    end.
  - unfold createIndex, _createIndex, CreateIndex.
    intros [= H]. repeat case_match; simplify_eq; try done.
    match goal with
    | H : replace_index ?run ?w = (_, PyErr ?msg) |- _ =>
        pose proof (replace_index_result run w msg) as Hr; rewrite H in Hr; by destruct Hr
    end.
  - unfold saveIndex, _saveIndex, SaveIndex.
    intros [= H]. repeat case_match; simplify_eq; try done.
    match goal with
    | H : through_index_ ?run ?w = (_, PyErr ?msg) |- _ =>
        pose proof (through_index_result run w msg) as Hr; rewrite H in Hr; by destruct Hr
    end.
  - unfold loadIndex, _loadIndex, LoadIndex.
    intros [= H]. repeat case_match; simplify_eq; try done.
    match goal with
    | H : replace_index ?run ?w = (_, PyErr ?msg) |- _ =>
        pose proof (replace_index_result run w msg) as Hr; rewrite H in Hr; by destruct Hr
    end.
  - unfold setQueryTimeParams, _setQueryTimeParams, SetQueryTimeParams.
    intros [= H]. repeat case_match; simplify_eq; try done.
    match goal with
    | H : through_index_ ?run ?w = (_, PyErr ?msg) |- _ =>
        pose proof (through_index_result run w msg) as Hr; rewrite H in Hr; by destruct Hr
    end.
  - unfold knnQuery. intros [= H]. repeat case_match; simplify_eq; done.
  - unfold knnQueryBatch. intros H. repeat case_match; simplify_eq; done.
  - unfold getDataPoint. intros [= H]. repeat case_match; simplify_eq; done.
  - unfold getDataPointQty. intros [= H]. repeat case_match; simplify_eq; done.
Qed.

Lemma readList_strings (params : list string) :
  readList (PyString <$> params) ([] : list string) PyString_AsString (fun x => x)
  = Return params.
Proof.
  rewrite readList_mapM.
  assert (mapM PyString_AsString (PyString <$> params) = Some params) as ->.
  { apply mapM_Some. induction params as [|p ps IH]; simpl; by constructor. }
  simpl. by rewrite list_fmap_id.
Qed.

(** A script is a session cut after its first call that does not return. *)
Lemma script_is_session (calls : list call) (w w' : IndexWrapper)
    (rs : list (py_result PyObject)) :
  script calls w = Some (w', rs) -> session (take (length rs) calls) w = Some (w', rs).
Proof.
  revert w rs. induction calls as [|c calls IH]; intros w rs; simpl.
  - by intros [= <- <-].
  - destruct (nmslibMethods c w) as [[w1 r]|] eqn:Hc; [|done].
    destruct r as [a|msg| |].
    + destruct (script calls w1) as [[w2 rs']|] eqn:Hs; [|done].
      intros [= <- <-]. simpl. by rewrite Hc, (IH _ _ Hs).
    + destruct (script calls w1) as [[w2 rs']|] eqn:Hs; [|done].
      intros [= <- <-]. simpl. by rewrite Hc, (IH _ _ Hs).
    + intros [= <- <-]. simpl. rewrite Hc. by destruct calls.
    + intros [= <- <-]. simpl. rewrite Hc. by destruct calls.
Qed.




Lemma replace_index_state (run : Index -> Index * bool) (w : IndexWrapper) :
  (replace_index run w).2 <> Thrown ->
  (index_ w <> Dangling -> has_index (replace_index run w).1)
  /\ (index_ w = Dangling -> (replace_index run w).1 = w).
Proof.
  unfold replace_index, delete_index_, has_index.
  destruct (index_ w) eqn:Hi; simpl.
  - destruct (CreateMethod _ _ _ _ _) as [fresh|]; [destruct (run fresh)|]; simpl;
      intros Hr; (split; [|done]); intros _; [by eexists|done].
  - destruct (CreateMethod _ _ _ _ _) as [fresh|]; [destruct (run fresh)|]; simpl;
      intros Hr; (split; [|done]); intros _; [by eexists|done].
  - intros _. split; done.
Qed.

Lemma through_index_state (method : Index -> Index * bool) (w : IndexWrapper) :
  (index_ w <> Dangling -> index_ (through_index_ method w).1 <> Dangling)
  /\ (has_index w -> has_index (through_index_ method w).1).
Proof.
  unfold through_index_, has_index. destruct (index_ w) eqn:Hi; simpl.
  - rewrite Hi. split; [done|]. by intros [i ?].
  - destruct (method i). simpl. split; [done|]. intros _. by eexists.
  - rewrite Hi. split; [done|]. by intros [i ?].
Qed.

(** What a call that does not throw leaves of the index reference. *)
Lemma call_index_state (c : call) (w w' : IndexWrapper) (r : py_result PyObject) :
  nmslibMethods c w = Some (w', r) -> r <> Thrown ->
  (index_ w <> Dangling -> index_ w' <> Dangling) /\ (has_index w -> has_index w').
Proof.
  assert (forall p : IndexWrapper * py_result unit,
            (let '(w1, r1) := p in
             match r1 with
             | Return _ => (w1, Return Py_None)
             | PyErr msg => (w1, PyErr msg)
             | Thrown => (w1, Thrown)
             | Undefined => (w1, Undefined)
             end) = (w', r) -> p.1 = w' /\ (r <> Thrown -> p.2 <> Thrown)) as Hpair.
  { intros [w1 [| | |]]; simpl; intros [= <- <-]; done. }
  assert (forall run, (replace_index run w).1 = w' ->
            (replace_index run w).2 <> Thrown ->
            (index_ w <> Dangling -> index_ w' <> Dangling) /\ (has_index w -> has_index w'))
    as Hreplace.
  { intros run <- Hr. destruct (replace_index_state run w Hr) as [Hnew Hsame].
    split.
    - intros Hd. destruct (Hnew Hd) as [i Hi]. by rewrite Hi.
    - intros [i Hi]. apply Hnew. by rewrite Hi. }
  destruct c; simpl.
  - unfold addDataPoint, _addDataPoint.
    intros [= H] _. repeat case_match; simplify_eq; done.
  - unfold addDataPointBatch, _addDataPointBatch.
    intros [= H] _. repeat case_match; simplify_eq; try done.
    match goal with
    | H : _addDataPointBatch_loop ?a ?b ?c ?d ?e ?f = _ |- _ =>
        destruct (_addDataPointBatch_loop_appends a b c e d f) as [objs Ho];
        rewrite H in Ho
    end.
    simpl in Ho. by subst.
  - unfold createIndex, _createIndex, CreateIndex.
    intros [= H] Hr. destruct (readList _ _ _ _); try (by simplify_eq).
    destruct (IsDistFloat w); [|by simplify_eq].
    apply Hpair in H as [H1 H2]. by eapply Hreplace; [exact H1|apply H2].
  - unfold saveIndex, _saveIndex, SaveIndex.
    intros [= H] Hr. destruct (IsDistFloat w); [|by simplify_eq].
    apply Hpair in H as [<- _]. apply through_index_state.
  - unfold loadIndex, _loadIndex, LoadIndex.
    intros [= H] Hr. destruct (IsDistFloat w); [|by simplify_eq].
    apply Hpair in H as [H1 H2]. by eapply Hreplace; [exact H1|apply H2].
  - unfold setQueryTimeParams, _setQueryTimeParams, SetQueryTimeParams.
    intros [= H] Hr. destruct (readList _ _ _ _); try (by simplify_eq).
    destruct (IsDistFloat w); [|by simplify_eq].
    apply Hpair in H as [<- _]. apply through_index_state.
  - unfold knnQuery. intros [= H] _. repeat case_match; simplify_eq; done.
  - unfold knnQueryBatch. intros H _. repeat case_match; simplify_eq; done.
  - unfold getDataPoint. intros [= H] _. repeat case_match; simplify_eq; done.
  - unfold getDataPointQty. intros [= H] _. repeat case_match; simplify_eq; done.
Qed.

(** X14.  The index reference goes stale only when a call throws.  Whatever
    calls a program makes on a handle whose index reference is null or
    points to an index object, as long as no call has thrown the reference
    does not hold the address of a deleted object; and once the handle has
    an index object it has one after every further call, as long as none
    throws.  (On a handle fresh from [init] the reference is null.) *)
Theorem index_stays_while_nothing_throws (calls : list call) (w0 w : IndexWrapper)
    (rs : list (py_result PyObject)) :
  session calls w0 = Some (w, rs) ->
  Forall (fun r => r <> Thrown) rs ->
  (index_ w0 <> Dangling -> index_ w <> Dangling)
  /\ (has_index w0 -> has_index w).
Proof.
  revert w0 rs. induction calls as [|c calls IH]; intros w0 rs; simpl.
  - by intros [= <- <-].
  - destruct (nmslibMethods c w0) as [[w1 r]|] eqn:Hc; [|done].
    destruct (session calls w1) as [[w2 rs']|] eqn:Hs; [|done].
    intros [= <- <-] Hall. apply Forall_cons in Hall as [Hr Hrs].
    destruct (call_index_state _ _ _ _ Hc Hr) as [H1 H2].
    destruct (IH _ _ Hs Hrs) as [H3 H4]. split; auto.
Qed.

End Failures.

(** ** The data type of a handle *)

Section DataType.
Context {dist_t : Type} {L : Library dist_t}.

Lemma _addDataPointBatch_loop_data_type (ids data : PyArrayObject) (num_dim : Z) (n i : nat)
    (dt : Z) (w : IndexWrapper) :
  _addDataPointBatch_loop ids data num_dim i n (with_data_type dt w)
  = (with_data_type dt (_addDataPointBatch_loop ids data num_dim i n w).1,
     (_addDataPointBatch_loop ids data num_dim i n w).2).
Proof.
  revert i w. induction n as [|n IH]; intros i w; simpl; [done|].
  destruct (int_cells ids !! i) as [id_i|]; [|done].
  destruct (read_floats _ _ _) as [buf|]; [|done].
  apply (IH (S i) (AddDataPoint (mkObject id_i (-1) buf) w)).
Qed.

Lemma KnnQueryBatch_data_type (s : schedule) (num_threads k : Z) (qs : list Object)
    (dt : Z) (w : IndexWrapper) :
  KnnQueryBatch s num_threads k qs (with_data_type dt w) = KnnQueryBatch s num_threads k qs w.
Proof. reflexivity. Qed.

(** X15.  The data type given to [init] is looked at by the functions that
    take one point only.  On a handle of another data type than VECTOR,
    [addDataPoint], [knnQuery] with [k >= 1] and [getDataPoint] at a valid
    position answer "unknown data type - n" and change nothing, while
    [addDataPointBatch] and [knnQueryBatch] do on it exactly what they do on
    the handle of data type VECTOR with the same contents: they store and
    search its points. *)
Theorem data_type_gates_single_points_only (w : IndexWrapper) :
  is_handle w ->
  data_type_ w <> kDataVector ->
  let unknown := PyErr ("unknown data type - " +:+ show_Z (data_type_ w)) in
  let v := with_data_type kDataVector w in
  (forall id0 data, addDataPoint id0 data w = (w, unknown))
  /\ (forall k data, 1 <= k -> knnQuery k data w = (w, unknown))
  /\ (forall p, 0 <= p < GetDataPointQty w -> getDataPoint p w = (w, unknown))
  /\ (forall ids data,
        addDataPointBatch ids data w
        = (with_data_type (data_type_ w) (addDataPointBatch ids data v).1,
           (addDataPointBatch ids data v).2))
  /\ (forall s num_threads k data,
        knnQueryBatch s num_threads k data w
        = (fun r => (with_data_type (data_type_ w) r.1, r.2))
            <$> knnQueryBatch s num_threads k data v).
Proof.
  intros Hh Ht unknown v.
  assert (w = with_data_type (data_type_ w) v) as Hw by (by destruct w).
  apply is_handle_IsDistFloat in Hh as HF.
  assert (IsDistFloat v = true) as HFv by done.
  split_and!.
  - intros id0 data. unfold addDataPoint, _addDataPoint. rewrite HF.
    unfold NMSLIB_DATA_READERS, GetDataType. by rewrite decide_False.
  - intros k data Hk. unfold knnQuery. rewrite decide_False by lia. rewrite HF.
    unfold _knnQuery, NMSLIB_DATA_READERS, GetDataType. by rewrite decide_False.
  - intros p Hp. unfold getDataPoint, _getDataPoint. rewrite HF.
    rewrite decide_False by lia.
    unfold NMSLIB_DATA_WRITERS, GetDataType. by rewrite decide_False.
  - intros ids data. unfold addDataPointBatch. rewrite HF, HFv.
    unfold _addDataPointBatch.
    destruct (flags_FORTRAN data); [cbn [fst snd]; by rewrite <- Hw|].
    destruct (negb (bool_decide (type_num ids = NPY_INT32 /\ nd ids = 1)));
      [cbn [fst snd]; by rewrite <- Hw|].
    destruct (negb (bool_decide (type_num data = NPY_FLOAT32 /\ nd data = 2)));
      [cbn [fst snd]; by rewrite <- Hw|].
    cbv zeta. case_decide; [cbn [fst snd]; by rewrite <- Hw|].
    rewrite Hw at 1. apply _addDataPointBatch_loop_data_type.
  - intros s num_threads k data. unfold knnQueryBatch.
    case_decide; [cbn [fst snd fmap option_fmap option_map]; by rewrite <- Hw|]. rewrite HF, HFv.
    unfold _knnQueryBatch.
    destruct (flags_FORTRAN data); [cbn [fst snd fmap option_fmap option_map]; by rewrite <- Hw|].
    destruct (negb (bool_decide (type_num data = NPY_FLOAT32 /\ nd data = 2)));
      [cbn [fst snd fmap option_fmap option_map]; by rewrite <- Hw|].
    cbv zeta. destruct (_knnQueryBatch_objects _ _ _ _ _) as [qs|];
      [|cbn [fst snd fmap option_fmap option_map]; by rewrite <- Hw].
    change (KnnQueryBatch s num_threads k qs v) with (KnnQueryBatch s num_threads k qs w).
    destruct (KnnQueryBatch s num_threads k qs w) as [[res| | |]|];
      cbn [fst snd fmap option_fmap option_map]; try (by rewrite <- Hw); try done.
    destruct (PyArray_FromDims2 _ _); cbn [fst snd fmap option_fmap option_map];
      by rewrite <- Hw.
Qed.

End DataType.

(** ** The threads of a batch *)

Section Scheduler.
Context {dist_t : Type} {L : Library dist_t}.

#[local] Abbreviation worker := (@worker dist_t).
#[local] Abbreviation batch := (@batch dist_t).

(** X16.  The threads of a batch never share a slot.  On a handle with an
    index object, under every schedule and at every instant: the batch has
    not crashed, the vector of results has one slot per query, the slot a
    thread refers to is inside the vector and is no longer in the queue, no
    position is queued twice, and no two threads refer to the same slot.
    So the copying loops of two threads never write the same list. *)
Theorem batch_threads_never_share_a_slot (w : IndexWrapper) (idx : Index)
    (k num_threads : Z) (qs : list Object) (s : schedule) :
  index_ w = Points idx ->
  exists b : batch,
    run k w s (Running (KnnQueryBatch_start num_threads qs)) = Running b
    /\ length (query_res b) = length qs
    /\ NoDup (q b).*1
    /\ (forall t ws i, threads b !! t = Some ws -> owns ws i ->
          (i < length (query_res b))%nat /\ i ∉ (q b).*1)
    /\ forall t t' ws ws' i,
         threads b !! t = Some ws -> threads b !! t' = Some ws' ->
         owns ws i -> owns ws' i -> t = t'.
Proof.
  intros Hidx.
  destruct (run_inv k w idx Hidx qs s _ (inv_start k w idx qs num_threads))
    as (b & Hrun & Hinv & _).
  exists b. split_and!.
  - done.
  - apply (inv_len _ Hinv).
  - apply (inv_nodup _ Hinv).
  - intros t ws i Ht Ho. split; [|by apply (inv_owner_queue _ Hinv t ws)].
    destruct ws as [|j o|j res|]; simpl in Ho; try done; subst j.
    + destruct (inv_popped _ Hinv _ _ _ Ht) as [_ Hres]. by apply lookup_lt_Some in Hres.
    + destruct (inv_draining _ Hinv _ _ _ Ht) as (ids & o & Hres & _).
      by apply lookup_lt_Some in Hres.
  - apply (inv_owner_unique _ Hinv).
Qed.

Lemma KnnQuery_ids_Size (idx : Index) (sp : Space) (k : Z) (o : Object) :
  length (KnnQuery_ids idx sp k o) = Size (Search_Clone idx sp o k).
Proof.
  unfold KnnQuery_ids. by rewrite drain_spec, app_nil_r, length_fmap, length_reverse.
Qed.

Lemma sum_list_fmap_insert {A : Type} (f : A -> nat) (l : list A) (t : nat) (x y : A) :
  l !! t = Some x ->
  (sum_list (f <$> <[t:=y]> l) + f x = sum_list (f <$> l) + f y)%nat.
Proof.
  revert t. induction l as [|z l IH]; intros [|t] H; simplify_eq/=; [lia|].
  specialize (IH _ H). lia.
Qed.

Section Work.
Variable k : Z.
Variable w : IndexWrapper.
Variable idx : Index.
Hypothesis Hidx : index_ w = Points idx.

#[local] Abbreviation sz := (fun o : Object => length (KnnQuery_ids idx (space_ w) k o)).

(** Every step takes one off the steps left. *)
Lemma step_work (t : nat) (b b' : batch) :
  thread_step k w t b = Some (Running b') -> S (batch_work sz b') = batch_work sz b.
Proof.
  unfold thread_step, batch_work.
  destruct (threads b !! t) as [[|i o|i res|]|] eqn:Ht; [| | |done|done].
  - destruct (q b) as [|[i o] rest] eqn:Hq; intros [= <-]; simpl; rewrite ?Hq; simpl.
    + pose proof (sum_list_fmap_insert (thread_weight sz) _ _ _ Exited Ht).
      simpl in *. unfold fmap in *. lia.
    + pose proof (sum_list_fmap_insert (thread_weight sz) _ _ _ (Popped i o) Ht).
      simpl in *. unfold fmap in *. lia.
  - destruct (query_res b !! i); [|done]. rewrite Hidx. intros [= <-]. simpl.
    pose proof (sum_list_fmap_insert (thread_weight sz) _ _ _
                  (Draining i (Search_Clone idx (space_ w) o k)) Ht) as H.
    pose proof (KnnQuery_ids_Size idx (space_ w) k o).
    simpl in *. unfold fmap in *. lia.
  - destruct (query_res b !! i) as [ids|]; [|done].
    destruct (drain_step res ids) as [[res' ids']|] eqn:Hstep; intros [= <-]; simpl.
    + pose proof (sum_list_fmap_insert (thread_weight sz) _ _ _ (Draining i res') Ht) as H.
      apply drain_step_Some in Hstep as [_ Hsz]. simpl in *. unfold fmap in *. lia.
    + pose proof (sum_list_fmap_insert (thread_weight sz) _ _ _ AtLoop Ht) as H.
      assert (Size res = 0%nat) as Hsz.
      { destruct res as [K [|e rest]]; [done|]. by rewrite drain_step_cons in Hstep. }
      simpl in *. unfold fmap in *. lia.
Qed.

Lemma run_work (qs : list Object) (s : schedule) (b b' : batch) :
  slots_inv k w idx qs b -> run k w s (Running b) = Running b' ->
  (moves k w s (Running b) + batch_work sz b' = batch_work sz b)%nat.
Proof.
  revert b. induction s as [|t s IH]; intros b Hinv; [by intros [= ->]|].
  rewrite run_cons. simpl.
  destruct (thread_step k w t b) as [c|] eqn:Hstep; simpl; [|by apply IH].
  destruct (inv_step k w idx Hidx qs _ _ _ Hinv Hstep) as (b1 & -> & Hinv1).
  intros Hrun. specialize (IH _ Hinv1 Hrun).
  pose proof (step_work _ _ _ Hstep). lia.
Qed.

Lemma start_work (num_threads : Z) (qs : list Object) :
  batch_work sz (KnnQueryBatch_start (dist_t := dist_t) num_threads qs)
  = (Z.to_nat num_threads + sum_list ((fun o => sz o + 3)%nat <$> qs))%nat.
Proof.
  unfold batch_work, KnnQueryBatch_start. simpl.
  assert (forall n, sum_list (thread_weight sz <$> replicate n (AtLoop : worker)) = n) as ->.
  { induction n as [|n IH]; [done|]. rewrite replicate_S, fmap_cons. simpl. by rewrite IH. }
  rewrite fmap_imap.
  rewrite (imap_ext _ (const (fun o => (sz o + 3)%nat)) qs) by done.
  rewrite imap_const. lia.
Qed.

Lemma joined_work (b : batch) : joined b = true -> q b = [] -> batch_work sz b = 0%nat.
Proof.
  unfold batch_work. intros Hj ->. simpl.
  assert (forall t ws, threads b !! t = Some ws -> ws = Exited) as Hall
    by (intros t ws; by apply joined_lookup).
  induction (threads b) as [|ws l IH]; [done|].
  rewrite (Hall 0%nat ws eq_refl). simpl. apply IH.
  intros t ws' Ht. by apply (Hall (S t)).
Qed.

Lemma work_joined (b : batch) : batch_work sz b = 0%nat -> joined b = true.
Proof.
  unfold batch_work, joined. intros H.
  assert (sum_list (thread_weight sz <$> threads b) = 0%nat) as H0 by lia. clear H.
  induction (threads b) as [|ws l IH]; [done|]. simpl in *.
  destruct ws; simpl in *; unfold fmap in *; try lia. apply IH. lia.
Qed.

End Work.

(** X17.  No work is lost or done twice, whatever the interleaving.  On a
    handle with an index object, under every schedule the steps the threads
    have taken and the steps the batch has left add up to one for each
    thread (it finds the queue empty and leaves) and, for each query, three
    (it is popped, searched, and its copying loop ends) and one for each
    identifier of its answer.  So no schedule takes more steps than that,
    and with at least one thread the call has returned exactly when that
    many steps were taken. *)
Theorem batch_takes_every_step_once (w : IndexWrapper) (idx : Index) (k num_threads : Z)
    (qs : list Object) (s : schedule) :
  index_ w = Points idx ->
  let start := KnnQueryBatch_start (dist_t := dist_t) num_threads qs in
  let total := (Z.to_nat num_threads
                + sum_list ((fun o => length (KnnQuery_ids idx (space_ w) k o) + 3)%nat
                              <$> qs))%nat in
  exists b : batch,
    run k w s (Running start) = Running b
    /\ (moves k w s (Running start)
        + batch_work (fun o => length (KnnQuery_ids idx (space_ w) k o)) b = total)%nat
    /\ (moves k w s (Running start) <= total)%nat
    /\ (1 <= num_threads ->
        (joined b = true <-> moves k w s (Running start) = total)).
Proof.
  intros Hidx start total.
  pose proof (inv_start k w idx qs num_threads) as Hstart.
  destruct (run_inv k w idx Hidx qs s _ Hstart) as (b & Hrun & Hinv & Hlen).
  pose proof (run_work k w idx Hidx qs s _ _ Hstart Hrun) as Hwork.
  rewrite start_work in Hwork.
  exists b. unfold total. fold start in Hwork.
  split_and!; [done|exact Hwork|lia|]. intros Hn. split.
  - intros Hj. rewrite (joined_work k w idx b Hj) in Hwork; [lia|].
    destruct (threads b) as [|ws l] eqn:Hl.
    + simpl in Hlen. rewrite length_replicate in Hlen. lia.
    + apply (inv_exited _ Hinv 0%nat). rewrite Hl. simpl. f_equal.
      apply (joined_lookup b 0%nat); [done|]. by rewrite Hl.
  - intros Hm. apply (work_joined k w idx). lia.
Qed.

End Scheduler.



(** ** Row by row, or in a batch *)

Section RowByRow.
Context {dist_t : Type} {L : Library dist_t}.

Lemma matrix_objects_lookup (data : PyArrayObject) (p : nat) :
  Z.of_nat p < PyArray_DIM data 0 ->
  matrix_objects data !! p = Some (mkObject 0 (-1) (matrix_row data p)).
Proof.
  intros Hp. unfold matrix_objects. rewrite list_lookup_fmap, lookup_seq_lt by lia. done.
Qed.

(** X19.  Row by row, or in a batch: the same answers.  On a handle of data
    type VECTOR with an index object, for [k >= 1], at least one thread and
    a C-ordered matrix of values of the type [float]: a call of
    [knnQueryBatch] returns under some schedule, and under every schedule
    under which it returns, row [p] of the matrix it returns holds the
    first [k] of the identifiers that [knnQuery] returns for the components
    of row [p] given as a list of Python floats, in the same order,
    followed by zeros up to the width [k]; [knnQuery] returns at most [k]
    of them. *)
Theorem batch_answers_what_single_answers (w : IndexWrapper) (i : Index) (k num_threads : Z)
    (data : PyArrayObject) :
  is_handle w ->
  data_type_ w = kDataVector ->
  index_ w = Points i ->
  1 <= k <= INT_MAX ->
  1 <= num_threads ->
  is_C_float_matrix data = true ->
  Forall (fun x => is_float32 x = true) (float_cells data) ->
  (exists s r, knnQueryBatch s num_threads k data w = Some r)
  /\ forall s r, knnQueryBatch s num_threads k data w = Some r ->
       exists ret, r = (w, Return (PyArray ret))
         /\ forall p : nat, Z.of_nat p < PyArray_DIM data 0 ->
              exists ids,
                knnQuery k (PyList ((fun x => PyFloat (float_to_double x))
                                      <$> matrix_row data p)) w
                = (w, Return (PyList (PyInt <$> ids)))
                /\ int_row ret (Z.to_nat k) p
                   = take (Z.to_nat k) ids ++ replicate (Z.to_nat k - length ids) 0
                /\ (length ids <= Z.to_nat k)%nat.
Proof.
  intros Hh Ht Hi Hk Hn Ha Hval.
  destruct (KnnQueryBatch_Points w i k num_threads (matrix_objects data) Hi Hn)
    as [Hall Hsome].
  split.
  - destruct (Hsome []) as [s Hs]. exists s.
    rewrite knnQueryBatch_handle by (done || lia).
    erewrite _knnQueryBatch_matrix by done. by eexists.
  - intros s r. rewrite knnQueryBatch_handle by (done || lia).
    destruct (KnnQueryBatch s num_threads k (matrix_objects data) w) as [r'|] eqn:Hr'.
    2:{ unfold _knnQueryBatch.
        destruct (is_C_float_matrix_inv data Ha) as (n & d & cells & Heq & _).
        assert (flags_FORTRAN data = false /\ type_num data = NPY_FLOAT32 /\ nd data = 2)
          as (-> & Hty & Hnd) by (by subst data).
        rewrite bool_decide_eq_true_2 by done. simpl.
        by rewrite objects_of_matrix, Hr' by done. }
    erewrite _knnQueryBatch_matrix by done. rewrite (Hall _ _ Hr'). simpl.
    intros [= <-]. eexists. split; [done|]. intros p Hp.
    set (query := mkObject 0 (-1) (matrix_row data p)).
    exists (KnnQuery_ids i (space_ w) k query).
    assert (length (KnnQuery_ids i (space_ w) k query) <= Z.to_nat k)%nat as Hlen
      by (rewrite KnnQuery_ids_length, to_unsigned_int by lia; lia).
    split_and!.
    + unfold knnQuery. rewrite decide_False by lia.
      rewrite is_handle_IsDistFloat by done.
      unfold _knnQuery, NMSLIB_DATA_READERS, GetDataType. rewrite decide_True by done.
      rewrite readVector_numbers by apply widened_numbers.
      rewrite narrowed_widened by (by apply matrix_row_float32).
      by rewrite (KnnQuery_Points w i).
    + rewrite (int_row_fill _ _ _ p (KnnQuery_ids i (space_ w) k query)); [done|].
      by rewrite list_lookup_fmap, matrix_objects_lookup.
    + done.
Qed.

End RowByRow.

(** ** Parameter lists and fresh handles *)

Lemma strings_mapM (params : list PyObject) (ps : list string) :
  mapM PyString_AsString params = Some ps <-> params = PyString <$> ps.
Proof.
  rewrite mapM_Some. split.
  - induction 1 as [|item p l l' Hitem Hrest IH]; [done|].
    destruct item; by simplify_eq/=.
  - intros ->. induction ps as [|p ps IH]; simpl; by constructor.
Qed.

Section Parameters.
Context {dist_t : Type} {L : Library dist_t} {M : IndexMethods dist_t}.

(** X20.  [init] on every argument tuple the parser accepts.  It checks the
    list of space parameters first and the distance type second, and looks
    neither at the data type nor at the method name: a handle is returned
    exactly when every parameter is a string, the distance type is FLOAT
    and the space factory returns a space, and it is a wrapper with no
    index and no point.  The distance type INT is answered with the advice
    to use the generic bindings, any other with "unknown dist type"; an
    exception of the space factory is not caught. *)
Theorem init_outcomes (space_type : string) (space_param_list : list PyObject)
    (method_name : string) (data_type dist_type : Z) :
  match init space_type space_param_list method_name data_type dist_type with
  | Return w =>
      dist_type = kDistFloat
      /\ exists ps sp, space_param_list = PyString <$> ps
           /\ CreateSpace space_type ps = Some sp
           /\ w = mkWrapper kDistFloat data_type space_type method_name nullptr sp []
  | PyErr msg =>
      (Exists (fun item => PyString_AsString item = None) space_param_list
       /\ msg = "failed to read item from list")
      \/ ((exists ps, space_param_list = PyString <$> ps) /\ dist_type = kDistInt
          /\ msg = "This version is optimized for vectors. Use generic bindings for dist type - 5")
      \/ ((exists ps, space_param_list = PyString <$> ps)
          /\ dist_type <> kDistFloat /\ dist_type <> kDistInt
          /\ msg = "unknown dist type - " +:+ show_Z dist_type)
  | Thrown =>
      dist_type = kDistFloat
      /\ exists ps, space_param_list = PyString <$> ps /\ CreateSpace space_type ps = None
  | Undefined => False
  end.
Proof.
  unfold init. rewrite readList_mapM.
  destruct (mapM PyString_AsString space_param_list) as [ps|] eqn:Hps.
  - apply strings_mapM in Hps. simpl. rewrite list_fmap_id.
    case_decide as Hf.
    + unfold _init, IndexWrapper_new.
      destruct (CreateSpace space_type ps) as [sp|] eqn:Hsp.
      * split; [done|]. exists ps, sp. by subst.
      * split; [done|]. by exists ps.
    + case_decide as Hi.
      * right. left. split_and!; [by exists ps|done|by subst].
      * right. right. split_and!; [by exists ps|done..].
  - left. split; [|done]. by apply mapM_Exists.
Qed.

(** X21.  The two functions that take a list of parameters for the index
    convert the list before they look at the handle: when an item of the
    list is not a string, [createIndex] and [setQueryTimeParams] answer
    "Cannot convert an argument to a list" on every wrapper, whatever its
    distance type and its index reference, and leave it as it was; their
    error replaces the one their reader set, which is the one [init]
    reports for its own list. *)
Theorem parameter_lists_are_read_first (params : list PyObject) (w : IndexWrapper) :
  Exists (fun item => PyString_AsString item = None) params ->
  createIndex params w = (w, PyErr "Cannot convert an argument to a list")
  /\ setQueryTimeParams params w = (w, PyErr "Cannot convert an argument to a list")
  /\ forall space_type method_name data_type dist_type,
       init space_type params method_name data_type dist_type
       = PyErr "failed to read item from list".
Proof.
  intros H. apply mapM_Exists in H.
  unfold createIndex, setQueryTimeParams, init. rewrite !readList_mapM, H. done.
Qed.

(** X22.  A handle fresh from [init] has no point and no index.
    [getDataPointQty] returns 0 and [getDataPoint] refuses every position;
    [saveIndex] and [setQueryTimeParams] with a list of strings call a
    method through the null index reference, which nothing checks: they
    report no error, the call is undefined.  [freeIndex] returns. *)
Theorem fresh_handle_has_no_index (space_type : string) (space_param_list : list PyObject)
    (method_name : string) (data_type dist_type : Z) (w0 : IndexWrapper) :
  init space_type space_param_list method_name data_type dist_type = Return w0 ->
  getDataPointQty w0 = (w0, Return (PyInt 0))
  /\ (forall p, getDataPoint p w0
                = (w0, PyErr "The data point index should be >= 0 & < 0"))
  /\ (forall file_name, saveIndex file_name w0 = (w0, Undefined))
  /\ (forall params, setQueryTimeParams (PyString <$> params) w0 = (w0, Undefined))
  /\ freeIndex w0 = Return Py_None.
Proof.
  intros Hinit. apply init_Return in Hinit as [sp ->]. split_and!.
  - done.
  - intros p. unfold getDataPoint, _getDataPoint, GetDataPointQty. simpl.
    rewrite decide_True by lia. done.
  - done.
  - intros params. unfold setQueryTimeParams. by rewrite readList_strings.
  - done.
Qed.


End Parameters.

(** * Runs on the concrete library *)

Example init_vector_handle :
  init (L := Fixture.seq_search) "l1" [] "seq_search" kDataVector kDistFloat
  = Return (Fixture.stored kDataVector []).
Proof. reflexivity. Qed.

Example init_string_handle :
  init (L := Fixture.seq_search) "l1" [] "seq_search" kDataString kDistFloat
  = Return (Fixture.stored kDataString []).
Proof. reflexivity. Qed.

Example init_int_distance :
  init (L := Fixture.seq_search) "l1" [] "seq_search" kDataVector kDistInt
  = PyErr "This version is optimized for vectors. Use generic bindings for dist type - 5".
Proof. reflexivity. Qed.

Example build_three_points :
  createIndex [] (Fixture.stored kDataVector three_points)
  = (Fixture.indexed true three_points, Return Py_None).
Proof. reflexivity. Qed.

Example knn_query_scenario :
  knnQuery 2 (PyList [PyInt 0; PyInt 0]) (Fixture.indexed true three_points)
  = (Fixture.indexed true three_points, Return (PyList [PyInt 10; PyInt 11])).
Proof. reflexivity. Qed.

(** Floats none of which is a NaN are comparable. *)
Lemma floats_comparable (l : list (QueueElement float32)) :
  Forall (fun e => e.1 <> S754_nan) l -> comparable (L := Fixture.seq_search) l.
Proof.
  intros Hl x y z Hx Hy Hz. rewrite Forall_forall in Hl.
  apply SFltb_not_lt_trans; by apply Hl.
Qed.

Lemma knn_query_nearest_first_witness :
  exists entries : list (QueueElement float32),
    KnnQuery 2 origin (Fixture.indexed true three_points)
    = Return (PyList ((fun e => PyInt (id e.2)) <$> entries))
    /\ nearest_first (L := Fixture.seq_search) entries
    /\ length entries = 2%nat.
Proof.
  destruct (knn_query_nearest_first (L := Fixture.seq_search)
              (Fixture.indexed true three_points)
              (Fixture.mkSeq true three_points) 2 origin
              SFltb_asym eq_refl)
    as (entries & Hret & _ & Hasc & _ & _ & Hlen).
  - unfold INT_MAX. lia.
  - apply floats_comparable. vm_compute. repeat constructor; discriminate.
  - exists entries. split; [exact Hret|]. split; [exact Hasc|]. exact Hlen.
Defined.

(** C2, as stated, fails: with two stored points at the same distance of
    the query that carry the same identifier, the answer for [k = 2] repeats
    the identifier, and no candidate is strictly nearer than another. *)
Lemma knn_query_tie_and_repeat :
  KnnQuery 2 origin (Fixture.indexed true twin_points)
  = Return (PyList [PyInt 7; PyInt 7])
  /\ ~ NoDup [7; 7]
  /\ Forall (fun e => e.1 = float32_of_Z 1)
       (Index_Search (Library := Fixture.seq_search)
          (Fixture.mkSeq true twin_points) tt origin 2)
  /\ SFltb (float32_of_Z 1) (float32_of_Z 1) = false.
Proof.
  split; [reflexivity|]. split.
  - intros H. apply NoDup_cons in H as [H _]. apply H. by left.
  - split; [|reflexivity]. vm_compute. repeat constructor.
Qed.

Lemma knn_query_rejects_small_k_witness :
  0 < 1
  /\ knnQuery 0 (PyList [PyInt 0; PyInt 0]) (Fixture.indexed true three_points)
     = (Fixture.indexed true three_points, PyErr "k (0) should be >=1")
  /\ knnQueryBatch [] 4 0 vectors_123_456 (Fixture.indexed true three_points)
     = Some (Fixture.indexed true three_points, PyErr "k (0) should be >=1").
Proof.
  split; [lia|].
  apply (knn_query_rejects_small_k (L := Fixture.seq_search)
           (Fixture.indexed true three_points) 0 (PyList [PyInt 0; PyInt 0])
           [] 4 vectors_123_456).
  lia.
Defined.

Example get_point_in_range :
  getDataPoint 1 (Fixture.stored kDataVector three_points)
  = (Fixture.stored kDataVector three_points,
     Return (PyList [PyFloat (double_of_Z 1); PyFloat (double_of_Z 0)])).
Proof. reflexivity. Qed.

Lemma get_point_vector_handle_witness :
  (5 < 0 \/ 5 >= 3 ->
   getDataPoint 5 (Fixture.stored kDataVector three_points)
   = (Fixture.stored kDataVector three_points,
      PyErr "The data point index should be >= 0 & < 3"))
  /\ (0 <= 5 < 3 ->
      exists obj, three_points !! Z.to_nat 5 = Some obj
        /\ getDataPoint 5 (Fixture.stored kDataVector three_points)
           = (Fixture.stored kDataVector three_points,
              Return (PyList ((fun x => PyFloat (float_to_double x)) <$> components obj)))).
Proof.
  apply (get_point_vector_handle (L := Fixture.seq_search)
           (Fixture.stored kDataVector three_points) 5); reflexivity.
Defined.

(** C7, as stated, fails: a handle created with the data type STRING takes
    points from [addDataPointBatch], and [getDataPoint] then refuses the
    valid position 0 because no writer is registered for its data type. *)
Lemma get_point_string_handle :
  init (L := Fixture.seq_search) "l1" [] "seq_search" kDataString kDistFloat
  = Return (Fixture.stored kDataString [])
  /\ addDataPointBatch ids_1_2 vectors_123_456 (Fixture.stored kDataString [])
     = (Fixture.stored kDataString [Fixture.point 1 [1; 2; 3]; Fixture.point 2 [4; 5; 6]],
        Return Py_None)
  /\ getDataPointQty
       (Fixture.stored kDataString [Fixture.point 1 [1; 2; 3]; Fixture.point 2 [4; 5; 6]])
     = (Fixture.stored kDataString [Fixture.point 1 [1; 2; 3]; Fixture.point 2 [4; 5; 6]],
        Return (PyInt 2))
  /\ getDataPoint 0
       (Fixture.stored kDataString [Fixture.point 1 [1; 2; 3]; Fixture.point 2 [4; 5; 6]])
     = (Fixture.stored kDataString [Fixture.point 1 [1; 2; 3]; Fixture.point 2 [4; 5; 6]],
        PyErr "unknown data type - 2").
Proof. repeat split. Qed.



Lemma add_points_batch_round_trip_witness :
  exists w1,
    addDataPointBatch ids_1_2 vectors_123_456 (Fixture.stored kDataVector []) = (w1, Return Py_None)
    /\ getDataPointQty w1 = (w1, Return (PyInt 2))
    /\ getDataPoint 0 w1
       = (w1, Return (PyList [PyFloat (double_of_Z 1); PyFloat (double_of_Z 2);
                              PyFloat (double_of_Z 3)]))
    /\ getDataPoint 1 w1
       = (w1, Return (PyList [PyFloat (double_of_Z 4); PyFloat (double_of_Z 5);
                              PyFloat (double_of_Z 6)])).
Proof.
  apply (add_points_batch_round_trip (L := Fixture.seq_search)
           "l1" [] "seq_search" (Fixture.stored kDataVector [])).
  reflexivity.
Defined.

Example batch_one_thread :
  KnnQueryBatch (replicate 11 0%nat) 1 2 two_queries (Fixture.indexed true three_points)
  = Some (Return [[10; 11]; [12; 11]]).
Proof. reflexivity. Qed.

Example batch_two_threads_alternating :
  KnnQueryBatch [0; 1; 0; 1; 0; 1; 0; 1; 0; 1; 0; 1]%nat 2 2 two_queries
                (Fixture.indexed true three_points)
  = Some (Return [[10; 11]; [12; 11]]).
Proof. reflexivity. Qed.

Example batch_two_threads_second_first :
  KnnQueryBatch [1; 1; 0; 0; 0; 0; 0; 1; 1; 1; 1; 0]%nat 2 2 two_queries
                (Fixture.indexed true three_points)
  = Some (Return [[10; 11]; [12; 11]]).
Proof. reflexivity. Qed.

Example batch_not_joined :
  KnnQueryBatch [0; 1; 0]%nat 2 2 two_queries (Fixture.indexed true three_points) = None.
Proof. reflexivity. Qed.

Example batch_matrix_padded :
  knnQueryBatch (replicate 13 0%nat) 1 4 two_query_rows (Fixture.indexed true three_points)
  = Some (Fixture.indexed true three_points,
          Return (PyArray (mkArray false [2; 4] [16; 4]
                             (Int32Buf [10; 11; 12; 0; 12; 11; 10; 0])))).
Proof. reflexivity. Qed.

Lemma knn_query_batch_matches_single_witness :
  (forall s, exists s' res,
     KnnQueryBatch (s ++ s') 2 2 two_queries (Fixture.indexed true three_points)
     = Some (Return res))
  /\ forall s r,
       KnnQueryBatch s 2 2 two_queries (Fixture.indexed true three_points) = Some r ->
       exists res, r = Return res
         /\ length res = 2%nat
         /\ forall p query, two_queries !! p = Some query ->
              exists ids, res !! p = Some ids
                /\ KnnQuery 2 query (Fixture.indexed true three_points)
                   = Return (PyList (PyInt <$> ids)).
Proof.
  apply (knn_query_batch_matches_single (L := Fixture.seq_search)
           (Fixture.indexed true three_points) (Fixture.mkSeq true three_points)
           2 2 two_queries).
  - reflexivity.
  - lia.
Defined.

Lemma knn_query_batch_matrix_witness :
  (exists s r,
     knnQueryBatch s 2 4 two_query_rows (Fixture.indexed true three_points) = Some r)
  /\ forall s r,
       knnQueryBatch s 2 4 two_query_rows (Fixture.indexed true three_points) = Some r ->
       exists ret, r = (Fixture.indexed true three_points, Return (PyArray ret))
         /\ dimensions ret = [2; 4]
         /\ forall p query, matrix_objects two_query_rows !! p = Some query ->
              let ids := slot_of (Fixture.indexed true three_points)
                                 (Fixture.mkSeq true three_points) 4 2 query in
              int_row ret 4 p = take 4 ids ++ replicate (4 - length ids) 0
              /\ ((length ids <= 4)%nat ->
                  int_row ret 4 p = ids ++ replicate (4 - length ids) 0).
Proof.
  apply (knn_query_batch_matrix (L := Fixture.seq_search)
           (Fixture.indexed true three_points) (Fixture.mkSeq true three_points)
           4 2 two_query_rows).
  - reflexivity.
  - reflexivity.
  - unfold INT_MAX. lia.
  - reflexivity.
Defined.

Lemma knn_query_batch_without_threads_witness :
  threads (KnnQueryBatch_start (dist_t := float32) 0 (matrix_objects two_query_rows)) = []
  /\ knnQueryBatch [0; 1; 0]%nat 0 3 two_query_rows (Fixture.indexed true three_points)
     = Some (Fixture.indexed true three_points,
             Return (PyArray (mkArray false [2; 3] [12; 4] (Int32Buf [0; 0; 0; 0; 0; 0])))).
Proof.
  apply (knn_query_batch_without_threads (L := Fixture.seq_search)
           (Fixture.indexed true three_points) 3 0 two_query_rows [0; 1; 0]%nat).
  - reflexivity.
  - unfold INT_MAX. lia.
  - reflexivity.
  - lia.
Defined.

Lemma query_without_index_witness :
  knnQuery 2 (PyList [PyInt 0; PyInt 0]) (Fixture.stored kDataVector three_points)
  = (Fixture.stored kDataVector three_points, Undefined)
  /\ knnQueryBatch [0; 0]%nat 1 2 two_query_rows (Fixture.stored kDataVector three_points)
     = Some (Fixture.stored kDataVector three_points, Undefined)
  /\ forall s r,
       knnQueryBatch s 1 2 two_query_rows (Fixture.stored kDataVector three_points) = Some r ->
       r = (Fixture.stored kDataVector three_points, Undefined).
Proof.
  apply (query_without_index (L := Fixture.seq_search)
           (Fixture.stored kDataVector three_points) 2 1
           (PyList [PyInt 0; PyInt 0]) two_query_rows).
  - reflexivity.
  - reflexivity.
  - reflexivity.
  - unfold INT_MAX. lia.
  - reflexivity.
  - reflexivity.
  - unfold PyArray_DIM. simpl. lia.
  - lia.
Defined.

(** C3, as stated, fails: on a handle that holds points but was never
    built or loaded, a query and a batch of queries are not answered by an
    error; they dereference the null index pointer. *)
Lemma query_before_build :
  index_ (Fixture.stored kDataVector three_points) = nullptr
  /\ knnQuery 2 (PyList [PyInt 0; PyInt 0]) (Fixture.stored kDataVector three_points)
     = (Fixture.stored kDataVector three_points, Undefined)
  /\ knnQueryBatch [0; 0]%nat 1 2 two_query_rows (Fixture.stored kDataVector three_points)
     = Some (Fixture.stored kDataVector three_points, Undefined)
  /\ forall msg : string, Undefined <> PyErr (A := PyObject) msg.
Proof. repeat split. discriminate. Qed.

(** ** Runs for the further properties *)

Example read_list_of_numbers :
  readList [PyFloat (double_of_Z 1); PyInt 2] [float32_of_Z 0] PyFloat_AsDouble double_to_float
  = Return [float32_of_Z 0; float32_of_Z 1; float32_of_Z 2].
Proof. reflexivity. Qed.

Example read_list_with_string :
  readList [PyInt 1; PyString "2"; PyInt 3] [] PyFloat_AsDouble double_to_float
  = PyErr "failed to read item from list".
Proof. reflexivity. Qed.


Lemma add_batch_reads_back_witness :
  exists w',
    addDataPointBatch ids_1_2 vectors_123_456 (Fixture.indexed true three_points)
    = (w', Return Py_None)
    /\ index_ w' = index_ (Fixture.indexed true three_points)
    /\ GetDataPointQty w' = 3 + 2
    /\ getDataPoint (3 + 1) w'
       = (w', Return (PyList [PyFloat (double_of_Z 4); PyFloat (double_of_Z 5);
                              PyFloat (double_of_Z 6)])).
Proof.
  destruct (add_batch_reads_back (L := Fixture.seq_search)
              (Fixture.indexed true three_points) ids_1_2 vectors_123_456
              eq_refl eq_refl eq_refl eq_refl)
    as (w' & Hadd & Hidx & Hqty & _ & Hrows).
  exists w'. split; [exact Hadd|]. split; [exact Hidx|]. split; [exact Hqty|].
  exact (proj2 (Hrows 1%nat 2 eq_refl) eq_refl).
Defined.

Lemma add_batch_reads_ids_by_cell_witness :
  exists w',
    addDataPointBatch stepped_ids vectors_123_456 (Fixture.stored kDataVector three_points)
    = (w', Return Py_None)
    /\ PyArray_GETINT1 stepped_ids 1 = Some 2
    /\ GetDataPoint (3 + 1) w' = Some (Fixture.point 99 [4; 5; 6]).
Proof.
  destruct (add_batch_reads_ids_by_cell (L := Fixture.seq_search)
              (Fixture.stored kDataVector three_points) stepped_ids vectors_123_456
              eq_refl eq_refl eq_refl eq_refl eq_refl)
    as (w' & Hadd & Hrows).
  - vm_compute. lia.
  - exists w'. split; [exact Hadd|].
    destruct (Hrows 1%nat 99) as (Hget & _ & Hstep); [reflexivity|reflexivity|].
    split; [exact (Hstep 2 ltac:(lia) eq_refl)|exact Hget].
Defined.

Lemma copied_point_is_exact_witness :
  exists l w',
    getDataPoint 1 (Fixture.indexed true three_points)
    = (Fixture.indexed true three_points, Return (PyList l))
    /\ addDataPoint 21 (PyList l) (Fixture.indexed true three_points) = (w', Return Py_None)
    /\ data_ w' = three_points ++ [Fixture.point 21 [1; 0]]
    /\ getDataPoint 3 w' = (w', Return (PyList l)).
Proof.
  apply (copied_point_is_exact (L := Fixture.seq_search)
           (Fixture.indexed true three_points) 1 21 (Fixture.point 11 [1; 0])).
  - reflexivity.
  - reflexivity.
  - lia.
  - reflexivity.
  - repeat constructor.
Defined.

Lemma batch_adds_what_single_adds_witness :
  exists w',
    addDataPointBatch ids_1_2 vectors_123_456 (Fixture.indexed true three_points)
    = (w', Return Py_None)
    /\ session (M := seq_search_methods)
         [Call_addDataPoint 1
            (PyList [PyFloat (double_of_Z 1); PyFloat (double_of_Z 2); PyFloat (double_of_Z 3)]);
          Call_addDataPoint 2
            (PyList [PyFloat (double_of_Z 4); PyFloat (double_of_Z 5); PyFloat (double_of_Z 6)])]
         (Fixture.indexed true three_points)
       = Some (w', [Return Py_None; Return Py_None]).
Proof.
  apply (batch_adds_what_single_adds (L := Fixture.seq_search) (M := seq_search_methods)
           (Fixture.indexed true three_points) ids_1_2 vectors_123_456).
  - reflexivity.
  - reflexivity.
  - reflexivity.
  - repeat constructor.
  - reflexivity.
  - reflexivity.
Defined.

Lemma batch_answers_what_single_answers_witness :
  (exists s r,
     knnQueryBatch s 2 4 two_query_rows (Fixture.indexed true three_points) = Some r)
  /\ forall s r,
       knnQueryBatch s 2 4 two_query_rows (Fixture.indexed true three_points) = Some r ->
       exists ret, r = (Fixture.indexed true three_points, Return (PyArray ret))
         /\ forall p : nat, Z.of_nat p < 2 ->
              exists ids,
                knnQuery 4 (PyList ((fun x => PyFloat (float_to_double x))
                                      <$> matrix_row two_query_rows p))
                         (Fixture.indexed true three_points)
                = (Fixture.indexed true three_points, Return (PyList (PyInt <$> ids)))
                /\ int_row ret 4 p = take 4 ids ++ replicate (4 - length ids) 0
                /\ (length ids <= 4)%nat.
Proof.
  apply (batch_answers_what_single_answers (L := Fixture.seq_search)
           (Fixture.indexed true three_points) (Fixture.mkSeq true three_points)
           4 2 two_query_rows).
  - reflexivity.
  - reflexivity.
  - reflexivity.
  - unfold INT_MAX. lia.
  - lia.
  - reflexivity.
  - repeat constructor.
Defined.

Example get_point_on_string_handle :
  getDataPoint 7 (Fixture.stored kDataString three_points)
  = (Fixture.stored kDataString three_points,
     PyErr "The data point index should be >= 0 & < 3")
  /\ getDataPoint 2 (Fixture.stored kDataString three_points)
     = (Fixture.stored kDataString three_points, PyErr "unknown data type - 2").
Proof. split; reflexivity. Qed.

Example knn_query_malformed_without_index :
  knnQuery 2 (PyString "0 0") (Fixture.stored kDataVector three_points)
  = (Fixture.stored kDataVector three_points, PyErr "expected DataType.Vector")
  /\ knnQuery 2 (PyList [PyInt 0; Py_None]) (Fixture.stored kDataVector three_points)
     = (Fixture.stored kDataVector three_points, PyErr "failed to read item from list")
  /\ addDataPoint 5 (PyList [PyInt 0; Py_None]) (Fixture.stored kDataVector three_points)
     = (Fixture.stored kDataVector three_points, PyErr "Cannot create a data-point object!").
Proof. split; [reflexivity|]. split; reflexivity. Qed.

Lemma session_keeps_points_witness :
  session (M := seq_search_methods)
    [Call_addDataPoint 13 (PyList [PyInt 2; PyInt 3]); Call_createIndex [];
     Call_getDataPoint 3]
    (Fixture.stored kDataVector three_points)
  = Some (Fixture.indexed true (three_points ++ [Fixture.point 13 [2; 3]]),
          [Return Py_None; Return Py_None;
           Return (PyList [PyFloat (double_of_Z 2); PyFloat (double_of_Z 3)])])
  /\ data_ (Fixture.stored kDataVector three_points)
       `prefix_of` data_ (Fixture.indexed true (three_points ++ [Fixture.point 13 [2; 3]]))
  /\ GetDataPointQty (Fixture.stored kDataVector three_points)
     <= GetDataPointQty (Fixture.indexed true (three_points ++ [Fixture.point 13 [2; 3]])).
Proof.
  split; [reflexivity|].
  destruct (session_keeps_points (L := Fixture.seq_search) (M := seq_search_methods)
              [Call_addDataPoint 13 (PyList [PyInt 2; PyInt 3]); Call_createIndex [];
               Call_getDataPoint 3]
              (Fixture.stored kDataVector three_points)
              (Fixture.indexed true (three_points ++ [Fixture.point 13 [2; 3]]))
              [Return Py_None; Return Py_None;
               Return (PyList [PyFloat (double_of_Z 2); PyFloat (double_of_Z 3)])]
              eq_refl)
    as (_ & Hpre & Hqty & _).
  split; [exact Hpre|exact Hqty].
Defined.

Lemma init_handle_never_generic_witness :
  session (M := seq_search_methods)
    [Call_getDataPoint 0; Call_knnQuery 0 Py_None;
     Call_addDataPointBatch ids_1_2 vectors_123_456; Call_getDataPointQty]
    (Fixture.stored kDataString [])
  = Some (Fixture.stored kDataString [Fixture.point 1 [1; 2; 3]; Fixture.point 2 [4; 5; 6]],
          [PyErr "The data point index should be >= 0 & < 0"; PyErr "k (0) should be >=1";
           Return Py_None; Return (PyInt 2)])
  /\ is_handle
       (Fixture.stored kDataString [Fixture.point 1 [1; 2; 3]; Fixture.point 2 [4; 5; 6]])
  /\ Forall (fun r => r <> PyErr generic_bindings)
       [PyErr "The data point index should be >= 0 & < 0"; PyErr "k (0) should be >=1";
        Return Py_None; Return (PyInt 2)].
Proof.
  split; [reflexivity|].
  destruct (init_handle_never_generic (L := Fixture.seq_search) (M := seq_search_methods)
              "l1" [] "seq_search" kDataString kDistFloat
              [Call_getDataPoint 0; Call_knnQuery 0 Py_None;
               Call_addDataPointBatch ids_1_2 vectors_123_456; Call_getDataPointQty]
              (Fixture.stored kDataString [])
              (Fixture.stored kDataString
                 [Fixture.point 1 [1; 2; 3]; Fixture.point 2 [4; 5; 6]])
              [PyErr "The data point index should be >= 0 & < 0";
               PyErr "k (0) should be >=1"; Return Py_None; Return (PyInt 2)]
              eq_refl eq_refl)
    as (Hh & _ & _ & _ & _ & Hrs).
  split; [exact Hh|exact Hrs].
Defined.

Lemma value_error_changes_nothing_witness :
  nmslibMethods (M := seq_search_methods)
    (Call_addDataPointBatch (Fixture.C_ids [1]) vectors_123_456)
    (Fixture.indexed true three_points)
  = Some (Fixture.indexed true three_points,
          PyErr "ids contains 1 elements whereas data contains 2 elements")
  /\ Fixture.indexed true three_points = Fixture.indexed true three_points.
Proof.
  split; [reflexivity|].
  apply (value_error_changes_nothing (L := Fixture.seq_search) (M := seq_search_methods)
           (Call_addDataPointBatch (Fixture.C_ids [1]) vectors_123_456)
           (Fixture.indexed true three_points) (Fixture.indexed true three_points)
           "ids contains 1 elements whereas data contains 2 elements").
  reflexivity.
Defined.

Lemma index_stays_while_nothing_throws_witness :
  session (M := seq_search_methods)
    [Call_addDataPoint 13 (PyList [PyInt 2; PyInt 3]); Call_createIndex [];
     Call_saveIndex "index.bin"; Call_knnQuery 0 Py_None]
    (Fixture.indexed true three_points)
  = Some (Fixture.indexed true (three_points ++ [Fixture.point 13 [2; 3]]),
          [Return Py_None; Return Py_None; Return Py_None; PyErr "k (0) should be >=1"])
  /\ index_ (Fixture.indexed true (three_points ++ [Fixture.point 13 [2; 3]])) <> Dangling
  /\ has_index (Fixture.indexed true (three_points ++ [Fixture.point 13 [2; 3]])).
Proof.
  split; [reflexivity|].
  destruct (index_stays_while_nothing_throws (L := Fixture.seq_search)
              (M := seq_search_methods)
              [Call_addDataPoint 13 (PyList [PyInt 2; PyInt 3]); Call_createIndex [];
               Call_saveIndex "index.bin"; Call_knnQuery 0 Py_None]
              (Fixture.indexed true three_points)
              (Fixture.indexed true (three_points ++ [Fixture.point 13 [2; 3]]))
              [Return Py_None; Return Py_None; Return Py_None; PyErr "k (0) should be >=1"]
              eq_refl)
    as [Hnot Hhas].
  - repeat constructor; discriminate.
  - split; [apply Hnot; discriminate|]. apply Hhas. eexists. reflexivity.
Defined.

Lemma data_type_gates_single_points_only_witness :
  addDataPoint 4 (PyList [PyInt 0; PyInt 0]) (Fixture.stored kDataString three_points)
  = (Fixture.stored kDataString three_points, PyErr "unknown data type - 2")
  /\ addDataPointBatch ids_1_2 vectors_123_456 (Fixture.stored kDataString three_points)
     = (with_data_type kDataString
          (addDataPointBatch ids_1_2 vectors_123_456
             (Fixture.stored kDataVector three_points)).1,
        Return Py_None).
Proof.
  destruct (data_type_gates_single_points_only (L := Fixture.seq_search)
              (Fixture.stored kDataString three_points) eq_refl)
    as (Hadd & _ & _ & Hbatch & _).
  - discriminate.
  - split; [exact (Hadd 4 (PyList [PyInt 0; PyInt 0]))|].
    exact (Hbatch ids_1_2 vectors_123_456).
Defined.

Lemma batch_threads_never_share_a_slot_witness :
  exists b : batch (dist_t := float32),
    run 2 (Fixture.indexed true three_points) [0; 1; 0; 1; 1]%nat
        (Running (KnnQueryBatch_start 2 two_queries))
    = Running b
    /\ length (query_res b) = 2%nat
    /\ forall t t' ws ws' i,
         threads b !! t = Some ws -> threads b !! t' = Some ws' ->
         owns ws i -> owns ws' i -> t = t'.
Proof.
  destruct (batch_threads_never_share_a_slot (L := Fixture.seq_search)
              (Fixture.indexed true three_points) (Fixture.mkSeq true three_points)
              2 2 two_queries [0; 1; 0; 1; 1]%nat eq_refl)
    as (b & Hrun & Hlen & _ & _ & Huniq).
  exists b. split; [exact Hrun|]. split; [exact Hlen|exact Huniq].
Defined.

(** Two threads and two queries of two identifiers each: twelve steps. *)
Example batch_steps_alternating :
  moves 2 (Fixture.indexed true three_points) [0; 1; 0; 1; 0; 1; 0; 1; 0; 1; 0; 1]%nat
        (Running (KnnQueryBatch_start 2 two_queries))
  = 12%nat
  /\ moves 2 (Fixture.indexed true three_points)
           [0; 1; 0; 1; 0; 1; 0; 1; 0; 1; 0; 1; 1; 0; 5; 0]%nat
           (Running (KnnQueryBatch_start 2 two_queries))
     = 12%nat
  /\ moves 2 (Fixture.indexed true three_points) [0; 1; 0]%nat
           (Running (KnnQueryBatch_start 2 two_queries))
     = 3%nat.
Proof. split; [reflexivity|]. split; reflexivity. Qed.

Lemma batch_takes_every_step_once_witness :
  exists b : batch (dist_t := float32),
    run 2 (Fixture.indexed true three_points) [1; 1; 0; 0; 0; 0; 0; 1; 1; 1; 1; 0]%nat
        (Running (KnnQueryBatch_start 2 two_queries))
    = Running b
    /\ (moves 2 (Fixture.indexed true three_points)
              [1; 1; 0; 0; 0; 0; 0; 1; 1; 1; 1; 0]%nat
              (Running (KnnQueryBatch_start 2 two_queries)) <= 12)%nat
    /\ (joined b = true
        <-> moves 2 (Fixture.indexed true three_points)
                  [1; 1; 0; 0; 0; 0; 0; 1; 1; 1; 1; 0]%nat
                  (Running (KnnQueryBatch_start 2 two_queries)) = 12%nat).
Proof.
  destruct (batch_takes_every_step_once (L := Fixture.seq_search)
              (Fixture.indexed true three_points) (Fixture.mkSeq true three_points)
              2 2 two_queries [1; 1; 0; 0; 0; 0; 0; 1; 1; 1; 1; 0]%nat eq_refl)
    as (b & Hrun & _ & Hle & Hiff).
  exists b. split; [exact Hrun|]. split; [exact Hle|]. apply Hiff. lia.
Defined.

Example init_unknown_distance :
  init (L := Fixture.seq_search) "l1" [] "seq_search" kDataVector 6
  = PyErr "unknown dist type - 6"
  /\ init (L := Fixture.seq_search) "l1" [PyInt 3] "seq_search" kDataVector 6
     = PyErr "failed to read item from list"
  /\ init (L := Fixture.seq_search) "cosine" [] "seq_search" kDataVector kDistFloat
     = Thrown
  /\ init (L := Fixture.seq_search) "l1" [] "no such method" 77 kDistFloat
     = Return (mkWrapper (L := Fixture.seq_search) kDistFloat 77 "l1" "no such method"
                         nullptr tt []).
Proof. split; [reflexivity|]. split; [reflexivity|]. split; reflexivity. Qed.

Lemma parameter_lists_are_read_first_witness :
  createIndex [PyString "M=16"; PyInt 3] (Fixture.indexed true three_points)
  = (Fixture.indexed true three_points, PyErr "Cannot convert an argument to a list")
  /\ setQueryTimeParams (M := seq_search_methods) [PyString "M=16"; PyInt 3]
       (Fixture.indexed true three_points)
     = (Fixture.indexed true three_points, PyErr "Cannot convert an argument to a list").
Proof.
  destruct (parameter_lists_are_read_first (L := Fixture.seq_search)
              (M := seq_search_methods) [PyString "M=16"; PyInt 3]
              (Fixture.indexed true three_points))
    as (Hcreate & Hset & _).
  - apply Exists_cons_tl, Exists_cons_hd. reflexivity.
  - split; [exact Hcreate|exact Hset].
Defined.

Lemma fresh_handle_has_no_index_witness :
  getDataPointQty (Fixture.stored kDataVector []) = (Fixture.stored kDataVector [], Return (PyInt 0))
  /\ saveIndex (M := seq_search_methods) "index.bin" (Fixture.stored kDataVector [])
     = (Fixture.stored kDataVector [], Undefined)
  /\ freeIndex (Fixture.stored kDataVector []) = Return Py_None.
Proof.
  destruct (fresh_handle_has_no_index (L := Fixture.seq_search) (M := seq_search_methods)
              "l1" [] "seq_search" kDataVector kDistFloat (Fixture.stored kDataVector [])
              eq_refl)
    as (Hqty & _ & Hsave & _ & Hfree).
  split; [exact Hqty|]. split; [exact (Hsave "index.bin")|exact Hfree].
Defined.


(** Saving and setting query-time parameters on a built index; the script
    ends with the call that throws. *)
Example save_and_set_on_built_index :
  script (M := seq_search_methods)
    [Call_saveIndex "index.bin"; Call_setQueryTimeParams [];
     Call_setQueryTimeParams [PyInt 10]; Call_setQueryTimeParams [PyString "ef=10"];
     Call_saveIndex "again.bin"]
    (Fixture.indexed true three_points)
  = Some (Fixture.indexed true three_points,
          [Return Py_None; Return Py_None; PyErr "Cannot convert an argument to a list";
           Thrown])
  /\ saveIndex (M := seq_search_methods) "" (Fixture.indexed true three_points)
     = (Fixture.indexed true three_points, Thrown).
Proof. split; reflexivity. Qed.

(** An integer beyond the doubles is no number for [readVector]: the query
    and the point that hold one are refused, on every state of the index
    reference. *)
Example integer_beyond_the_doubles :
  is_number too_large = false
  /\ knnQuery 1 (PyList [too_large]) (Fixture.indexed true three_points)
     = (Fixture.indexed true three_points, PyErr "failed to read item from list")
  /\ knnQuery 1 (PyList [too_large]) (Fixture.stored kDataVector three_points)
     = (Fixture.stored kDataVector three_points, PyErr "failed to read item from list")
  /\ addDataPoint 1 (PyList [too_large]) (Fixture.stored kDataVector three_points)
     = (Fixture.stored kDataVector three_points, PyErr "Cannot create a data-point object!")
  /\ is_number (PyInt (2 ^ 1024 - 2 ^ 970 - 1)) = true
  /\ is_number (PyInt (2 ^ 1024 - 2 ^ 970)) = false.
Proof. repeat split; reflexivity. Qed.

(** With a NaN among the distances the answer is not ordered: the nearest
    point comes last.  The candidates are not comparable. *)
Example knn_query_nan_unordered :
  KnnQuery 3 origin (Fixture.indexed true nan_points)
  = Return (PyList [PyInt 10; PyInt 11; PyInt 12])
  /\ fst <$> Index_Search (Library := Fixture.seq_search)
               (Fixture.mkSeq true nan_points) tt origin 3
     = [float32_of_Z 1; S754_nan; float32_of_Z 0]
  /\ ~ comparable (L := Fixture.seq_search)
        (Index_Search (Library := Fixture.seq_search)
           (Fixture.mkSeq true nan_points) tt origin 3).
Proof.
  split; [reflexivity|]. split; [reflexivity|].
  intros H.
  specialize (H (float32_of_Z 0, Fixture.point 12 [0; 0])
                (S754_nan, mkObject 11 (-1) [S754_nan; Fixture.f 0])
                (float32_of_Z 1, Fixture.point 10 [1; 0])).
  assert (SFltb (float32_of_Z 0) (float32_of_Z 1) = false) as Hlt; [|done].
  apply H; try reflexivity.
  - apply list_elem_of_further, list_elem_of_further. left.
  - apply list_elem_of_further. left.
  - left.
Qed.




